(** * Budget grocery recommender: a shallow embedding and its properties

    The development follows the Python sources of the application:
    - [src/models/budget_ranker.py]      (BudgetRanker)
    - [src/models/similarity_search.py]  (ProductSearchIndex)
    - [src/models/price_predictor.py]    (PricePredictor)
    - [src/pipeline/inference_pipeline.py] (InferencePipeline)
    - [src/api/endpoints/recommend.py]   (recommend_basket)
    - [src/api/endpoints/search.py]      (search_products, price_trend)
    - [src/data/cleaner.py], [src/data/feature_engineering.py],
      [src/data/loader.py]               (cleaning and feature steps)

    Numbers.  The sources compute on IEEE doubles held in pandas columns.
    In the first part a column value is a [float]: either [NaN] (a null
    cell) or an exact rational.  Comparisons with [NaN] are false and
    arithmetic propagates it, as in numpy; rounding error of binary floating
    point is not modelled there, and the properties stated on it are those
    that do not depend on it (filters, orders, shapes, bounds).  The module
    [Binary64] repeats the ranker, the pipeline and the planner on IEEE
    doubles; the properties that depend on how sums and roundings of
    doubles behave are stated there. *)

From Stdlib Require Import List Bool ZArith QArith Qround Qabs Lia Lqa.
From Stdlib Require Import String Ascii Permutation Sorting.Sorted.
From Stdlib Require Floats.
Import ListNotations.

Local Open Scope Z_scope.
Local Open Scope Q_scope.

(* ------------------------------------------------------------------ *)
(** ** Column values *)

Inductive float : Type :=
| NaN : float
| Fin : Q -> float.

Module F.

(** [a <= b] on cells; false as soon as one side is null. *)
Definition le (a b : float) : bool :=
  match a, b with
  | Fin x, Fin y => Qle_bool x y
  | _, _ => false
  end.

(** [a > b]. *)
Definition gt (a b : float) : bool :=
  match a, b with
  | Fin x, Fin y => negb (Qle_bool x y)
  | _, _ => false
  end.

(** [a < b]. *)
Definition lt (a b : float) : bool := gt b a.

(** [a >= b]. *)
Definition ge (a b : float) : bool := le b a.

Definition add (a b : float) : float :=
  match a, b with
  | Fin x, Fin y => Fin (x + y)
  | _, _ => NaN
  end.

Definition sub (a b : float) : float :=
  match a, b with
  | Fin x, Fin y => Fin (x - y)
  | _, _ => NaN
  end.

Definition mul (a b : float) : float :=
  match a, b with
  | Fin x, Fin y => Fin (x * y)
  | _, _ => NaN
  end.

Definition div (a b : float) : float :=
  match a, b with
  | Fin x, Fin y => Fin (x / y)
  | _, _ => NaN
  end.

(** [Series.fillna(v)]. *)
Definition fillna (v : Q) (a : float) : float :=
  match a with
  | NaN => Fin v
  | Fin _ => a
  end.

Definition isna (a : float) : bool :=
  match a with
  | NaN => true
  | Fin _ => false
  end.

(** Numeric equality of cells ([NaN] is only related to [NaN]). *)
Definition eq (a b : float) : Prop :=
  match a, b with
  | NaN, NaN => True
  | Fin x, Fin y => x == y
  | _, _ => False
  end.

End F.

(** Round half to even, the rule of [numpy.rint] and of Python's [round]. *)
Definition round_half_even (x : Q) : Z :=
  let f := Qfloor x in
  let d := x - inject_Z f in
  if Qle_bool d (1 # 2)
  then (if Qle_bool (1 # 2) d
        then (if Z.even f then f else (f + 1)%Z)
        else f)
  else (f + 1)%Z.

(** [round(x, ndigits)] on a rational. *)
Definition round_dec (ndigits : nat) (x : Q) : Q :=
  let s := inject_Z (10 ^ Z.of_nat ndigits) in
  inject_Z (round_half_even (x * s)) / s.

(** [Series.round(ndigits)] on exact rationals: null cells stay null.  The
    roundings of doubles are [Binary64.np_round] and [Binary64.py_round]. *)
Definition fround (ndigits : nat) (a : float) : float :=
  match a with
  | NaN => NaN
  | Fin x => Fin (round_dec ndigits x)
  end.

(* ------------------------------------------------------------------ *)
(** ** Python sequence operations *)

Section Sequences.
Context {A : Type}.

(** [xs[:k]]: the first [k] elements, or all but the last [-k] when [k]
    is negative. *)
Definition slice_to (k : Z) (xs : list A) : list A :=
  if (0 <=? k)%Z
  then firstn (Z.to_nat k) xs
  else firstn (List.length xs - Z.to_nat (- k)) xs.

(** [DataFrame.head(n)] has the same convention as [xs[:n]]. *)
Definition head (n : Z) (xs : list A) : list A := slice_to n xs.

(** [xs[i]] with Python's negative indices; [None] stands for IndexError. *)
Definition py_index (xs : list A) (i : Z) : option A :=
  if (0 <=? i)%Z
  then nth_error xs (Z.to_nat i)
  else if (Z.of_nat (List.length xs) + i <? 0)%Z
       then None
       else nth_error xs (Z.to_nat (Z.of_nat (List.length xs) + i)).

(** Insertion of [x] into a list ordered by [leb], in front of the
    elements it is below or equal to. *)
Fixpoint insert_by (leb : A -> A -> bool) (x : A) (xs : list A) : list A :=
  match xs with
  | [] => [x]
  | y :: ys =>
      if leb x y
      then x :: xs
      else y :: insert_by leb x ys
  end.

(** Stable ascending sort (ties keep their input order).  It stands for
    [numpy.argsort] and for the sort behind [DataFrame.sort_values]; numpy
    leaves the order of ties open for its default kind, here they are
    kept in input order. *)
Fixpoint sort_by (leb : A -> A -> bool) (xs : list A) : list A :=
  match xs with
  | [] => []
  | x :: xs' => insert_by leb x (sort_by leb xs')
  end.

(** Comparison of two elements through a rational key. *)
Definition key_leb (key : A -> Q) (x y : A) : bool :=
  Qle_bool (key x) (key y).

End Sequences.

(* ------------------------------------------------------------------ *)
(** ** Errors *)

Inductive exn : Type :=
| RuntimeError (msg : string)
| IndexError
| ValueError
| AssertionError
| HTTPException (status_code : Z) (detail : string).

Inductive result (A : Type) : Type :=
| Ok (a : A)
| Raise (e : exn).

Arguments Ok {A} a.
Arguments Raise {A} e.

Definition bind {A B : Type} (m : result A) (k : A -> result B) : result B :=
  match m with
  | Ok a => k a
  | Raise e => Raise e
  end.

Declare Scope result_scope.
Delimit Scope result_scope with result.
Notation "x <- m ;; k" := (bind m (fun x => k))
  (at level 61, m at next level, right associativity) : result_scope.

(** Run [f] on every element, stopping at the first exception. *)
Fixpoint mapM {A B : Type} (f : A -> result B) (xs : list A) : result (list B) :=
  match xs with
  | [] => Ok []
  | x :: xs' =>
      match f x with
      | Raise e => Raise e
      | Ok y =>
          match mapM f xs' with
          | Raise e => Raise e
          | Ok ys => Ok (y :: ys)
          end
      end
  end.

(* ------------------------------------------------------------------ *)
(** ** Catalog rows and frames *)

(** One row of the product table.  [search_score] is the column that
    retrieval adds; a frame records whether it carries that column.
    [RunDate] is the observation date in days, [None] for a missing date. *)
Record Row : Type := mkRow {
  Sku : string;
  Product_Name : string;
  Brand : string;
  Sub_category : string;
  Package_price : float;
  price_per_100g : float;
  discount_pct : float;
  value_score : float;
  is_special : Z;
  in_stock : Z;
  city : string;
  state : string;
  Product_Url : string;
  RunDate : option Z;
  search_score : float
}.

Definition set_search_score (r : Row) (s : float) : Row :=
  mkRow (Sku r) (Product_Name r) (Brand r) (Sub_category r)
        (Package_price r) (price_per_100g r) (discount_pct r) (value_score r)
        (is_special r) (in_stock r) (city r) (state r) (Product_Url r)
        (RunDate r) s.

(** A frame: its rows, and whether ["search_score" in df.columns]. *)
Record DataFrame : Type := mkDF {
  has_search_score : bool;
  rows : list Row
}.

(** [pd.DataFrame()]. *)
Definition empty_frame : DataFrame := mkDF false [].

(** [df.empty]. *)
Definition empty (df : DataFrame) : bool :=
  match rows df with
  | [] => true
  | _ :: _ => false
  end.

(** [df.sort_values(col, ascending=False)] on a float column: the non-null
    keys are reversed, sorted ascending and reversed again; rows with a
    null key come last in their input order. *)
Definition float_key (key : Row -> float) (r : Row) : Q :=
  match key r with
  | Fin q => q
  | NaN => 0
  end.

Definition sort_values_desc (key : Row -> float) (rs : list Row) : list Row :=
  let non_nans := filter (fun r => negb (F.isna (key r))) rs in
  let nans := filter (fun r => F.isna (key r)) rs in
  rev (sort_by (key_leb (float_key key)) (rev non_nans)) ++ nans.

(* ------------------------------------------------------------------ *)
(** ** BudgetRanker ([src/models/budget_ranker.py]) *)

Definition MAX_LABEL : Z := 30.

(** [self.model] is [None] until trained; a trained model maps a feature
    row to its raw score. *)
Record BudgetRanker : Type := mkRanker {
  model : option (Row -> float)
}.

(** [BudgetRanker()]: no model. *)
Definition BudgetRanker_init : BudgetRanker := mkRanker None.

(** The rule-based score: [value_score.fillna(0) + discount_pct.fillna(0)],
    as an exact sum ([Binary64.rule_score] is the sum of doubles). *)
Definition rule_score (r : Row) : float :=
  F.add (F.fillna 0 (value_score r)) (F.fillna 0 (discount_pct r)).

(** The [_total_score] column of [rank_products]. *)
Definition total_score (self : BudgetRanker) (has_ss : bool) (r : Row) : float :=
  match model self with
  | Some predict =>
      if has_ss
      then F.add (predict r) (F.mul (search_score r) (Fin 5))
      else predict r
  | None =>
      if has_ss
      then F.add (rule_score r) (F.mul (search_score r) (Fin 5))
      else rule_score r
  end.

Definition rank_products (self : BudgetRanker) (df : DataFrame)
           (budget : Q) (top_n : Z) : DataFrame :=
  let candidates :=
    filter (fun r => F.le (Package_price r) (Fin budget)) (rows df) in
  match candidates with
  | [] => empty_frame
  | _ :: _ =>
      let candidates' :=
        if has_search_score df
        then filter (fun r => F.gt (search_score r) (Fin (1 # 100))) candidates
        else candidates in
      match candidates' with
      | [] => empty_frame
      | _ :: _ =>
          mkDF (has_search_score df)
               (head top_n
                  (sort_values_desc (total_score self (has_search_score df))
                                    candidates'))
      end
  end.

(** The candidates that [rank_products] sorts. *)
Definition guarded (df : DataFrame) (budget : Q) : list Row :=
  filter (fun r => if has_search_score df
                   then F.gt (search_score r) (Fin (1 # 100))
                   else true)
         (filter (fun r => F.le (Package_price r) (Fin budget)) (rows df)).

(** *** Relevance labels ([_build_groups_and_labels]) *)

(** Two rows fall in the same [groupby("Sub_category")] group. *)
Definition same_group (a b : Row) : bool :=
  String.eqb (Sub_category a) (Sub_category b).

(** Number of rows of [rs] that satisfy [p]. *)
Definition count (p : Row -> bool) (rs : list Row) : nat :=
  List.length (filter p rs).

(** The group mates of [r] whose value score is below [v]. *)
Definition below (r : Row) (v : Q) (x : Row) : bool :=
  same_group x r && F.lt (value_score x) (Fin v).

(** The group mates of [r] whose value score equals [v]. *)
Definition tied (r : Row) (v : Q) (x : Row) : bool :=
  same_group x r && F.le (value_score x) (Fin v) && F.ge (value_score x) (Fin v).

(** [rank(method="first", ascending=True)] of row [r] inside its group:
    one more than the number of smaller values, ties ranked in order of
    appearance ([before] holds the rows above [r] in the frame).  A null
    value score keeps a null rank. *)
Definition raw_rank (all before : list Row) (r : Row) : float :=
  match value_score r with
  | NaN => NaN
  | Fin v =>
      Fin (inject_Z (Z.of_nat (1 + count (below r v) all + count (tied r v) before)))
  end.

(** The [_raw_rank] column, row by row. *)
Fixpoint rank_column (all before rest : list Row) : list (Row * float) :=
  match rest with
  | [] => []
  | r :: rest' => (r, raw_rank all before r) :: rank_column all (before ++ [r]) rest'
  end.

(** The non-null ranks of the group of [r]. *)
Definition group_ranks (ranked : list (Row * float)) (r : Row) : list Q :=
  flat_map (fun xk =>
              if same_group (fst xk) r
              then match snd xk with
                   | Fin q => [q]
                   | NaN => []
                   end
              else []) ranked.

Definition Qmin (x y : Q) : Q := if Qle_bool x y then x else y.
Definition Qmax (x y : Q) : Q := if Qle_bool x y then y else x.

(** [Series.min()] and [Series.max()] skip nulls; an all-null series gives
    a null. *)
Definition series_min (qs : list Q) : float :=
  match qs with
  | [] => NaN
  | q :: qs' => Fin (fold_left Qmin qs' q)
  end.

Definition series_max (qs : list Q) : float :=
  match qs with
  | [] => NaN
  | q :: qs' => Fin (fold_left Qmax qs' q)
  end.

(** [mx == mn] on cells. *)
Definition feqb (a b : float) : bool :=
  match a, b with
  | Fin x, Fin y => Qeq_bool x y
  | _, _ => false
  end.

(** [scale_group], for the row [r] of rank [k]: a group whose ranks all
    coincide gets 0; otherwise the rank is rescaled to [0, MAX_LABEL] and
    rounded.  [astype(int)] fails on a null. *)
Definition scale_group (ranked : list (Row * float)) (r : Row) (k : float)
  : result Z :=
  let mn := series_min (group_ranks ranked r) in
  let mx := series_max (group_ranks ranked r) in
  if feqb mx mn
  then Ok 0%Z
  else match F.mul (F.div (F.sub k mn) (F.sub mx mn)) (Fin (inject_Z MAX_LABEL)) with
       | NaN => Raise ValueError
       | Fin scaled => Ok (round_half_even scaled)
       end.

(** [Series.clip(lower, upper)] on integers. *)
Definition clip (lower upper x : Z) : Z := Z.min (Z.max x lower) upper.

(** Group sizes in order of first appearance
    ([groupby("Sub_category", sort=False).size()]). *)
Fixpoint group_sizes_from (all seen rest : list Row) : list nat :=
  match rest with
  | [] => []
  | r :: rest' =>
      if existsb (same_group r) seen
      then group_sizes_from all seen rest'
      else count (fun x => same_group x r) all
             :: group_sizes_from all (r :: seen) rest'
  end.

Definition group_sizes (rs : list Row) : list nat :=
  group_sizes_from rs [] rs.

(** [sort_values("Sub_category")]. *)
Definition sort_by_sub_category (rs : list Row) : list Row :=
  sort_by (fun a b => String.leb (Sub_category a) (Sub_category b)) rs.

(** [_build_groups_and_labels]: the sorted frame with its [relevance]
    column, and the group sizes. *)
Definition _build_groups_and_labels (df : list Row)
  : result (list (Row * Z) * list nat) :=
  let df := sort_by_sub_category df in
  let ranked := rank_column df [] df in
  (relevance <-
     mapM (fun rk =>
             match scale_group ranked (fst rk) (snd rk) with
             | Ok l => Ok (fst rk, clip 0 MAX_LABEL l)
             | Raise e => Raise e
             end) ranked ;;
   Ok (relevance, group_sizes df))%result.

(* ------------------------------------------------------------------ *)
(** ** ProductSearchIndex ([src/models/similarity_search.py]) *)

(** The encoder together with the FAISS inner-product index: for a query
    and [k] it yields the [(score, label)] pairs of [index.search], best
    first.  The library is outside the repository and stays abstract. *)
Record FaissIndex : Type := mkFaiss {
  faiss_search : string -> Z -> result (list (Q * Z))
}.

(** The fitted vectorizer with its matrix: the cosine similarity of a query
    to every indexed name ([cosine_similarity(q_vec, matrix).flatten()]). *)
Record TfidfIndex : Type := mkTfidf {
  cosine_scores : string -> list Q
}.

Record ProductSearchIndex : Type := mkIndex {
  index : option FaissIndex;
  product_df : list Row;
  use_faiss : bool;
  tfidf : option TfidfIndex
}.

(** [scores.argsort()]: the positions of [scores] in ascending order of
    score. *)
Definition argsort (scores : list Q) : list nat :=
  sort_by (key_leb (fun i => nth i scores 0)) (seq 0 (List.length scores)).

Definition _search_faiss (self : ProductSearchIndex) (ix : FaissIndex)
           (query : string) (top_k : Z) : result DataFrame :=
  (hits <- faiss_search ix query top_k ;;
   result <- mapM (fun hit =>
                     match py_index (product_df self) (snd hit) with
                     | Some r => Ok (set_search_score r (Fin (fst hit)))
                     | None => Raise IndexError
                     end) hits ;;
   Ok (mkDF true result))%result.

Definition _search_tfidf (self : ProductSearchIndex) (tf : TfidfIndex)
           (query : string) (top_k : Z) : result DataFrame :=
  let scores := cosine_scores tf query in
  let top_idx := slice_to top_k (rev (argsort scores)) in
  (result <- mapM (fun i =>
                     match nth_error (product_df self) i with
                     | Some r => Ok (set_search_score r (Fin (nth i scores 0)))
                     | None => Raise IndexError
                     end) top_idx ;;
   Ok (mkDF true result))%result.

Definition search (self : ProductSearchIndex) (query : string) (top_k : Z)
  : result DataFrame :=
  match use_faiss self, index self, tfidf self with
  | true, Some ix, _ => _search_faiss self ix query top_k
  | _, _, Some tf => _search_tfidf self tf query top_k
  | _, _, None => Raise (RuntimeError "Index not built. Call build() first.")
  end.

(* ------------------------------------------------------------------ *)
(** ** InferencePipeline ([src/pipeline/inference_pipeline.py]) *)

Definition lower_ascii (c : ascii) : ascii :=
  let n := nat_of_ascii c in
  if ((65 <=? n) && (n <=? 90))%nat then ascii_of_nat (n + 32) else c.

Definition upper_ascii (c : ascii) : ascii :=
  let n := nat_of_ascii c in
  if ((97 <=? n) && (n <=? 122))%nat then ascii_of_nat (n - 32) else c.

(** [str.lower()] and [str.upper()], on ASCII letters. *)
Fixpoint lower (s : string) : string :=
  match s with
  | EmptyString => EmptyString
  | String c s' => String (lower_ascii c) (lower s')
  end.

Fixpoint upper (s : string) : string :=
  match s with
  | EmptyString => EmptyString
  | String c s' => String (upper_ascii c) (upper s')
  end.

(** Truth value of an optional string: [None] and [""] are false. *)
Definition truthy (s : option string) : bool :=
  match s with
  | Some (String _ _) => true
  | _ => false
  end.

Definition get (s : option string) : string :=
  match s with
  | Some x => x
  | None => EmptyString
  end.

(** A boolean mask is applied only if it selects at least one row. *)
Definition soft_filter (mask : Row -> bool) (candidates : list Row) : list Row :=
  if (0 <? count mask candidates)%nat
  then filter mask candidates
  else candidates.

Definition city_match (city' : string) (r : Row) : bool :=
  String.eqb (lower (city r)) (lower city').

Definition state_match (state' : string) (r : Row) : bool :=
  String.eqb (upper (state r)) (upper state').

(** Step 2 of [recommend]: the city filter, then the state filter on what
    the city step left. *)
Definition location_filter (city' state' : option string)
           (candidates : list Row) : list Row :=
  let candidates :=
    if truthy city'
    then soft_filter (city_match (get city')) candidates
    else candidates in
  if truthy state'
  then soft_filter (state_match (get state')) candidates
  else candidates.

(** The records returned to the caller (the [OUTPUT_COLUMNS] of a row). *)
Module Out.
Record t : Type := mk {
  Product_Name : string;
  Brand : string;
  Sub_category : string;
  Package_price : float;
  price_per_100g : float;
  discount_pct : float;
  value_score : float;
  is_special : Z;
  in_stock : Z;
  city : string;
  state : string;
  Product_Url : string
}.
End Out.

(** Step 4 of [recommend] on one ranked row. *)
Definition to_record (r : Row) : Out.t :=
  Out.mk (Product_Name r) (Brand r) (Sub_category r)
         (fround 2 (Package_price r))
         (fround 2 (price_per_100g r))
         (fround 1 (F.mul (discount_pct r) (Fin 100)))
         (fround 2 (value_score r))
         (is_special r) (in_stock r) (city r) (state r) (Product_Url r).

Record InferencePipeline : Type := mkPipeline {
  ranker : BudgetRanker;
  search_index : ProductSearchIndex;
  full_df : list Row
}.

Definition recommend (self : InferencePipeline) (query : string) (budget : Q)
           (city' state' : option string) (top_n : Z) : result (list Out.t) :=
  (candidates <- search (search_index self) query 50 ;;
   if empty candidates then Ok []
   else
     let candidates :=
       mkDF (has_search_score candidates)
            (location_filter city' state' (rows candidates)) in
     let ranked := rank_products (ranker self) candidates budget top_n in
     if empty ranked then Ok []
     else Ok (map to_record (rows ranked)))%result.

(* ------------------------------------------------------------------ *)
(** ** recommend_basket ([src/api/endpoints/recommend.py]) *)

Module Request.
Record t : Type := mk {
  items : list string;
  total_budget : Q;
  city : option string;
  state : option string
}.
End Request.

Record BasketItem : Type := mkBasketItem {
  query : string;
  best_match : option Out.t;
  alternatives : list Out.t;
  estimated_cost : float
}.

Module Response.
Record t : Type := mk {
  total_budget : Q;
  estimated_total : float;
  within_budget : bool;
  basket : list BasketItem
}.
End Response.

(** The injected pipeline, seen through its [recommend] method:
    query, budget, city, state, top_n. *)
Definition Recommender : Type :=
  string -> Q -> option string -> option string -> Z -> result (list Out.t).

(** One invocation of [pipeline.recommend], as recorded in the call log. *)
Record Call : Type := mkCall {
  call_query : string;
  call_budget : Q;
  call_top_n : Z
}.

(** Computations that may raise and that log the pipeline calls they make. *)
Definition Traced (A : Type) : Type := list Call -> result (A * list Call).

Definition ret {A : Type} (a : A) : Traced A := fun log => Ok (a, log).

Definition tbind {A B : Type} (m : Traced A) (k : A -> Traced B) : Traced B :=
  fun log =>
    match m log with
    | Ok (a, log') => k a log'
    | Raise e => Raise e
    end.

Definition throw {A : Type} (e : exn) : Traced A := fun _ => Raise e.

Declare Scope traced_scope.
Delimit Scope traced_scope with traced.
Notation "x <- m ;; k" := (tbind m (fun x => k))
  (at level 61, m at next level, right associativity) : traced_scope.

(** [pipeline.recommend(query=..., budget=..., city=..., state=..., top_n=...)]. *)
Definition call_recommend (pipeline : Recommender) (q : string) (budget : Q)
           (city' state' : option string) (top_n : Z) : Traced (list Out.t) :=
  fun log =>
    match pipeline q budget city' state' top_n with
    | Ok results => Ok (results, log ++ [mkCall q budget top_n])
    | Raise e => Raise e
    end.

(** The body of the loop over [request.items], up to the basket line. *)
Definition basket_line (pipeline : Recommender) (request : Request.t)
           (per_item_budget : Q) (item_query : string) : Traced BasketItem :=
  (results <- call_recommend pipeline item_query per_item_budget
                (Request.city request) (Request.state request) 3 ;;
   results <- match results with
              | [] => call_recommend pipeline item_query
                        (Request.total_budget request)
                        (Request.city request) (Request.state request) 3
              | _ :: _ => ret results
              end ;;
   match results with
   | best :: alternatives' =>
       ret (mkBasketItem item_query (Some best) alternatives'
                         (Out.Package_price best))
   | [] =>
       ret (mkBasketItem item_query None [] (Fin 0))
   end)%traced.

(** The loop, with its two accumulators. *)
Fixpoint basket_loop (pipeline : Recommender) (request : Request.t)
         (per_item_budget : Q) (items : list string)
         (basket : list BasketItem) (estimated_total : float)
  : Traced (list BasketItem * float) :=
  match items with
  | [] => ret (basket, estimated_total)
  | item_query :: items' =>
      (line <- basket_line pipeline request per_item_budget item_query ;;
       basket_loop pipeline request per_item_budget items'
                   (basket ++ [line])
                   (F.add estimated_total (estimated_cost line)))%traced
  end.

(** The handler, with exact sums; [Binary64.recommend_basket] accumulates
    and compares doubles. *)
Definition recommend_basket (request : Request.t) (pipeline : Recommender)
  : Traced Response.t :=
  let n_items := List.length (Request.items request) in
  if (n_items =? 0)%nat
  then throw (HTTPException 400 "Items list cannot be empty")
  else
    let per_item_budget :=
      Request.total_budget request / inject_Z (Z.of_nat n_items) in
    (out <- basket_loop pipeline request per_item_budget
              (Request.items request) [] (Fin 0) ;;
     let estimated_total := snd out in
     let within_budget :=
       F.le estimated_total (Fin (Request.total_budget request)) in
     ret (Response.mk (Request.total_budget request)
                      (fround 2 estimated_total)
                      within_budget
                      (fst out)))%traced.

(* ------------------------------------------------------------------ *)
(** ** PricePredictor ([src/models/price_predictor.py]) *)

(** [predict_last] stands for the fitted scaler and regression applied to
    the features of the last row of a feature frame. *)
Record PricePredictor : Type := mkPredictor {
  predict_last : list Row -> float;
  is_trained : bool;
  min_history : nat
}.

(** [PricePredictor()]: an unfitted model, [min_history = 3]. *)
Definition PricePredictor_init (unfitted : list Row -> float) : PricePredictor :=
  mkPredictor unfitted false 3.

Record Forecast : Type := mkForecast {
  sku : string;
  predicted_price : float;
  last_known_price : float;
  price_change : option float;
  trend : string;
  confidence : string
}.

(** The dictionary returned by [predict_next_price]. *)
Inductive Prediction : Type :=
| ErrorDict (error : string)
| ForecastDict (f : Forecast).

Definition date_leb (a b : Row) : bool :=
  match RunDate a, RunDate b with
  | Some x, Some y => (x <=? y)%Z
  | _, _ => true
  end.

(** The rows kept and their order in [_build_time_features]: rows without
    a date or a price are dropped, the rest is ordered by date. *)
Definition _build_time_features (df : list Row) : list Row :=
  let df :=
    filter (fun r => match RunDate r with
                     | Some _ => negb (F.isna (Package_price r))
                     | None => false
                     end) df in
  sort_by date_leb df.

(** [max(a, b)] of Python on cells: [b] only if [b > a]. *)
Definition py_max (a b : float) : float := if F.gt b a then b else a.

Definition predict_next_price (self : PricePredictor) (sku' : string)
           (df : list Row) : result Prediction :=
  let sku_df := filter (fun r => String.eqb (Sku r) sku') df in
  match rev sku_df with
  | [] => Ok (ErrorDict ("Sku '" ++ sku' ++ "' not found"))
  | last :: _ =>
      let last_known := Package_price last in
      if (List.length sku_df <? min_history self)%nat || negb (is_trained self)
      then Ok (ForecastDict
                 (mkForecast sku' last_known last_known None "stable" "low"))
      else
        let sku_df := _build_time_features sku_df in
        match sku_df with
        | [] => Raise ValueError
        | _ :: _ =>
            let predicted := predict_last self sku_df in
            let predicted := py_max predicted (Fin (1 # 10)) in
            let change := F.sub predicted last_known in
            let trend :=
              if F.gt change (Fin (2 # 10)) then "rising"
              else if F.lt change (Fin (- (2 # 10))) then "falling"
              else "stable" in
            Ok (ForecastDict
                  (mkForecast sku'
                     (fround 2 predicted)
                     (fround 2 last_known)
                     (Some (fround 2 change))
                     trend
                     (if (5 <=? List.length sku_df)%nat then "medium" else "low")))
        end
  end%string.

(* ------------------------------------------------------------------ *)
(** ** Sample data

    The fixture of [tests/test_ranker.py], and the same rows as retrieval
    would return them, with a search score. *)

Definition product (name sub_category : string) (price per100 disc value : Q)
           (special : Z) : Row :=
  mkRow name name "" sub_category (Fin price) (Fin per100) (Fin disc)
        (Fin value) special 1 "Sydney" "NSW" "" None NaN.

Definition cheap_chicken : Row :=
  product "Cheap Chicken" "Poultry" 5 (1 # 2) 0 2 0.
Definition mid_chicken : Row :=
  product "Mid Chicken" "Poultry" 10 1 (1 # 10) 1 1.
Definition expensive_chicken : Row :=
  product "Expensive Chicken" "Poultry" 20 2 (5 # 100) (1 # 2) 0.
Definition fish : Row :=
  product "Fish" "Seafood" 8 (8 # 10) (15 # 100) (125 # 100) 1.

Definition sample_products : DataFrame :=
  mkDF false [cheap_chicken; mid_chicken; expensive_chicken; fish].

Definition sample_candidates : DataFrame :=
  mkDF true [set_search_score cheap_chicken (Fin (8 # 10));
             set_search_score mid_chicken (Fin (8 # 10));
             set_search_score expensive_chicken (Fin (9 # 10));
             set_search_score fish (Fin 0)].

(* ------------------------------------------------------------------ *)
(** ** The specification's reading of the soft location filter

    "Applies city filter only if it leaves at least one candidate, same
    for state, applied in sequence." *)

Definition spec_apply_if_nonemptying (mask : Row -> bool)
           (candidates : list Row) : list Row :=
  match filter mask candidates with
  | [] => candidates
  | kept => kept
  end.

Definition spec_city_stage (city' : option string) (candidates : list Row)
  : list Row :=
  match city' with
  | Some (String c cs) =>
      spec_apply_if_nonemptying (city_match (String c cs)) candidates
  | _ => candidates
  end.

Definition spec_state_stage (state' : option string) (candidates : list Row)
  : list Row :=
  match state' with
  | Some (String c cs) =>
      spec_apply_if_nonemptying (state_match (String c cs)) candidates
  | _ => candidates
  end.

(** A two-row index in lexical mode, for the examples. *)
Definition melbourne_fish : Row :=
  mkRow "Fish" "Fish" "" "Seafood" (Fin 8) (Fin (8 # 10)) (Fin (15 # 100))
        (Fin (125 # 100)) 1 1 "Melbourne" "VIC" "" None NaN.

Definition sample_tfidf : TfidfIndex :=
  mkTfidf (fun q => if String.eqb q "chicken" then [9 # 10; 0]
                    else if String.eqb q "fish" then [0; 7 # 10]
                    else [0; 0]).

Definition sample_index : ProductSearchIndex :=
  mkIndex None [cheap_chicken; melbourne_fish] false (Some sample_tfidf).

Definition sample_pipeline : InferencePipeline :=
  mkPipeline BudgetRanker_init sample_index [cheap_chicken; melbourne_fish].

(* ------------------------------------------------------------------ *)
(** ** Assumptions on the search back ends *)

(** What the code relies on from [faiss.Index.search(x, k)]: exactly [k]
    hits, best inner product first. *)
Definition faiss_contract (ix : FaissIndex) : Prop :=
  forall q k hits,
    faiss_search ix q k = Ok hits ->
    Z.of_nat (List.length hits) = k
    /\ StronglySorted (fun x y => fst y <= fst x) hits.

(** The index answers [query] in lexical mode, with one similarity per
    indexed row (what [_build_tfidf] sets up). *)
Definition lexical_built (self : ProductSearchIndex) (query : string) : Prop :=
  (use_faiss self = false \/ index self = None)
  /\ exists tf, tfidf self = Some tf
                /\ List.length (cosine_scores tf query)
                   = List.length (product_df self).

(** A semantic index over the two sample rows: the hits for [k = 3] are
    padded with label [-1]. *)
Definition sample_faiss : FaissIndex :=
  mkFaiss (fun q k =>
             if (k =? 3)%Z then Ok [(9 # 10, 0%Z); (1 # 10, 1%Z); (-(1000), (-1)%Z)]
             else if (k =? 1)%Z then Ok [(9 # 10, 0%Z)]
             else Raise AssertionError).

Definition sample_semantic_index : ProductSearchIndex :=
  mkIndex (Some sample_faiss) [cheap_chicken; melbourne_fish] true None.

(** Price observations of one product on two dates, in a history that
    also holds another product. *)
Definition observation (sku' : string) (day : Z) (price : Q) : Row :=
  mkRow sku' "Milk 2L" "" "Milk" (Fin price) NaN NaN NaN 0 1
        "Sydney" "NSW" "" (Some day) NaN.

Definition sample_history : list Row :=
  [observation "A001" 100 (65 # 10);
   observation "A002" 100 3;
   observation "A001" 107 7].

(** A fitted predictor whose regression always answers 9.99. *)
Definition sample_predictor : PricePredictor :=
  mkPredictor (fun _ => Fin (999 # 100)) true 3.

(* ------------------------------------------------------------------ *)
(** ** The specification's reading of the basket planner

    "For each item, calls the engine with the per-item budget and top_n=3;
    if that yields nothing, retries once with the full total budget for
    that single item before giving up and recording a null match with zero
    cost for that line." *)

Section PlannerSpec.
Variable pipeline : Recommender.
Variable request : Request.t.
Variable per_item_budget : Q.

Let ask (q : string) (budget : Q) : result (list Out.t) :=
  pipeline q budget (Request.city request) (Request.state request) 3%Z.

(** [line_spec q line calls]: the basket line for the query [q], and the
    pipeline calls spent on it. *)
Inductive line_spec (q : string) : BasketItem -> list Call -> Prop :=
| first_try_hit best alts :
    ask q per_item_budget = Ok (best :: alts) ->
    line_spec q (mkBasketItem q (Some best) alts (Out.Package_price best))
              [mkCall q per_item_budget 3%Z]
| retry_hit best alts :
    ask q per_item_budget = Ok [] ->
    ask q (Request.total_budget request) = Ok (best :: alts) ->
    line_spec q (mkBasketItem q (Some best) alts (Out.Package_price best))
              [mkCall q per_item_budget 3%Z;
               mkCall q (Request.total_budget request) 3%Z]
| retry_miss :
    ask q per_item_budget = Ok [] ->
    ask q (Request.total_budget request) = Ok [] ->
    line_spec q (mkBasketItem q None [] (Fin 0))
              [mkCall q per_item_budget 3%Z;
               mkCall q (Request.total_budget request) 3%Z].

(** The whole basket, item by item, with the calls in order. *)
Inductive plan_spec : list string -> list BasketItem -> list Call -> Prop :=
| plan_done : plan_spec [] [] []
| plan_item q qs line lines calls calls' :
    line_spec q line calls ->
    plan_spec qs lines calls' ->
    plan_spec (q :: qs) (line :: lines) (calls ++ calls').

End PlannerSpec.

(** [sum(line.cost for line in basket)]. *)
Definition sum_costs (basket : list BasketItem) : float :=
  fold_left F.add (map estimated_cost basket) (Fin 0).

(** The cost recorded on a line: the best match's price, or 0 without one. *)
Definition line_cost (line : BasketItem) : float :=
  match best_match line with
  | Some best => Out.Package_price best
  | None => Fin 0
  end.

(** A cell holding a whole number of cents. *)
Definition two_decimals (a : float) : Prop :=
  exists z : Z, F.eq a (Fin (inject_Z z / 100)).

(** The equal share of the request's budget. *)
Definition per_item (request : Request.t) : Q :=
  Request.total_budget request
  / inject_Z (Z.of_nat (List.length (Request.items request))).

(** The scenario of the specification: three items, 40 in total, the last
    one only affordable with the full budget. *)
Definition sample_engine : Recommender :=
  fun q budget _ _ _ =>
    if String.eqb q "bread"
    then if Qle_bool 15 budget then Ok [to_record (product "Bread" "Bakery" 15 1 0 1 0)]
         else Ok []
    else if String.eqb q "caviar" then Ok []
    else Ok [to_record cheap_chicken; to_record fish].

Definition sample_request : Request.t :=
  Request.mk ["chicken"; "caviar"; "bread"]%string 40 None None.

(** The basket planned for [sample_request] by [sample_engine]. *)
Definition sample_basket : list BasketItem :=
  [mkBasketItem "chicken" (Some (to_record cheap_chicken)) [to_record fish]
                (Out.Package_price (to_record cheap_chicken));
   mkBasketItem "caviar" None [] (Fin 0);
   mkBasketItem "bread"
                (Some (to_record (product "Bread" "Bakery" 15 1 0 1 0))) []
                (Out.Package_price
                   (to_record (product "Bread" "Bakery" 15 1 0 1 0)))].

(** A request served by [sample_pipeline]. *)
Definition sample_pipeline_request : Request.t :=
  Request.mk ["chicken"; "fish"; "caviar"]%string 30 None None.

(** The labels of the fixture: the three poultry rows are ranked by value
    score, the single seafood row gets 0. *)
Definition sample_labels : list (Row * Z) :=
  [(cheap_chicken, 30%Z); (mid_chicken, 15%Z); (expensive_chicken, 0%Z);
   (fish, 0%Z)].

(* ------------------------------------------------------------------ *)
(** ** Auxiliary notions for the further properties *)

(** A row is in the requested city and state, as far as they are given
    (case-insensitively, as the location masks compare). *)
Definition matches_location (city' state' : option string) (r : Row) : bool :=
  (if truthy city' then city_match (get city') r else true)
  && (if truthy state' then state_match (get state') r else true).

(** The same test on a returned record. *)
Definition record_matches_location (city' state' : option string) (o : Out.t)
  : bool :=
  (if truthy city' then String.eqb (lower (Out.city o)) (lower (get city'))
   else true)
  && (if truthy state' then String.eqb (upper (Out.state o)) (upper (get state'))
      else true).

(** The last row of a catalog. *)
Definition last_row (rs : list Row) : option Row :=
  match rev rs with
  | [] => None
  | r :: _ => Some r
  end.

(** The catalog row of one FAISS hit, as [_search_faiss] reads it. *)
Definition hit_row (self : ProductSearchIndex) (hit : Q * Z) : result Row :=
  match py_index (product_df self) (snd hit) with
  | Some r => Ok (set_search_score r (Fin (fst hit)))
  | None => Raise IndexError
  end.

(* ------------------------------------------------------------------ *)
(** ** PricePredictor.get_price_history *)

(** One record of the price history. *)
Module History.
Record t : Type := mk {
  RunDate : option Z;
  Package_price : float;
  is_special : Z
}.
End History.

Definition has_date (r : Row) : bool :=
  match RunDate r with
  | Some _ => true
  | None => false
  end.

(** [sort_values("RunDate")]: dated rows in ascending date order, rows
    without a date after them. *)
Definition sort_values_RunDate (rs : list Row) : list Row :=
  sort_by date_leb (filter has_date rs)
  ++ filter (fun r => negb (has_date r)) rs.

Definition to_history (r : Row) : History.t :=
  History.mk (RunDate r) (Package_price r) (is_special r).

Definition get_price_history (self : PricePredictor) (sku' : string)
           (df : list Row) : list History.t :=
  let sku_df := filter (fun r => String.eqb (Sku r) sku') df in
  let sku_df := sort_values_RunDate sku_df in
  let sku_df := filter (fun r => negb (F.isna (Package_price r))) sku_df in
  map to_history sku_df.

(** Date order with missing dates last. *)
Definition date_before (a b : option Z) : Prop :=
  match a, b with
  | Some x, Some y => (x <= y)%Z
  | _, None => True
  | None, Some _ => False
  end.

(** The observations of a product that carry both a date and a price. *)
Definition usable (sku' : string) (r : Row) : bool :=
  String.eqb (Sku r) sku' && has_date r && negb (F.isna (Package_price r)).

(* ------------------------------------------------------------------ *)
(** ** Search endpoints ([src/api/endpoints/search.py]) *)

Module SearchRequest.
Record t : Type := mk {
  query : string;
  budget : Q;
  city : option string;
  state : option string;
  max_results : Z
}.
End SearchRequest.

Module SearchResponse.
Record t : Type := mk {
  query : string;
  budget : Q;
  total_found : nat;
  results : list Out.t
}.
End SearchResponse.

(** [search_products]: any exception of the pipeline becomes an HTTP 500
    whose detail is [str(e)]. *)
Definition search_products (str : exn -> string) (request : SearchRequest.t)
           (pipeline : Recommender) : result SearchResponse.t :=
  match pipeline (SearchRequest.query request) (SearchRequest.budget request)
                 (SearchRequest.city request) (SearchRequest.state request)
                 (SearchRequest.max_results request) with
  | Raise e => Raise (HTTPException 500 (str e))
  | Ok results =>
      Ok (SearchResponse.mk (SearchRequest.query request)
                            (SearchRequest.budget request)
                            (List.length results) results)
  end.

(** [price_trend]: [load] is the outcome of [PricePredictor.load()], [None]
    when the model file does not exist. *)
Definition price_trend (load : option PricePredictor) (sku' : string)
           (pipeline : InferencePipeline)
  : result (Forecast * list History.t) :=
  match load with
  | None =>
      Raise (HTTPException 503
               "Price predictor model not trained yet. Run train_pipeline first.")
  | Some predictor =>
      let df := full_df pipeline in
      (trend <- predict_next_price predictor sku' df ;;
       match trend with
       | ErrorDict error => Raise (HTTPException 404 error)
       | ForecastDict f => Ok (f, get_price_history predictor sku' df)
       end)%result
  end.

(* ------------------------------------------------------------------ *)
(** ** Building and persisting the search index *)

(** [_build_tfidf]: [vectorizer] stands for fitting [TfidfVectorizer] on
    the product names and keeping the matrix. *)
Definition _build_tfidf (vectorizer : list string -> TfidfIndex)
           (self : ProductSearchIndex) (df : list Row) : ProductSearchIndex :=
  mkIndex (index self) df (use_faiss self)
          (Some (vectorizer (map Product_Name df))).

(** The files of the embeddings directory. *)
Record Store : Type := mkStore {
  faiss_index : option FaissIndex;          (* faiss.index *)
  product_index_df : option (list Row);     (* product_index_df.parquet *)
  search_index_meta : option bool;          (* search_index_meta.pkl *)
  tfidf_index : option TfidfIndex           (* tfidf_index.pkl *)
}.

Definition empty_store : Store := mkStore None None None None.

(** [save]: the FAISS index is written only in semantic mode, the TF-IDF
    artifact only when the instance has one; files not written keep their
    previous content. *)
Definition save (self : ProductSearchIndex) (dir : Store) : Store :=
  mkStore
    (match use_faiss self, index self with
     | true, Some ix => Some ix
     | _, _ => faiss_index dir
     end)
    (Some (product_df self))
    (Some (use_faiss self))
    (match tfidf self with
     | Some tf => Some tf
     | None => tfidf_index dir
     end).

(** [build]: [libs] is [None] when sentence-transformers or faiss cannot be
    imported; otherwise it embeds the names and builds the index.  The
    directory is written only when [save'] is set (the default). *)
Definition build (libs : option (list string -> FaissIndex))
           (vectorizer : list string -> TfidfIndex)
           (self : ProductSearchIndex) (df : list Row) (save' : bool)
           (dir : Store)
  : ProductSearchIndex * Store :=
  match libs with
  | None =>
      let self := mkIndex (index self) (product_df self) false (tfidf self) in
      let self := _build_tfidf vectorizer self df in
      (self, if save' then save self dir else dir)
  | Some embed =>
      let self := mkIndex (Some (embed (map Product_Name df))) df true
                          (tfidf self) in
      (self, if save' then save self dir else dir)
  end.

Inductive io_error : Type :=
| FileNotFoundError (path : string).

(** [ProductSearchIndex()]. *)
Definition ProductSearchIndex_init : ProductSearchIndex :=
  mkIndex None [] true None.

(** [load]: semantic mode if the libraries import and [faiss.index] exists,
    else the stored TF-IDF artifact, else a TF-IDF model refitted on the
    stored product names ([refit] is [TfidfVectorizer(stop_words="english")]). *)
Definition load (libs_installed : bool) (refit : list string -> TfidfIndex)
           (dir : Store) : io_error + ProductSearchIndex :=
  match product_index_df dir with
  | None => inl (FileNotFoundError "product_index_df.parquet")
  | Some df =>
      match (if libs_installed then faiss_index dir else None) with
      | Some ix => inr (mkIndex (Some ix) df true None)
      | None =>
          match tfidf_index dir with
          | Some tf => inr (mkIndex None df false (Some tf))
          | None =>
              inr (mkIndex None df false (Some (refit (map Product_Name df))))
          end
      end
  end.

(** What the code relies on from a fitted vectorizer: one similarity per
    fitted document. *)
Definition vectorizer_contract (vectorizer : list string -> TfidfIndex) : Prop :=
  forall names q,
    List.length (cosine_scores (vectorizer names) q) = List.length names.

(** A toy vectorizer: similarity 1 to the names equal to the query. *)
Definition sample_vectorizer (names : list string) : TfidfIndex :=
  mkTfidf (fun q => map (fun name => if String.eqb name q then 1 else 0) names).

(** The first row of every group, in order of first appearance (the rows
    at which [group_sizes_from] emits a size). *)
Fixpoint reps_from (seen rest : list Row) : list Row :=
  match rest with
  | [] => []
  | r :: rest' =>
      if existsb (same_group r) seen
      then reps_from seen rest'
      else r :: reps_from (r :: seen) rest'
  end.

(* ------------------------------------------------------------------ *)
(** ** Cleaning ([src/data/cleaner.py]) *)

(** The [RunDate] column as a sort key (a missing date is a null). *)
Definition date_key (r : Row) : float :=
  match RunDate r with
  | Some d => Fin (inject_Z d)
  | None => NaN
  end.

(** [drop_duplicates(subset=["Sku"])]: the first row of every Sku. *)
Fixpoint drop_duplicates_Sku (seen : list string) (rs : list Row) : list Row :=
  match rs with
  | [] => []
  | r :: rs' =>
      if existsb (String.eqb (Sku r)) seen
      then drop_duplicates_Sku seen rs'
      else r :: drop_duplicates_Sku (Sku r :: seen) rs'
  end.

(** [deduplicate]: newest first, then one row per Sku.  Rows with the same
    date are taken in the order a stable sort leaves them; the sort pandas
    uses by default need not be stable, and nothing proved about
    [deduplicate] depends on which of several equally recent rows is
    kept. *)
Definition deduplicate (df : list Row) : list Row :=
  drop_duplicates_Sku [] (sort_values_desc date_key df).

(** [newer_or_equal k r]: the observation [k] is at least as recent as [r]
    (a dated observation counts as more recent than an undated one). *)
Definition newer_or_equal (k r : Row) : Prop :=
  match RunDate k, RunDate r with
  | Some dk, Some dr => (dr <= dk)%Z
  | _, None => True
  | None, Some _ => False
  end.

(* ------------------------------------------------------------------ *)
(** ** Feature engineering and unit prices
       ([src/data/feature_engineering.py], [src/data/cleaner.py]) *)

(** The price columns of a raw catalog row. *)
Module Raw.
Record t : Type := mk {
  Package_price : float;
  Retail_price : float;
  unit_price : float;
  unit_price_unit : string;
  package_size : string;
  price_per_100g : float;
  category_median_price : float;
  discount_pct : float;
  value_score : float
}.
End Raw.

(** [Series.clip(lower, upper)] on a float column. *)
Definition fclip (lower upper : Q) (a : float) : float :=
  match a with
  | NaN => NaN
  | Fin x => Fin (Qmin (Qmax x lower) upper)
  end.


(** [fill_retail_price], row by row: a missing or non-positive retail
    price becomes [Package_price * 1.1]. *)
Definition fill_retail_price_row (r : Raw.t) : Raw.t :=
  let mask := F.isna (Raw.Retail_price r) || F.le (Raw.Retail_price r) (Fin 0) in
  Raw.mk (Raw.Package_price r)
         (if mask then F.mul (Raw.Package_price r) (Fin (11 # 10))
          else Raw.Retail_price r)
         (Raw.unit_price r) (Raw.unit_price_unit r) (Raw.package_size r)
         (Raw.price_per_100g r) (Raw.category_median_price r)
         (Raw.discount_pct r) (Raw.value_score r).


(** [add_discount_pct], row by row:
    [where(Retail > Package, (Retail - Package) / Retail, 0.0)], clipped
    to [0, 1] and rounded to 4 decimals.  (The quotient is only used where
    [Retail > Package]; for a positive package price its divisor is not
    zero.) *)
Definition add_discount_pct_row (r : Raw.t) : Raw.t :=
  let raw :=
    if F.gt (Raw.Retail_price r) (Raw.Package_price r)
    then F.div (F.sub (Raw.Retail_price r) (Raw.Package_price r))
               (Raw.Retail_price r)
    else Fin 0 in
  Raw.mk (Raw.Package_price r) (Raw.Retail_price r)
         (Raw.unit_price r) (Raw.unit_price_unit r) (Raw.package_size r)
         (Raw.price_per_100g r) (Raw.category_median_price r)
         (fround 4 (fclip 0 1 raw)) (Raw.value_score r).

Definition add_discount_pct (df : list Raw.t) : list Raw.t :=
  map add_discount_pct_row df.

(** [add_value_score], row by row:
    [where(price_per_100g > 0, category_median_price / price_per_100g, nan)],
    clipped to [0, 10] and rounded to 4 decimals. *)
Definition add_value_score_row (r : Raw.t) : Raw.t :=
  let raw :=
    if F.gt (Raw.price_per_100g r) (Fin 0)
    then F.div (Raw.category_median_price r) (Raw.price_per_100g r)
    else NaN in
  Raw.mk (Raw.Package_price r) (Raw.Retail_price r)
         (Raw.unit_price r) (Raw.unit_price_unit r) (Raw.package_size r)
         (Raw.price_per_100g r) (Raw.category_median_price r)
         (Raw.discount_pct r) (fround 4 (fclip 0 10 raw)).

Definition add_value_score (df : list Raw.t) : list Raw.t :=
  map add_value_score_row df.

(** [sub in s] on strings. *)
Fixpoint contains (sub s : string) : bool :=
  String.prefix sub s
  || match s with
     | EmptyString => false
     | String _ s' => contains sub s'
     end.

Definition is_space (c : ascii) : bool :=
  let n := nat_of_ascii c in
  ((9 <=? n) && (n <=? 13) || (28 <=? n) && (n <=? 32))%nat.

Fixpoint lstrip (s : string) : string :=
  match s with
  | EmptyString => EmptyString
  | String c s' => if is_space c then lstrip s' else s
  end.

Fixpoint rstrip (s : string) : string :=
  match s with
  | EmptyString => EmptyString
  | String c s' =>
      match rstrip s' with
      | EmptyString => if is_space c then EmptyString else String c EmptyString
      | rest => String c rest
      end
  end.

(** [str.strip()], on ASCII whitespace. *)
Definition strip (s : string) : string := rstrip (lstrip s).

(** [calc_per_100g] of [normalize_unit_price].  [gram_amount] stands for
    [_gram_amount_from_size], the regular-expression reading of a package
    size in grams or millilitres ([None] when it does not match). *)
Definition calc_per_100g (gram_amount : string -> option Q) (row : Raw.t)
  : float :=
  let unit_state := strip (lower (Raw.unit_price_unit row)) in
  let unit_price := Raw.unit_price row in
  let pkg_price := Raw.Package_price row in
  if F.isna unit_price || F.le unit_price (Fin 0) then NaN
  else if contains "100g" unit_state || contains "100ml" unit_state
  then unit_price
  else if contains "1kg" unit_state || String.eqb unit_state "kg"
  then F.div unit_price (Fin 10)
  else if contains "1l" unit_state || String.eqb unit_state "l"
  then F.div unit_price (Fin 10)
  else
    match gram_amount (Raw.package_size row) with
    | Some grams =>
        if negb (Qeq_bool grams 0) && negb (Qle_bool grams 0)
           && negb (F.isna pkg_price)
        then F.mul (F.div pkg_price (Fin grams)) (Fin 100)
        else unit_price
    | None => unit_price
    end.

Definition normalize_unit_price (gram_amount : string -> option Q)
           (df : list Raw.t) : list Raw.t :=
  map (fun r =>
         Raw.mk (Raw.Package_price r) (Raw.Retail_price r)
                (Raw.unit_price r) (Raw.unit_price_unit r) (Raw.package_size r)
                (calc_per_100g gram_amount r) (Raw.category_median_price r)
                (Raw.discount_pct r) (Raw.value_score r)) df.

(** The rows of [tests/test_cleaner.py] that survive [clean_prices], with
    nothing to read from the package size. *)
Definition raw_chicken (unit' : Q) (retail : float) : Raw.t :=
  Raw.mk (Fin unit') retail (Fin unit') "1Kg" "" NaN NaN NaN NaN.

(* ------------------------------------------------------------------ *)
(** ** Stock filter ([src/data/loader.py]) *)

(** The [in_stock] column: of numeric dtype, or of object dtype with its
    cells as [astype(str)] gives them. *)
Inductive InStockColumn : Type :=
| NumericColumn (cells : list float)
| ObjectColumn (cells : list string).

Definition in_stock_mask (col : InStockColumn) : list bool :=
  match col with
  | NumericColumn cells =>
      map (fun c => feqb (F.fillna 0 c) (Fin 1)) cells
  | ObjectColumn cells =>
      map (fun c =>
             let normalized := upper (strip c) in
             existsb (String.eqb normalized) ["1"; "1.0"; "TRUE"]%string)
          cells
  end.

(** [df[mask]]: the rows whose mask cell is true. *)
Definition select {A : Type} (rows : list A) (mask : list bool) : list A :=
  map fst (filter snd (combine rows mask)).

(** [filter_in_stock]: the filter is skipped when no row is in stock. *)
Definition filter_in_stock {A : Type} (col : InStockColumn) (df : list A)
  : list A :=
  let mask := in_stock_mask col in
  let true_count := List.length (filter (fun b : bool => b) mask) in
  if (true_count =? 0)%nat then df else select df mask.

(* ------------------------------------------------------------------ *)
(** ** BudgetRanker.train *)

(** [df.dropna(subset=["price_per_100g", "value_score"])]. *)
Definition dropna_training (df : list Row) : list Row :=
  filter (fun r => negb (F.isna (price_per_100g r))
                   && negb (F.isna (value_score r))) df.

(** [df["Sub_category"].nunique()]. *)
Definition nunique_Sub_category (df : list Row) : nat :=
  List.length (nodup string_dec (map Sub_category df)).

(** [df.iloc[idx]] for an array of positions. *)
Definition iloc {A : Type} (df : list A) (idx : list nat) : result (list A) :=
  mapM (fun i => match nth_error df i with
                 | Some x => Ok x
                 | None => Raise IndexError
                 end) idx.

(** The learner ([lgb.train] on a dataset of labelled rows with its group
    sizes, with or without a validation set) and the group splitter
    ([GroupShuffleSplit], giving train and validation positions) are
    outside the repository; the learner is taken to return a model. *)
Definition Learner : Type :=
  list (Row * Z) -> list nat -> option (list (Row * Z) * list nat) ->
  Row -> float.

Definition Splitter : Type := list Row -> list nat * list nat.

(** [train], up to the assignment of [self.model]; the log of the feature
    importance and the pickle written afterwards are left out. *)
Definition train (lgb_train : Learner) (splitter : Splitter)
           (self : BudgetRanker) (df : list Row) : result BudgetRanker :=
  match df with
  | [] => Ok self
  | _ :: _ =>
      let df := dropna_training df in
      if (List.length df <? 10)%nat then Ok self
      else
        (labelled <- _build_groups_and_labels df ;;
         let df := fst labelled in
         let groups := snd labelled in
         let n_groups := nunique_Sub_category (map fst df) in
         if (n_groups <? 2)%nat
         then Ok (mkRanker (Some (lgb_train df groups None)))
         else
           let idx := splitter (map fst df) in
           train_rows <- iloc df (fst idx) ;;
           val_rows <- iloc df (snd idx) ;;
           let train_groups :=
             filter (fun n => (0 <? n)%nat) (group_sizes (map fst train_rows)) in
           let val_groups :=
             filter (fun n => (0 <? n)%nat) (group_sizes (map fst val_rows)) in
           Ok (mkRanker (Some (lgb_train train_rows train_groups
                                         (Some (val_rows, val_groups))))))%result
  end.

(** What the code relies on from the splitter: positions inside the frame. *)
Definition splitter_contract (splitter : Splitter) : Prop :=
  forall df i,
    In i (fst (splitter df)) \/ In i (snd (splitter df)) ->
    (i < List.length df)%nat.

(* ================================================================== *)
(** * The ranker, the pipeline and the planner on IEEE doubles

    The definitions above compute on exact rationals.  This module repeats
    [rank_products], [recommend] and [recommend_basket] on binary64
    numbers (the primitive floats, with the sums, products, quotients and
    comparisons of the hardware), for the properties that depend on how
    doubles round.  A null cell is the double NaN.  All numeric columns
    are float64, as the catalog columns and the scores of the lexical back
    end are; the float32 scores of the FAISS back end are not covered. *)

Module Binary64.
Import PrimFloat.
#[local] Set Warnings "-inexact-float".

Definition f64 : Set := float.

(** [Series.fillna(v)]. *)
Definition fillna (v a : f64) : f64 := if is_nan a then v else a.

(** The double nearest to an integer. *)
Definition of_Z (n : Z) : f64 :=
  FloatOps.SF2Prim
    (SpecFloat.binary_normalize FloatOps.prec FloatOps.emax n 0 false).

(** The integer [n >= 0] with the sign [s] as a double ([-0.0] for a
    negative zero). *)
Definition of_signed (s : bool) (n : Z) : f64 :=
  FloatOps.SF2Prim
    (SpecFloat.binary_normalize FloatOps.prec FloatOps.emax
       (if s then (- n)%Z else n) 0 s).

(** The exact value of the double with mantissa [m] and exponent [e]. *)
Definition value (m : positive) (e : Z) : Q :=
  if (0 <=? e)%Z
  then inject_Z (Z.pos m * 2 ^ e)
  else Z.pos m # Z.to_pos (2 ^ (- e)).

(** [numpy.rint]: the nearest integer, ties to even; a double without a
    fractional part, an infinity and a NaN are returned as they are. *)
Definition rint (y : f64) : f64 :=
  match FloatOps.Prim2SF y with
  | SpecFloat.S754_finite s m e =>
      if (0 <=? e)%Z then y
      else of_signed s (round_half_even (value m e))
  | _ => y
  end.

Definition power_of_ten (decimals : nat) : f64 := of_Z (10 ^ Z.of_nat decimals).

(** [Series.round(decimals)], which is [numpy.round]: scale, [rint],
    scale back. *)
Definition np_round (decimals : nat) (x : f64) : f64 :=
  (rint (x * power_of_ten decimals) / power_of_ten decimals)%float.

(** Python's [round(x, ndigits)]: the exact value of [x] is rounded half
    to even at [ndigits] decimals, and the result is the double nearest to
    that decimal. *)
Definition py_round (ndigits : nat) (x : f64) : f64 :=
  match FloatOps.Prim2SF x with
  | SpecFloat.S754_finite s m e =>
      match round_half_even (value m e * inject_Z (10 ^ Z.of_nat ndigits)) with
      | Z.pos p =>
          FloatOps.SF2Prim
            (SpecFloat.SFdiv FloatOps.prec FloatOps.emax
               (SpecFloat.S754_finite s p 0)
               (SpecFloat.S754_finite false
                  (Z.to_pos (10 ^ Z.of_nat ndigits)) 0))
      | _ => FloatOps.SF2Prim (SpecFloat.S754_zero s)
      end
  | _ => x
  end.

(** One row of the product table, with float64 cells. *)
Record Row : Type := mkRow {
  Sku : string;
  Product_Name : string;
  Brand : string;
  Sub_category : string;
  Package_price : f64;
  price_per_100g : f64;
  discount_pct : f64;
  value_score : f64;
  is_special : Z;
  in_stock : Z;
  city : string;
  state : string;
  Product_Url : string;
  RunDate : option Z;
  search_score : f64
}.

Record DataFrame : Type := mkDF {
  has_search_score : bool;
  rows : list Row
}.

Definition empty_frame : DataFrame := mkDF false [].

Definition empty (df : DataFrame) : bool :=
  match rows df with
  | [] => true
  | _ :: _ => false
  end.

(** [df.sort_values(col, ascending=False)], as above: the non-null keys
    are reversed, sorted ascending and reversed again; rows with a null
    key come last in their input order. *)
Definition sort_values_desc (key : Row -> f64) (rs : list Row) : list Row :=
  let non_nans := filter (fun r => negb (is_nan (key r))) rs in
  let nans := filter (fun r => is_nan (key r)) rs in
  rev (sort_by (fun x y => (key x <=? key y)%float) (rev non_nans)) ++ nans.

Record BudgetRanker : Type := mkRanker {
  model : option (Row -> f64)
}.

Definition BudgetRanker_init : BudgetRanker := mkRanker None.

(** [value_score.fillna(0) + discount_pct.fillna(0)]. *)
Definition rule_score (r : Row) : f64 :=
  (fillna 0 (value_score r) + fillna 0 (discount_pct r))%float.

(** The [_total_score] column. *)
Definition total_score (self : BudgetRanker) (has_ss : bool) (r : Row) : f64 :=
  match model self with
  | Some predict =>
      if has_ss
      then (predict r + search_score r * 5)%float
      else predict r
  | None =>
      if has_ss
      then (rule_score r + search_score r * 5)%float
      else rule_score r
  end.

Definition rank_products (self : BudgetRanker) (df : DataFrame)
           (budget : f64) (top_n : Z) : DataFrame :=
  let candidates :=
    filter (fun r => (Package_price r <=? budget)%float) (rows df) in
  match candidates with
  | [] => empty_frame
  | _ :: _ =>
      let candidates' :=
        if has_search_score df
        then filter (fun r => (0.01 <? search_score r)%float) candidates
        else candidates in
      match candidates' with
      | [] => empty_frame
      | _ :: _ =>
          mkDF (has_search_score df)
               (head top_n
                  (sort_values_desc (total_score self (has_search_score df))
                                    candidates'))
      end
  end.

(** A boolean mask is applied only if it selects at least one row. *)
Definition soft_filter (mask : Row -> bool) (candidates : list Row) : list Row :=
  if (0 <? List.length (filter mask candidates))%nat
  then filter mask candidates
  else candidates.

Definition city_match (city' : string) (r : Row) : bool :=
  String.eqb (lower (city r)) (lower city').

Definition state_match (state' : string) (r : Row) : bool :=
  String.eqb (upper (state r)) (upper state').

Definition location_filter (city' state' : option string)
           (candidates : list Row) : list Row :=
  let candidates :=
    if truthy city'
    then soft_filter (city_match (get city')) candidates
    else candidates in
  if truthy state'
  then soft_filter (state_match (get state')) candidates
  else candidates.

Module Out.
Record t : Type := mk {
  Product_Name : string;
  Brand : string;
  Sub_category : string;
  Package_price : f64;
  price_per_100g : f64;
  discount_pct : f64;
  value_score : f64;
  is_special : Z;
  in_stock : Z;
  city : string;
  state : string;
  Product_Url : string
}.
End Out.

(** Step 4 of [recommend] on one ranked row. *)
Definition to_record (r : Row) : Out.t :=
  Out.mk (Product_Name r) (Brand r) (Sub_category r)
         (np_round 2 (Package_price r))
         (np_round 2 (price_per_100g r))
         (np_round 1 (discount_pct r * 100)%float)
         (np_round 2 (value_score r))
         (is_special r) (in_stock r) (city r) (state r) (Product_Url r).

(** [search_index] is the retrieval back end seen through its [search]
    method (query, [top_k]): any frame of float64 rows it may answer. *)
Record InferencePipeline : Type := mkPipeline {
  ranker : BudgetRanker;
  search_index : string -> Z -> result DataFrame
}.

Definition recommend (self : InferencePipeline) (query : string) (budget : f64)
           (city' state' : option string) (top_n : Z) : result (list Out.t) :=
  (candidates <- search_index self query 50 ;;
   if empty candidates then Ok []
   else
     let candidates :=
       mkDF (has_search_score candidates)
            (location_filter city' state' (rows candidates)) in
     let ranked := rank_products (ranker self) candidates budget top_n in
     if empty ranked then Ok []
     else Ok (map to_record (rows ranked)))%result.

Module Request.
Record t : Type := mk {
  items : list string;
  total_budget : f64;
  city : option string;
  state : option string
}.
End Request.

Record BasketItem : Type := mkBasketItem {
  query : string;
  best_match : option Out.t;
  alternatives : list Out.t;
  estimated_cost : f64
}.

Module Response.
Record t : Type := mk {
  total_budget : f64;
  estimated_total : f64;
  within_budget : bool;
  basket : list BasketItem
}.
End Response.

(** The injected pipeline, seen through its [recommend] method. *)
Definition Recommender : Type :=
  string -> f64 -> option string -> option string -> Z -> result (list Out.t).

(** The body of the loop over [request.items], up to the basket line. *)
Definition basket_line (pipeline : Recommender) (request : Request.t)
           (per_item_budget : f64) (item_query : string) : result BasketItem :=
  (results <- pipeline item_query per_item_budget
                (Request.city request) (Request.state request) 3%Z ;;
   results <- match results with
              | [] => pipeline item_query (Request.total_budget request)
                        (Request.city request) (Request.state request) 3%Z
              | _ :: _ => Ok results
              end ;;
   match results with
   | best :: alternatives' =>
       Ok (mkBasketItem item_query (Some best) alternatives'
                        (Out.Package_price best))
   | [] =>
       Ok (mkBasketItem item_query None [] 0%float)
   end)%result.

(** The loop, with its two accumulators; [estimated_total += item_cost] is
    a sum of doubles. *)
Fixpoint basket_loop (pipeline : Recommender) (request : Request.t)
         (per_item_budget : f64) (items : list string)
         (basket : list BasketItem) (estimated_total : f64)
  : result (list BasketItem * f64) :=
  match items with
  | [] => Ok (basket, estimated_total)
  | item_query :: items' =>
      (line <- basket_line pipeline request per_item_budget item_query ;;
       basket_loop pipeline request per_item_budget items'
                   (basket ++ [line])
                   (estimated_total + estimated_cost line)%float)%result
  end.

(** [within_budget] is computed from the sum as accumulated, the reported
    [estimated_total] is that sum after [round(estimated_total, 2)], the
    built-in [round] of Python floats. *)
Definition recommend_basket (request : Request.t) (pipeline : Recommender)
  : result Response.t :=
  let n_items := List.length (Request.items request) in
  if (n_items =? 0)%nat
  then Raise (HTTPException 400 "Items list cannot be empty")
  else
    let per_item_budget :=
      (Request.total_budget request / of_Z (Z.of_nat n_items))%float in
    (out <- basket_loop pipeline request per_item_budget
              (Request.items request) [] 0%float ;;
     let estimated_total := snd out in
     let within_budget :=
       (estimated_total <=? Request.total_budget request)%float in
     Ok (Response.mk (Request.total_budget request)
                     (py_round 2 estimated_total)
                     within_budget
                     (fst out)))%result.

(* ------------------------------------------------------------------ *)
(** ** The specification's readings on doubles *)


(** The candidates that [rank_products] sorts. *)
Definition guarded (df : DataFrame) (budget : f64) : list Row :=
  filter (fun r => if has_search_score df
                   then (0.01 <? search_score r)%float
                   else true)
         (filter (fun r => (Package_price r <=? budget)%float) (rows df)).

(** [v] is [x] rounded to [decimals] decimal places: the quotient by
    [10^decimals] of an integer nearest to the scaled double
    [y = x * 10^decimals] (at most one half away from it, with the sign of
    [y]).  A scaled double that has no fractional part, is infinite or is a
    null is divided back as it is. *)
Definition rounded_to (decimals : nat) (x v : f64) : Prop :=
  let y := (x * power_of_ten decimals)%float in
  match FloatOps.Prim2SF y with
  | SpecFloat.S754_finite s m e =>
      if (0 <=? e)%Z
      then v = (y / power_of_ten decimals)%float
      else exists n : Z,
             (0 <= n)%Z
             /\ Qabs (inject_Z n - value m e) <= 1 # 2
             /\ v = (of_signed s n / power_of_ten decimals)%float
  | _ => v = (y / power_of_ten decimals)%float
  end.

(* ------------------------------------------------------------------ *)
(** ** Sample data on doubles *)

Definition product (name : string) (price per100 disc value score : f64) : Row :=
  mkRow "" name "" "Fruit" price per100 disc value 0 1
        "Sydney" "NSW" "" None score.

Arguments product name%_string (price per100 disc value score)%_float.

(** Two products at 1.10 and 2.20. *)
Definition apple : Row := product "apple" 1.1 0.55 0 1 1.
Definition pear : Row := product "pear" 2.2 1.1 0 1 1.

(** A retrieval that answers with the products named like the query. *)
Definition sample_search (catalog : list Row) (q : string) (k : Z)
  : result DataFrame :=
  Ok (mkDF true (filter (fun r => String.eqb (Product_Name r) q) catalog)).

Definition sample_pipeline : InferencePipeline :=
  mkPipeline BudgetRanker_init (sample_search [apple; pear]).

(** A basket of both products with a budget of 3.30. *)
Definition sample_request : Request.t :=
  Request.mk ["apple"; "pear"]%string 3.3%float None None.


(** Two candidates with the value score 2^53; [heavy_discount] adds a
    discount of 1, which the sum of doubles absorbs. *)
Definition heavy : Row := product "heavy" 5 1 0 9007199254740992 1.
Definition heavy_discount : Row := product "heavy discount" 5 1 1 9007199254740992 1.


(** A product whose cells lie next to rounding ties. *)
Definition tie_product : Row := product "tie" 0.545 1.015 0.0145 2.675 1.

End Binary64.

(* ================================================================== *)
(** * Properties *)

(** ** Sorting and slicing *)

Section SortFacts.
Context {A : Type}.
Variable leb : A -> A -> bool.

Lemma insert_by_perm (x : A) (xs : list A) :
  Permutation (insert_by leb x xs) (x :: xs).
Proof.
  induction xs as [|y ys IH]; simpl.
  - apply Permutation_refl.
  - destruct (leb x y).
    + apply Permutation_refl.
    + eapply Permutation_trans.
      * apply perm_skip. exact IH.
      * apply perm_swap.
Qed.

Lemma sort_by_perm (xs : list A) : Permutation (sort_by leb xs) xs.
Proof.
  induction xs as [|x xs IH]; simpl.
  - constructor.
  - eapply Permutation_trans.
    + apply insert_by_perm.
    + apply perm_skip. exact IH.
Qed.

Lemma sort_by_In (x : A) (xs : list A) : In x (sort_by leb xs) <-> In x xs.
Proof.
  split; apply Permutation_in.
  - apply sort_by_perm.
  - apply Permutation_sym, sort_by_perm.
Qed.

Hypothesis leb_total : forall x y, leb x y = false -> leb y x = true.
Hypothesis leb_trans :
  forall x y z, leb x y = true -> leb y z = true -> leb x z = true.

Let ordered (x y : A) : Prop := leb x y = true.

Lemma insert_by_sorted (x : A) (xs : list A) :
  StronglySorted ordered xs -> StronglySorted ordered (insert_by leb x xs).
Proof.
  induction 1 as [|y ys Hs IH Hy]; simpl.
  - constructor; constructor.
  - destruct (leb x y) eqn:E.
    + constructor.
      * constructor; assumption.
      * constructor; [exact E|].
        rewrite Forall_forall in *. intros z Hz.
        eapply leb_trans; [exact E | apply Hy, Hz].
    + constructor; [exact IH|].
      rewrite Forall_forall in *. intros z Hz.
      apply (Permutation_in _ (insert_by_perm x ys)) in Hz.
      destruct Hz as [<-|Hz].
      * apply leb_total, E.
      * apply Hy, Hz.
Qed.

Lemma sort_by_sorted (xs : list A) : StronglySorted ordered (sort_by leb xs).
Proof.
  induction xs as [|x xs IH]; simpl.
  - constructor.
  - apply insert_by_sorted, IH.
Qed.

End SortFacts.

Section ListFacts.
Context {A : Type}.

Lemma StronglySorted_app_inv (R : A -> A -> Prop) (l1 l2 : list A) :
  StronglySorted R (l1 ++ l2) ->
  forall x y, In x l1 -> In y l2 -> R x y.
Proof.
  induction l1 as [|a l1 IH]; simpl; intros Hs x y Hx Hy.
  - contradiction.
  - inversion Hs as [|? ? Hs' Hall]; subst.
    destruct Hx as [<-|Hx].
    + rewrite Forall_forall in Hall. apply Hall, in_or_app. now right.
    + now apply IH.
Qed.

Lemma StronglySorted_snoc (R : A -> A -> Prop) (l : list A) (a : A) :
  StronglySorted R l -> Forall (fun y => R y a) l ->
  StronglySorted R (l ++ [a]).
Proof.
  induction 1 as [|b l Hs IH Hb]; simpl; intros Hall.
  - constructor; constructor.
  - inversion Hall; subst. constructor.
    + now apply IH.
    + apply Forall_app. split; [exact Hb|]. now constructor.
Qed.

Lemma StronglySorted_rev (R : A -> A -> Prop) (l : list A) :
  StronglySorted R l -> StronglySorted (fun x y => R y x) (rev l).
Proof.
  induction 1 as [|a l Hs IH Hall]; simpl.
  - constructor.
  - apply StronglySorted_snoc; [exact IH|].
    rewrite Forall_forall in *. intros x Hx.
    apply Hall. now rewrite in_rev.
Qed.

Lemma StronglySorted_firstn (R : A -> A -> Prop) (n : nat) (l : list A) :
  StronglySorted R l -> StronglySorted R (firstn n l).
Proof.
  intros Hs. revert n.
  induction Hs as [|a l Hs IH Hall]; intros [|n]; simpl; try constructor.
  - apply IH.
  - rewrite Forall_forall in *. intros x Hx.
    apply Hall. eapply (In_nth_error) in Hx. destruct Hx as [i Hi].
    assert (Hi' : nth_error l i = Some x).
    { destruct (Nat.lt_ge_cases i n) as [Hlt|Hge].
      - rewrite nth_error_firstn in Hi.
        destruct (i <? n)%nat eqn:E; [exact Hi | discriminate].
      - rewrite nth_error_firstn in Hi.
        destruct (i <? n)%nat eqn:E; [exact Hi | discriminate]. }
    eapply nth_error_In, Hi'.
Qed.

Lemma slice_to_prefix (k : Z) (xs : list A) :
  exists rest, xs = slice_to k xs ++ rest.
Proof.
  unfold slice_to. destruct (0 <=? k)%Z.
  - exists (skipn (Z.to_nat k) xs). symmetry. apply firstn_skipn.
  - exists (skipn (List.length xs - Z.to_nat (- k)) xs).
    symmetry. apply firstn_skipn.
Qed.

Lemma slice_to_In (k : Z) (xs : list A) (x : A) :
  In x (slice_to k xs) -> In x xs.
Proof.
  destruct (slice_to_prefix k xs) as [rest E]. intros H.
  rewrite E. apply in_or_app. now left.
Qed.

Lemma slice_to_length (k : Z) (xs : list A) :
  (0 <= k)%Z -> (Z.of_nat (List.length (slice_to k xs)) <= k)%Z.
Proof.
  intros Hk. unfold slice_to.
  destruct (0 <=? k)%Z eqn:E; [|lia].
  rewrite length_firstn. lia.
Qed.

Lemma StronglySorted_slice_to (R : A -> A -> Prop) (k : Z) (l : list A) :
  StronglySorted R l -> StronglySorted R (slice_to k l).
Proof.
  intros Hs. unfold slice_to.
  destruct (0 <=? k)%Z; now apply StronglySorted_firstn.
Qed.

End ListFacts.

Lemma StronglySorted_impl {A : Type} (R S : A -> A -> Prop) (l : list A) :
  (forall x y, R x y -> S x y) -> StronglySorted R l -> StronglySorted S l.
Proof.
  intros HRS. induction 1 as [|a l Hs IH Hall]; constructor; [exact IH|].
  eapply Forall_impl; [|exact Hall]. intros y. apply HRS.
Qed.

Lemma key_leb_total {A : Type} (key : A -> Q) (x y : A) :
  key_leb key x y = false -> key_leb key y x = true.
Proof.
  unfold key_leb. intros H. apply Qle_bool_iff.
  destruct (Qlt_le_dec (key x) (key y)) as [Hlt|Hle]; [|exact Hle].
  apply Qlt_le_weak in Hlt. apply Qle_bool_iff in Hlt. congruence.
Qed.

Lemma key_leb_trans {A : Type} (key : A -> Q) (x y z : A) :
  key_leb key x y = true -> key_leb key y z = true -> key_leb key x z = true.
Proof.
  unfold key_leb. rewrite !Qle_bool_iff. apply Qle_trans.
Qed.

Lemma filter_all {A : Type} (p : A -> bool) (xs : list A) :
  (forall x, In x xs -> p x = true) -> filter p xs = xs.
Proof.
  induction xs as [|x xs IH]; simpl; intros H; [reflexivity|].
  rewrite (H x (or_introl eq_refl)). f_equal. apply IH.
  intros y Hy. apply H. now right.
Qed.

Lemma filter_none {A : Type} (p : A -> bool) (xs : list A) :
  (forall x, In x xs -> p x = false) -> filter p xs = [].
Proof.
  induction xs as [|x xs IH]; simpl; intros H; [reflexivity|].
  rewrite (H x (or_introl eq_refl)). apply IH.
  intros y Hy. apply H. now right.
Qed.

(** ** BudgetRanker.rank_products *)

Lemma sort_values_desc_In (key : Row -> float) (rs : list Row) (r : Row) :
  In r (sort_values_desc key rs) <-> In r rs.
Proof.
  unfold sort_values_desc.
  rewrite in_app_iff, <- in_rev, sort_by_In, <- in_rev, !filter_In.
  split.
  - intros [[H _]|[H _]]; exact H.
  - intros H. destruct (F.isna (key r)); simpl; auto.
Qed.

(** With no null key the frame is simply in descending key order. *)
Lemma sort_values_desc_sorted (key : Row -> float) (rs : list Row) :
  (forall r, In r rs -> F.isna (key r) = false) ->
  StronglySorted (fun x y => float_key key y <= float_key key x)
                 (sort_values_desc key rs).
Proof.
  intros Hfin. unfold sort_values_desc.
  rewrite (filter_none (fun r => F.isna (key r)) rs Hfin), app_nil_r.
  apply StronglySorted_rev.
  eapply StronglySorted_impl;
    [|apply (sort_by_sorted (key_leb (float_key key)));
      [apply key_leb_total | apply key_leb_trans]].
  intros x y H. now apply Qle_bool_iff.
Qed.

(** What survives [rank_products]: rows of the input, within budget, and
    past the relevance guard when the frame carries search scores. *)
Lemma rank_products_In (self : BudgetRanker) (df : DataFrame)
      (budget : Q) (top_n : Z) (r : Row) :
  In r (rows (rank_products self df budget top_n)) ->
  In r (rows df)
  /\ F.le (Package_price r) (Fin budget) = true
  /\ (has_search_score df = true ->
      F.gt (search_score r) (Fin (1 # 100)) = true).
Proof.
  unfold rank_products.
  destruct (filter _ (rows df)) as [|c cs] eqn:Ec; [contradiction|].
  set (cands := if has_search_score df then _ else _).
  assert (Hc : forall x, In x cands ->
                 In x (rows df)
                 /\ F.le (Package_price x) (Fin budget) = true
                 /\ (has_search_score df = true ->
                     F.gt (search_score x) (Fin (1 # 100)) = true)).
  { intros x Hx. subst cands. destruct (has_search_score df).
    - apply filter_In in Hx. destruct Hx as [Hx Hg].
      rewrite <- Ec in Hx. apply filter_In in Hx. tauto.
    - rewrite <- Ec in Hx. apply filter_In in Hx.
      split; [tauto|]. split; [tauto|discriminate]. }
  destruct cands as [|d ds] eqn:Ed; [contradiction|].
  simpl. intros H. apply slice_to_In, sort_values_desc_In in H.
  now apply Hc.
Qed.

(** C1.  Every row that [rank_products] returns has a package price of at
    most the budget, whatever the candidates, the budget and [top_n]; and
    when no candidate is priced within the budget the result is the empty
    frame (the function has no failing path). *)
Theorem rank_products_within_budget
        (self : BudgetRanker) (df : DataFrame) (budget : Q) (top_n : Z) :
  (forall r, In r (rows (rank_products self df budget top_n)) ->
             exists p, Package_price r = Fin p /\ p <= budget)
  /\ ((forall r, In r (rows df) ->
                 F.le (Package_price r) (Fin budget) = false) ->
      rank_products self df budget top_n = empty_frame).
Proof.
  split.
  - intros r H. apply rank_products_In in H. destruct H as (_ & H & _).
    destruct (Package_price r) as [|p]; [discriminate|].
    exists p. split; [reflexivity|]. now apply Qle_bool_iff.
  - intros H. unfold rank_products.
    now rewrite (filter_none _ _ H).
Qed.

(** C8.  On a frame with a [search_score] column no returned row has a
    score of 0.01 or less, and when the guard removes every within-budget
    candidate the result is the empty frame. *)
Theorem rank_products_relevance_guard
        (self : BudgetRanker) (df : DataFrame) (budget : Q) (top_n : Z) :
  has_search_score df = true ->
  (forall r s, search_score r = Fin s -> s <= 1 # 100 ->
               ~ In r (rows (rank_products self df budget top_n)))
  /\ ((forall r, In r (rows df) ->
                 F.le (Package_price r) (Fin budget) = true ->
                 exists s, search_score r = Fin s /\ s <= 1 # 100) ->
      rank_products self df budget top_n = empty_frame).
Proof.
  intros Hss. split.
  - intros r s Hs Hle Hin. apply rank_products_In in Hin.
    destruct Hin as (_ & _ & Hg). specialize (Hg Hss).
    rewrite Hs in Hg. simpl in Hg.
    apply Qle_bool_iff in Hle. rewrite Hle in Hg. discriminate.
  - intros H. unfold rank_products. rewrite Hss.
    destruct (filter _ (rows df)) as [|c cs] eqn:Ec; [reflexivity|].
    rewrite filter_none; [reflexivity|].
    intros x Hx. rewrite <- Ec in Hx. apply filter_In in Hx.
    destruct Hx as [Hx Hp]. destruct (H x Hx Hp) as (s & Hs & Hle).
    rewrite Hs. simpl. apply Qle_bool_iff in Hle. now rewrite Hle.
Qed.

Lemma rank_products_within_budget_witness :
  (exists p, Package_price cheap_chicken = Fin p /\ p <= 10)
  /\ rank_products BudgetRanker_init sample_products 1 10 = empty_frame.
Proof.
  split.
  - apply (proj1 (rank_products_within_budget
                    BudgetRanker_init sample_products 10 10)).
    vm_compute. auto.
  - apply (proj2 (rank_products_within_budget
                    BudgetRanker_init sample_products 1 10)).
    intros r Hr. simpl in Hr.
    destruct Hr as [<-|[<-|[<-|[<-|[]]]]]; reflexivity.
Defined.

Lemma rank_products_relevance_guard_witness :
  ~ In (set_search_score fish (Fin 0))
       (rows (rank_products BudgetRanker_init sample_candidates 10 10))
  /\ rank_products BudgetRanker_init
                   (mkDF true [set_search_score fish (Fin 0)]) 10 10
     = empty_frame.
Proof.
  split.
  - apply (proj1 (rank_products_relevance_guard
                    BudgetRanker_init sample_candidates 10 10 eq_refl)
                 (set_search_score fish (Fin 0)) 0 eq_refl).
    discriminate.
  - apply (proj2 (rank_products_relevance_guard
                    BudgetRanker_init
                    (mkDF true [set_search_score fish (Fin 0)]) 10 10 eq_refl)).
    intros r Hr _. simpl in Hr. destruct Hr as [<-|[]].
    exists 0. split; [reflexivity | discriminate].
Defined.

(** The cases of [tests/test_ranker.py], on the untrained ranker. *)
Example test_rank_products_filters_by_budget :
  map Product_Name (rows (rank_products BudgetRanker_init sample_products 10 10))
  = ["Cheap Chicken"; "Fish"; "Mid Chicken"]%string.
Proof. reflexivity. Qed.

Example test_rank_products_respects_top_n :
  map Product_Name (rows (rank_products BudgetRanker_init sample_products 100 2))
  = ["Cheap Chicken"; "Fish"]%string.
Proof. reflexivity. Qed.

(** With search scores the fused totals are 6.0, 5.1 and 5.05, and the
    row with search score 0 is dropped. *)
Example rank_products_with_search_scores :
  map Product_Name (rows (rank_products BudgetRanker_init sample_candidates 100 10))
  = ["Cheap Chicken"; "Mid Chicken"; "Expensive Chicken"]%string.
Proof. reflexivity. Qed.

(** In the rule-based fallback every candidate that reaches the sort has a
    non-null total score. *)
Lemma fallback_total_score_finite (self : BudgetRanker) (has_ss : bool) (r : Row) :
  model self = None ->
  (has_ss = true -> F.gt (search_score r) (Fin (1 # 100)) = true) ->
  F.isna (total_score self has_ss r) = false.
Proof.
  intros Hm Hg. unfold total_score, rule_score. rewrite Hm.
  destruct (value_score r), (discount_pct r), has_ss; simpl; try reflexivity;
    (specialize (Hg eq_refl); destruct (search_score r);
     [discriminate | reflexivity]).
Qed.

Lemma head_nil {A : Type} (n : Z) : head n (@nil A) = [].
Proof.
  unfold head, slice_to. destruct (0 <=? n)%Z; apply firstn_nil.
Qed.

Lemma rank_products_rows (self : BudgetRanker) (df : DataFrame)
      (budget : Q) (top_n : Z) :
  rows (rank_products self df budget top_n)
  = head top_n (sort_values_desc (total_score self (has_search_score df))
                                 (guarded df budget)).
Proof.
  unfold rank_products, guarded.
  destruct (filter _ (rows df)) as [|c cs] eqn:Ec.
  - simpl. unfold sort_values_desc. simpl. now rewrite head_nil.
  - destruct (has_search_score df).
    + destruct (filter _ (c :: cs)) as [|d ds] eqn:Ed.
      * simpl. unfold sort_values_desc. simpl. now rewrite head_nil.
      * reflexivity.
    + rewrite (filter_all (fun _ => true)) by reflexivity. reflexivity.
Qed.

(** ** InferencePipeline.recommend: the location filter *)

Lemma count_pos_filter (mask : Row -> bool) (rs : list Row) :
  (0 <? count mask rs)%nat = true <-> filter mask rs <> [].
Proof.
  unfold count. destruct (filter mask rs); simpl; split; intros H;
    try discriminate; try congruence; reflexivity.
Qed.

Lemma soft_filter_spec (mask : Row -> bool) (rs : list Row) :
  soft_filter mask rs = spec_apply_if_nonemptying mask rs.
Proof.
  unfold soft_filter, spec_apply_if_nonemptying, count.
  now destruct (filter mask rs).
Qed.

Lemma soft_filter_nonempty (mask : Row -> bool) (rs : list Row) :
  rs <> [] -> soft_filter mask rs <> [].
Proof.
  intros H. unfold soft_filter.
  destruct (0 <? count mask rs)%nat eqn:E; [|exact H].
  now apply count_pos_filter.
Qed.

Lemma soft_filter_In (mask : Row -> bool) (rs : list Row) (r : Row) :
  In r (soft_filter mask rs) -> In r rs.
Proof.
  unfold soft_filter. destruct (0 <? count mask rs)%nat; [|auto].
  intros H. now apply filter_In in H.
Qed.

Lemma location_filter_In (city' state' : option string)
      (candidates : list Row) (r : Row) :
  In r (location_filter city' state' candidates) -> In r candidates.
Proof.
  unfold location_filter.
  destruct (truthy city'), (truthy state'); intros H;
    repeat (apply soft_filter_In in H); exact H.
Qed.

(** C5.  The location step is the city stage followed by the state stage
    on its output, each stage filtering only when its filter keeps at
    least one row; it only ever returns rows it was given, and it maps a
    non-empty candidate list to a non-empty one. *)
Theorem location_filter_soft
        (city' state' : option string) (candidates : list Row) :
  location_filter city' state' candidates
  = spec_state_stage state' (spec_city_stage city' candidates)
  /\ (forall r, In r (location_filter city' state' candidates) ->
                In r candidates)
  /\ (candidates <> [] -> location_filter city' state' candidates <> []).
Proof.
  split; [|split].
  - unfold location_filter.
    destruct city' as [[|c cs]|], state' as [[|d ds]|]; simpl;
      now rewrite ?soft_filter_spec.
  - intros r. apply location_filter_In.
  - unfold location_filter. intros H.
    destruct (truthy city'), (truthy state');
      repeat (apply soft_filter_nonempty); exact H.
Qed.

Lemma location_filter_soft_witness :
  location_filter (Some "Perth"%string) (Some "vic"%string)
                  [cheap_chicken; melbourne_fish] <> [].
Proof.
  apply (proj2 (proj2 (location_filter_soft
                         (Some "Perth"%string) (Some "vic"%string)
                         [cheap_chicken; melbourne_fish]))).
  discriminate.
Defined.

(** ** ProductSearchIndex.search *)

Lemma mapM_Forall2 {A B : Type} (f : A -> result B) (xs : list A) (ys : list B) :
  mapM f xs = Ok ys -> Forall2 (fun x y => f x = Ok y) xs ys.
Proof.
  revert ys. induction xs as [|x xs IH]; simpl; intros ys H.
  - injection H as <-. constructor.
  - destruct (f x) as [y|] eqn:Ex; [|discriminate].
    destruct (mapM f xs) as [ys'|]; [|discriminate].
    injection H as <-. constructor; [exact Ex | now apply IH].
Qed.

Lemma mapM_total {A B : Type} (f : A -> result B) (xs : list A) :
  (forall x, In x xs -> exists y, f x = Ok y) -> exists ys, mapM f xs = Ok ys.
Proof.
  induction xs as [|x xs IH]; simpl; intros H.
  - now exists [].
  - destruct (H x (or_introl eq_refl)) as [y ->].
    destruct IH as [ys ->]; [intros z Hz; apply H; now right|].
    now exists (y :: ys).
Qed.

Lemma Forall2_In_r {A B : Type} (P : A -> B -> Prop) (xs : list A) (ys : list B) (y : B) :
  Forall2 P xs ys -> In y ys -> exists x, In x xs /\ P x y.
Proof.
  induction 1 as [|x y' xs ys Hp Hf IH]; simpl; intros Hin; [contradiction|].
  destruct Hin as [<-|Hin].
  - exists x. auto.
  - destruct (IH Hin) as (x' & Hx & Hp'). exists x'. auto.
Qed.

Lemma StronglySorted_Forall2 {A B : Type} (P : A -> B -> Prop)
      (R : A -> A -> Prop) (S : B -> B -> Prop) (xs : list A) (ys : list B) :
  (forall x x' y y', P x y -> P x' y' -> R x x' -> S y y') ->
  Forall2 P xs ys -> StronglySorted R xs -> StronglySorted S ys.
Proof.
  intros HRS. induction 1 as [|x y xs ys Hp Hf IH]; intros Hs.
  - constructor.
  - inversion Hs as [|? ? Hs' Hall]; subst. constructor; [now apply IH|].
    rewrite Forall_forall in *. intros y' Hy'.
    destruct (Forall2_In_r _ _ _ _ Hf Hy') as (x' & Hx' & Hp').
    eapply HRS; eauto.
Qed.

Lemma argsort_In (scores : list Q) (i : nat) :
  In i (argsort scores) -> (i < List.length scores)%nat.
Proof.
  unfold argsort. rewrite sort_by_In, in_seq. lia.
Qed.

Lemma argsort_descending (scores : list Q) :
  StronglySorted (fun i j => nth j scores 0 <= nth i scores 0)
                 (rev (argsort scores)).
Proof.
  apply StronglySorted_rev. unfold argsort.
  eapply StronglySorted_impl;
    [|apply (sort_by_sorted (key_leb (fun i => nth i scores 0)));
      [apply key_leb_total | apply key_leb_trans]].
  intros i j H. now apply Qle_bool_iff.
Qed.

Lemma search_score_set (r : Row) (s : float) :
  search_score (set_search_score r s) = s.
Proof. reflexivity. Qed.

Lemma _search_tfidf_spec (self : ProductSearchIndex) (tf : TfidfIndex)
      (q : string) (k : Z) (df : DataFrame) :
  _search_tfidf self tf q k = Ok df ->
  has_search_score df = true
  /\ List.length (rows df)
     = List.length (slice_to k (rev (argsort (cosine_scores tf q))))
  /\ StronglySorted (fun x y => F.ge (search_score x) (search_score y) = true)
                    (rows df).
Proof.
  unfold _search_tfidf, bind.
  destruct (mapM _ _) as [rs|] eqn:E; [|discriminate].
  intros H. injection H as <-. simpl.
  apply mapM_Forall2 in E. split; [reflexivity|]. split.
  - symmetry. eapply Forall2_length, E.
  - eapply StronglySorted_Forall2;
      [|exact E|apply StronglySorted_slice_to, argsort_descending].
    simpl. intros i j x y Hi Hj Hle.
    destruct (nth_error (product_df self) i); [|discriminate].
    destruct (nth_error (product_df self) j); [|discriminate].
    injection Hi as <-. injection Hj as <-.
    unfold F.ge. rewrite !search_score_set. simpl. now apply Qle_bool_iff.
Qed.

Lemma _search_faiss_spec (self : ProductSearchIndex) (ix : FaissIndex)
      (q : string) (k : Z) (df : DataFrame) :
  faiss_contract ix ->
  _search_faiss self ix q k = Ok df ->
  has_search_score df = true
  /\ Z.of_nat (List.length (rows df)) = k
  /\ StronglySorted (fun x y => F.ge (search_score x) (search_score y) = true)
                    (rows df).
Proof.
  intros Hc. unfold _search_faiss, bind.
  destruct (faiss_search ix q k) as [hits|] eqn:Eh; [|discriminate].
  destruct (Hc q k hits Eh) as [Hlen Hsorted].
  destruct (mapM _ hits) as [rs|] eqn:E; [|discriminate].
  intros H. injection H as <-. simpl.
  apply mapM_Forall2 in E. split; [reflexivity|]. split.
  - now rewrite <- (Forall2_length E).
  - eapply StronglySorted_Forall2; [|exact E|exact Hsorted].
    simpl. intros h h' x y Hx Hy Hle.
    destruct (py_index (product_df self) (snd h)); [|discriminate].
    destruct (py_index (product_df self) (snd h')); [|discriminate].
    injection Hx as <-. injection Hy as <-.
    unfold F.ge. rewrite !search_score_set. simpl. now apply Qle_bool_iff.
Qed.

(** An index built in lexical mode answers every [top_k]. *)
Lemma search_lexical_returns (self : ProductSearchIndex) (q : string) (top_k : Z) :
  lexical_built self q -> exists df, search self q top_k = Ok df.
Proof.
  intros [Hmode (tf & Htf & Hlen)]. unfold search. rewrite Htf.
  assert (Hrun : exists df, _search_tfidf self tf q top_k = Ok df).
  { unfold _search_tfidf, bind.
    destruct (mapM_total
                (fun i => match nth_error (product_df self) i with
                          | Some r => Ok (set_search_score r
                                            (Fin (nth i (cosine_scores tf q) 0)))
                          | None => Raise IndexError
                          end)
                (slice_to top_k (rev (argsort (cosine_scores tf q)))))
      as [rs ->].
    - intros i Hi. apply slice_to_In in Hi. rewrite <- in_rev in Hi.
      apply argsort_In in Hi. rewrite Hlen in Hi.
      apply nth_error_Some in Hi.
      destruct (nth_error (product_df self) i) as [r|]; [|congruence].
      eauto.
    - eauto. }
  destruct Hmode as [-> | ->]; [exact Hrun|].
  now destruct (use_faiss self).
Qed.

Lemma sample_index_built (q : string) : lexical_built sample_index q.
Proof.
  split; [now left|]. exists sample_tfidf. split; [reflexivity|].
  simpl. destruct (String.eqb q "chicken"); [reflexivity|].
  now destruct (String.eqb q "fish").
Qed.

(** A negative [top_k] is not a row count, and no caller passes one
    ([recommend] asks for 50 rows).  Python's slice [[:top_k]] then drops
    rows from the end: on the two-row sample index [top_k = -1] yields one
    row. *)
Example search_negative_top_k :
  exists df,
    search sample_index "chicken" (-1) = Ok df
    /\ List.length (rows df) = 1%nat.
Proof. eexists. split; reflexivity. Qed.

(** C7.  For every query and every row count [top_k] (a [top_k >= 0]), a
    frame returned by [search] has at most [top_k] rows, carries the
    [search_score] column, and its scores are in descending order.  In
    lexical mode this is the code's own sort and slice; in semantic mode the
    hits are those of the FAISS library, which answers with [k] hits, best
    first ([faiss_contract]).  An index built in lexical mode always
    returns. *)
Theorem search_top_k_sorted
        (self : ProductSearchIndex) (q : string) (top_k : Z) :
  (0 <= top_k)%Z ->
  (forall ix, index self = Some ix -> faiss_contract ix) ->
  (forall df, search self q top_k = Ok df ->
     (Z.of_nat (List.length (rows df)) <= top_k)%Z
     /\ has_search_score df = true
     /\ StronglySorted
          (fun x y => F.ge (search_score x) (search_score y) = true) (rows df))
  /\ (lexical_built self q -> exists df, search self q top_k = Ok df).
Proof.
  intros Hk Hfaiss. split.
  - intros df. unfold search.
    assert (Htf : forall tf, _search_tfidf self tf q top_k = Ok df ->
              (Z.of_nat (List.length (rows df)) <= top_k)%Z
              /\ has_search_score df = true
              /\ StronglySorted
                   (fun x y => F.ge (search_score x) (search_score y) = true)
                   (rows df)).
    { intros tf H. apply _search_tfidf_spec in H.
      destruct H as (H1 & H2 & H3). rewrite H2.
      split; [now apply slice_to_length | now split]. }
    destruct (use_faiss self), (index self) as [ix|] eqn:Ei,
      (tfidf self) as [tf|]; try discriminate; try apply Htf.
    + intros H. apply _search_faiss_spec in H; [|now apply Hfaiss].
      destruct H as (H1 & H2 & H3). split; [lia | now split].
    + intros H. apply _search_faiss_spec in H; [|now apply Hfaiss].
      destruct H as (H1 & H2 & H3). split; [lia | now split].
  - apply search_lexical_returns.
Qed.

Lemma sample_faiss_contract : faiss_contract sample_faiss.
Proof.
  intros q k hits. unfold sample_faiss, faiss_search.
  destruct (k =? 3)%Z eqn:E3; [|destruct (k =? 1)%Z eqn:E1].
  - intros H. injection H as <-. split; [simpl; lia|].
    repeat constructor; simpl; discriminate.
  - intros H. injection H as <-. split; [simpl; lia|].
    repeat constructor.
  - discriminate.
Qed.

Lemma search_top_k_sorted_witness :
  (forall df, search sample_semantic_index "chicken" 3 = Ok df ->
     (Z.of_nat (List.length (rows df)) <= 3)%Z
     /\ has_search_score df = true
     /\ StronglySorted
          (fun x y => F.ge (search_score x) (search_score y) = true) (rows df))
  /\ exists df, search sample_index "chicken" 1 = Ok df.
Proof.
  split.
  - apply (search_top_k_sorted sample_semantic_index "chicken" 3).
    + discriminate.
    + intros ix H. injection H as <-. exact sample_faiss_contract.
  - apply (search_top_k_sorted sample_index "chicken" 1).
    + discriminate.
    + discriminate.
    + apply sample_index_built.
Defined.

(** Retrieval returns catalog rows, each with its search score attached. *)
Lemma search_rows (self : ProductSearchIndex) (q : string) (k : Z)
      (df : DataFrame) (r : Row) :
  search self q k = Ok df -> In r (rows df) ->
  exists r0 s, In r0 (product_df self) /\ r = set_search_score r0 s.
Proof.
  assert (Hf : forall ix, _search_faiss self ix q k = Ok df -> In r (rows df) ->
             exists r0 s, In r0 (product_df self) /\ r = set_search_score r0 s).
  { intros ix. unfold _search_faiss, bind.
    destruct (faiss_search ix q k) as [hits|]; [|discriminate].
    destruct (mapM _ hits) as [rs|] eqn:E; [|discriminate].
    intros H Hin. injection H as <-. simpl in Hin.
    apply mapM_Forall2 in E.
    destruct (Forall2_In_r _ _ _ _ E Hin) as (h & _ & Hh).
    unfold py_index in Hh.
    destruct (0 <=? snd h)%Z.
    - destruct (nth_error _ _) as [r0|] eqn:En; [|discriminate].
      injection Hh as <-. exists r0, (Fin (fst h)).
      split; [eapply nth_error_In, En | reflexivity].
    - destruct (_ <? 0)%Z; [discriminate|].
      destruct (nth_error _ _) as [r0|] eqn:En; [|discriminate].
      injection Hh as <-. exists r0, (Fin (fst h)).
      split; [eapply nth_error_In, En | reflexivity]. }
  assert (Ht : forall tf, _search_tfidf self tf q k = Ok df -> In r (rows df) ->
             exists r0 s, In r0 (product_df self) /\ r = set_search_score r0 s).
  { intros tf. unfold _search_tfidf, bind.
    destruct (mapM _ _) as [rs|] eqn:E; [|discriminate].
    intros H Hin. injection H as <-. simpl in Hin.
    apply mapM_Forall2 in E.
    destruct (Forall2_In_r _ _ _ _ E Hin) as (i & _ & Hi).
    destruct (nth_error _ _) as [r0|] eqn:En; [|discriminate].
    injection Hi as <-. exists r0, (Fin (nth i (cosine_scores tf q) 0)).
    split; [eapply nth_error_In, En | reflexivity]. }
  unfold search.
  destruct (use_faiss self), (index self) as [ix|], (tfidf self) as [tf|];
    try discriminate; try apply Hf; try apply Ht.
Qed.

(** The rows behind the records of [recommend]. *)
Lemma recommend_records (self : InferencePipeline) (q : string) (budget : Q)
      (city' state' : option string) (top_n : Z) (out : list Out.t) (o : Out.t) :
  recommend self q budget city' state' top_n = Ok out -> In o out ->
  exists r0 s,
    In r0 (product_df (search_index self))
    /\ o = to_record (set_search_score r0 s)
    /\ F.le (Package_price r0) (Fin budget) = true.
Proof.
  unfold recommend, bind.
  destruct (search (search_index self) q 50) as [cands|] eqn:Es; [|discriminate].
  destruct (empty cands); [intros H; injection H as <-; contradiction|].
  set (located := mkDF _ _).
  destruct (empty (rank_products (ranker self) located budget top_n));
    [intros H; injection H as <-; contradiction|].
  intros H Hin. injection H as <-.
  apply in_map_iff in Hin. destruct Hin as (r & <- & Hr).
  apply rank_products_In in Hr. destruct Hr as (Hr & Hp & _).
  simpl in Hr. apply location_filter_In in Hr.
  destruct (search_rows _ _ _ _ _ Es Hr) as (r0 & s & Hr0 & ->).
  exists r0, s. auto.
Qed.

(** A catalog discount of 0.15 is reported as 15.0. *)
Example recommend_discount_in_percent :
  recommend sample_pipeline "fish" 10 None None 3 = Ok [to_record melbourne_fish]
  /\ F.eq (Out.discount_pct (to_record melbourne_fish)) (Fin 15).
Proof. split; reflexivity. Qed.

(** ** PricePredictor.predict_next_price *)

(** C4 as stated fails for an identifier without observations: the
    emptiness check comes first, so even an untrained predictor answers
    "not found" instead of a forecast. *)
Lemma untrained_unknown_sku_counterexample :
  ~ (forall (self : PricePredictor) (sku' : string) (df : list Row),
        is_trained self = false ->
        exists p,
          predict_next_price self sku' df
          = Ok (ForecastDict (mkForecast sku' p p None "stable" "low"))).
Proof.
  intros H.
  destruct (H (PricePredictor_init (fun _ => NaN)) "B777"%string
              sample_history eq_refl) as [p Hp].
  discriminate Hp.
Qed.

Lemma date_before_refl (d : option Z) : date_before d d.
Proof. destruct d; simpl; [lia | exact I]. Qed.

(** C4 (amended).  Let the observations of [sku'] appear in the frame in
    ascending date order (undated ones last), with [latest] the last of
    them, so that there is at least one.  With [min_history = 3], if the
    product has fewer than three observations, or if the predictor was
    never trained, the answer is the price of [latest] with trend "stable"
    and confidence "low", and no observation of the product is more recent
    than [latest]: the fallback is the last observed price.  The answer
    does not mention [predict_last]: the regression is not used. *)
Theorem predict_next_price_fallback
        (self : PricePredictor) (sku' : string) (df init : list Row)
        (latest : Row) :
  min_history self = 3%nat ->
  filter (fun r => String.eqb (Sku r) sku') df = init ++ [latest] ->
  StronglySorted (fun a b => date_before (RunDate a) (RunDate b))
                 (init ++ [latest]) ->
  (List.length init < 2)%nat \/ is_trained self = false ->
  predict_next_price self sku' df
  = Ok (ForecastDict
          (mkForecast sku' (Package_price latest) (Package_price latest)
                      None "stable" "low"))
  /\ (forall r, In r df -> Sku r = sku' ->
                date_before (RunDate r) (RunDate latest)).
Proof.
  intros Hmin Hsku Hsorted Hcase. split.
  - unfold predict_next_price.
    rewrite Hsku, rev_app_distr. simpl.
    rewrite Hmin, length_app. simpl.
    destruct Hcase as [Hshort | Huntrained].
    + replace (List.length init + 1 <? 3)%nat with true; [reflexivity|].
      symmetry. apply Nat.ltb_lt. lia.
    + rewrite Huntrained. simpl. now rewrite orb_true_r.
  - intros r Hr Hs.
    assert (Hin : In r (init ++ [latest])).
    { rewrite <- Hsku. apply filter_In. split; [exact Hr|].
      now apply String.eqb_eq. }
    apply in_app_or in Hin. destruct Hin as [Hin | [<- | []]].
    + apply (StronglySorted_app_inv _ _ _ Hsorted r latest Hin). now left.
    + apply date_before_refl.
Qed.

Lemma predict_next_price_fallback_witness :
  predict_next_price sample_predictor "A001" sample_history
  = Ok (ForecastDict (mkForecast "A001" (Fin 7) (Fin 7) None "stable" "low"))
  /\ (forall r, In r sample_history -> Sku r = "A001"%string ->
                date_before (RunDate r) (Some 107%Z)).
Proof.
  apply (predict_next_price_fallback sample_predictor "A001" sample_history
           [observation "A001" 100 (65 # 10)] (observation "A001" 107 7)).
  - reflexivity.
  - reflexivity.
  - repeat constructor. simpl. lia.
  - left. simpl. lia.
Defined.

(** The premise on the order matters: the code takes the positionally last
    row of the product ([iloc[-1]]) without sorting.  On a history listed
    newest first, as [deduplicate] sorts it, the fallback is the oldest
    price. *)
Example predict_next_price_newest_first :
  predict_next_price sample_predictor "A001"
    [observation "A001" 107 7; observation "A001" 100 (65 # 10)]
  = Ok (ForecastDict
          (mkForecast "A001" (Fin (65 # 10)) (Fin (65 # 10)) None
                      "stable" "low")).
Proof. reflexivity. Qed.

(** An identifier without observations is reported as not found, trained
    or not. *)
Lemma predict_next_price_not_found (self : PricePredictor) (sku' : string)
      (df : list Row) :
  filter (fun r => String.eqb (Sku r) sku') df = [] ->
  predict_next_price self sku' df
  = Ok (ErrorDict ("Sku '" ++ sku' ++ "' not found")).
Proof.
  intros H. unfold predict_next_price. now rewrite H.
Qed.

(** An untrained predictor falls back even on a long history. *)
Example predict_next_price_untrained :
  predict_next_price (PricePredictor_init (fun _ => Fin 1)) "A001"
    (sample_history ++ sample_history)
  = Ok (ForecastDict (mkForecast "A001" (Fin 7) (Fin 7) None "stable" "low")).
Proof. reflexivity. Qed.

(** The trained path on four observations: the regression answers 9.99,
    2.99 above the last price. *)
Example predict_next_price_trained :
  predict_next_price sample_predictor "A001" (sample_history ++ sample_history)
  = Ok (ForecastDict
          (mkForecast "A001" (fround 2 (Fin (999 # 100))) (fround 2 (Fin 7))
                      (Some (fround 2 (Fin ((999 # 100) - 7))))
                      "rising" "low")).
Proof. vm_compute. reflexivity. Qed.

(** ** recommend_basket *)

Section Planner.
Variable pipeline : Recommender.
Variable request : Request.t.
Variable per_item_budget : Q.

Lemma basket_line_spec (q : string) (log log' : list Call) (line : BasketItem) :
  basket_line pipeline request per_item_budget q log = Ok (line, log') ->
  exists calls,
    log' = log ++ calls
    /\ line_spec pipeline request per_item_budget q line calls.
Proof.
  unfold basket_line, tbind, call_recommend, ret.
  destruct (pipeline q per_item_budget _ _ 3%Z) as [[|best alts]|] eqn:E1;
    [| |discriminate].
  - destruct (pipeline q (Request.total_budget request) _ _ 3%Z)
      as [[|best alts]|] eqn:E2; [| |discriminate].
    + intros H. injection H as <- <-. eexists. split.
      * now rewrite <- app_assoc.
      * now apply retry_miss.
    + intros H. injection H as <- <-. eexists. split.
      * now rewrite <- app_assoc.
      * now apply retry_hit.
  - intros H. injection H as <- <-. eexists. split; [reflexivity|].
    now apply first_try_hit.
Qed.

Lemma basket_loop_spec (items : list string) :
  forall (basket : list BasketItem) (total : float) (log : list Call)
         (basket' : list BasketItem) (total' : float) (log' : list Call),
    basket_loop pipeline request per_item_budget items basket total log
    = Ok ((basket', total'), log') ->
    exists lines calls,
      basket' = basket ++ lines
      /\ total' = fold_left F.add (map estimated_cost lines) total
      /\ log' = log ++ calls
      /\ plan_spec pipeline request per_item_budget items lines calls.
Proof.
  induction items as [|q qs IH]; simpl; intros basket total log basket' total' log'.
  - unfold ret. intros H. injection H as <- <- <-.
    exists [], []. rewrite !app_nil_r. repeat split. constructor.
  - unfold tbind at 1.
    destruct (basket_line pipeline request per_item_budget q log)
      as [[line log1]|] eqn:El; [|discriminate].
    intros H. apply IH in H.
    destruct H as (lines & calls & -> & -> & -> & Hplan).
    apply basket_line_spec in El. destruct El as (calls1 & -> & Hline).
    exists (line :: lines), (calls1 ++ calls).
    rewrite <- !app_assoc. repeat split. now constructor.
Qed.

Lemma line_spec_cost (q : string) (line : BasketItem) (calls : list Call) :
  line_spec pipeline request per_item_budget q line calls ->
  query line = q /\ estimated_cost line = line_cost line.
Proof. now destruct 1. Qed.

Lemma line_spec_null (q : string) (line : BasketItem) (calls : list Call) :
  line_spec pipeline request per_item_budget q line calls ->
  best_match line = None ->
  pipeline q per_item_budget (Request.city request) (Request.state request) 3%Z
  = Ok []
  /\ pipeline q (Request.total_budget request)
              (Request.city request) (Request.state request) 3%Z = Ok []
  /\ estimated_cost line = Fin 0.
Proof. destruct 1; simpl; intros; try discriminate. auto. Qed.

Lemma plan_spec_lines (items : list string) (lines : list BasketItem)
      (calls : list Call) (line : BasketItem) :
  plan_spec pipeline request per_item_budget items lines calls ->
  In line lines ->
  exists cs, line_spec pipeline request per_item_budget (query line) line cs.
Proof.
  induction 1 as [|q qs l ls cs cs' Hl Hp IH]; simpl; [contradiction|].
  intros [<-|Hin]; [|now apply IH].
  exists cs. now rewrite (proj1 (line_spec_cost _ _ _ Hl)).
Qed.

(** In the loop, the pipeline is only ever asked for [top_n = 3]. *)
Lemma basket_line_total (q : string) (log : list Call) :
  (forall b, exists out,
      pipeline q b (Request.city request) (Request.state request) 3%Z = Ok out) ->
  exists line log',
    basket_line pipeline request per_item_budget q log = Ok (line, log').
Proof.
  intros H. unfold basket_line, tbind, call_recommend, ret.
  destruct (H per_item_budget) as [[|b1 a1] ->].
  - destruct (H (Request.total_budget request)) as [[|b2 a2] ->]; eauto.
  - eauto.
Qed.

Lemma basket_loop_total (items : list string) :
  (forall q b, exists out,
      pipeline q b (Request.city request) (Request.state request) 3%Z = Ok out) ->
  forall basket total log,
  exists out log',
    basket_loop pipeline request per_item_budget items basket total log
    = Ok (out, log').
Proof.
  intros H. induction items as [|q qs IH]; simpl; intros basket total log.
  - unfold ret. eauto.
  - unfold tbind at 1.
    destruct (basket_line_total q log (H q)) as (line & log1 & ->).
    apply IH.
Qed.

End Planner.

Lemma recommend_basket_spec (pipeline : Recommender) (request : Request.t)
      (log log' : list Call) (resp : Response.t) :
  recommend_basket request pipeline log = Ok (resp, log') ->
  exists total calls,
    Request.items request <> []
    /\ log' = log ++ calls
    /\ plan_spec pipeline request (per_item request)
                 (Request.items request) (Response.basket resp) calls
    /\ total = fold_left F.add (map estimated_cost (Response.basket resp)) (Fin 0)
    /\ Response.estimated_total resp = fround 2 total
    /\ Response.within_budget resp
       = F.le total (Fin (Request.total_budget request))
    /\ Response.total_budget resp = Request.total_budget request.
Proof.
  unfold recommend_basket.
  destruct (List.length (Request.items request) =? 0)%nat eqn:En;
    [discriminate|].
  unfold tbind, ret.
  destruct (basket_loop _ _ _ _ _ _ log) as [[[basket total] log1]|] eqn:El;
    [|discriminate].
  intros H. injection H as <- <-.
  apply basket_loop_spec in El.
  destruct El as (lines & calls & -> & -> & -> & Hplan).
  exists (fold_left F.add (map estimated_cost lines) (Fin 0)), calls.
  simpl. repeat split; try assumption.
  intros E. rewrite E in En. discriminate.
Qed.

(** C9.  The basket and the call log of a planner run are those of the
    specification: per item one call with the per-item budget, followed by
    one call with the full budget exactly when the first returned nothing;
    and a line has no best match only if both calls returned nothing, in
    which case its cost is 0. *)
Theorem recommend_basket_retry
        (pipeline : Recommender) (request : Request.t)
        (log log' : list Call) (resp : Response.t) :
  recommend_basket request pipeline log = Ok (resp, log') ->
  (exists calls,
      log' = log ++ calls
      /\ plan_spec pipeline request (per_item request)
                   (Request.items request) (Response.basket resp) calls)
  /\ (forall line,
         In line (Response.basket resp) -> best_match line = None ->
         pipeline (query line) (per_item request)
                  (Request.city request) (Request.state request) 3%Z = Ok []
         /\ pipeline (query line) (Request.total_budget request)
                     (Request.city request) (Request.state request) 3%Z = Ok []
         /\ estimated_cost line = Fin 0).
Proof.
  intros H. apply recommend_basket_spec in H.
  destruct H as (total & calls & _ & Hlog & Hplan & _).
  split.
  - now exists calls.
  - intros line Hin Hnone.
    destruct (plan_spec_lines _ _ _ _ _ _ _ Hplan Hin) as [cs Hline].
    now apply (line_spec_null _ _ _ _ _ _ Hline).
Qed.

Lemma recommend_basket_retry_witness :
  (exists calls,
      [mkCall "chicken" (40 / inject_Z 3) 3;
       mkCall "caviar" (40 / inject_Z 3) 3; mkCall "caviar" 40 3;
       mkCall "bread" (40 / inject_Z 3) 3; mkCall "bread" 40 3]
      = [] ++ calls
      /\ plan_spec sample_engine sample_request (per_item sample_request)
           (Request.items sample_request) sample_basket calls)
  /\ sample_engine "caviar"%string 40 None None 3%Z = Ok [].
Proof.
  pose proof (recommend_basket_retry sample_engine sample_request []
                _ (Response.mk 40 (fround 2 (Fin (0 + 5 + 0 + 15)))
                               true sample_basket)
                eq_refl) as [Hplan Hnull].
  split; [exact Hplan|].
  apply (Hnull (mkBasketItem "caviar" None [] (Fin 0))).
  - simpl. auto.
  - reflexivity.
Defined.

(** *** Rounding *)

Lemma round_half_even_Z (x : Q) (z : Z) :
  x == inject_Z z -> round_half_even x = z.
Proof.
  intros H. unfold round_half_even.
  assert (Hf : Qfloor x = z) by (rewrite (Qfloor_comp _ _ H); apply Qfloor_Z).
  rewrite Hf.
  assert (Hd : x - inject_Z z == 0) by lra.
  assert (H1 : Qle_bool (x - inject_Z z) (1 # 2) = true)
    by (apply Qle_bool_iff; lra).
  rewrite H1.
  destruct (Qle_bool (1 # 2) (x - inject_Z z)) eqn:H2; [|reflexivity].
  apply Qle_bool_iff in H2. lra.
Qed.

Lemma round_dec_cents (x : Q) (z : Z) :
  x == inject_Z z / 100 -> round_dec 2 x == x.
Proof.
  intros H. unfold round_dec.
  change (inject_Z (10 ^ Z.of_nat 2)) with 100.
  rewrite (round_half_even_Z (x * 100) z).
  - now rewrite H.
  - rewrite H. field.
Qed.

Lemma fround_two_decimals (a : float) :
  two_decimals a -> F.eq (fround 2 a) a.
Proof.
  intros [z Hz]. destruct a as [|x]; simpl in *; [exact I|].
  now apply (round_dec_cents x z).
Qed.

Lemma fround_is_two_decimals (a : float) :
  F.isna a = false -> two_decimals (fround 2 a).
Proof.
  destruct a as [|x]; [discriminate|]. intros _.
  exists (round_half_even (x * 100)). simpl. unfold round_dec.
  change (inject_Z (10 ^ Z.of_nat 2)) with 100. reflexivity.
Qed.

Lemma add_two_decimals (a b : float) :
  two_decimals a -> two_decimals b -> two_decimals (F.add a b).
Proof.
  intros [z Hz] [w Hw]. destruct a as [|x], b as [|y]; simpl in *;
    try contradiction.
  exists (z + w)%Z. simpl. rewrite inject_Z_plus, Hz, Hw. field.
Qed.

Lemma fold_add_two_decimals (costs : list float) (acc : float) :
  two_decimals acc -> Forall two_decimals costs ->
  two_decimals (fold_left F.add costs acc).
Proof.
  revert acc. induction costs as [|c cs IH]; simpl; intros acc Ha Hc.
  - exact Ha.
  - inversion Hc; subst. apply IH; [|assumption].
    now apply add_two_decimals.
Qed.

Lemma le_F_eq (a a' : float) (b : Q) :
  F.eq a a' -> F.le a (Fin b) = F.le a' (Fin b).
Proof.
  destruct a as [|x], a' as [|y]; simpl; try contradiction; [reflexivity|].
  intros H.
  destruct (Qle_bool x b) eqn:E1, (Qle_bool y b) eqn:E2; try reflexivity.
  - apply Qle_bool_iff in E1. assert (y <= b) by lra.
    apply Qle_bool_iff in H0. congruence.
  - apply Qle_bool_iff in E2. assert (x <= b) by lra.
    apply Qle_bool_iff in H0. congruence.
Qed.

(** Every price that [recommend] reports is a whole number of cents. *)
Lemma recommend_two_decimals (self : InferencePipeline) (q : string) (budget : Q)
      (city' state' : option string) (top_n : Z) (out : list Out.t) (o : Out.t) :
  recommend self q budget city' state' top_n = Ok out -> In o out ->
  two_decimals (Out.Package_price o).
Proof.
  intros H Hin.
  destruct (recommend_records _ _ _ _ _ _ _ _ H Hin) as (r0 & s & _ & -> & Hp).
  simpl. apply fround_is_two_decimals.
  now destruct (Package_price r0).
Qed.

(** The planner's totals, for any pipeline that reports prices in whole
    cents. *)
Lemma recommend_basket_total_cents (pipeline : Recommender) (request : Request.t)
      (log log' : list Call) (resp : Response.t) :
  (forall q b c s n out o,
      pipeline q b c s n = Ok out -> In o out ->
      two_decimals (Out.Package_price o)) ->
  recommend_basket request pipeline log = Ok (resp, log') ->
  F.eq (Response.estimated_total resp) (sum_costs (Response.basket resp))
  /\ Response.within_budget resp
     = F.le (Response.estimated_total resp) (Fin (Response.total_budget resp))
  /\ Forall (fun line => estimated_cost line = line_cost line)
            (Response.basket resp).
Proof.
  intros Hcents H. apply recommend_basket_spec in H.
  destruct H as (total & calls & _ & _ & Hplan & Htotal & Hest & Hwb & Hb).
  assert (Hlines : Forall (fun line => estimated_cost line = line_cost line
                                       /\ two_decimals (estimated_cost line))
                          (Response.basket resp)).
  { rewrite Forall_forall. intros line Hin.
    destruct (plan_spec_lines _ _ _ _ _ _ _ Hplan Hin) as [cs Hline].
    split; [apply (line_spec_cost _ _ _ _ _ _ Hline)|].
    destruct Hline as [best alts E | best alts _ E | _ _]; simpl.
    - eapply Hcents; [exact E | now left].
    - eapply Hcents; [exact E | now left].
    - exists 0%Z. simpl. reflexivity. }
  assert (Htwo : two_decimals total).
  { rewrite Htotal. apply fold_add_two_decimals.
    - exists 0%Z. simpl. reflexivity.
    - rewrite Forall_forall in *. intros c Hc.
      apply in_map_iff in Hc. destruct Hc as (line & <- & Hin).
      now apply Hlines. }
  assert (Heq : F.eq (Response.estimated_total resp) total).
  { rewrite Hest. now apply fround_two_decimals. }
  split; [|split].
  - unfold sum_costs. now rewrite <- Htotal.
  - rewrite Hwb, Hb. symmetry. now apply le_F_eq.
  - eapply Forall_impl; [|exact Hlines]. now intros line [H _].
Qed.

(** ** BudgetRanker._build_groups_and_labels *)

Lemma round_half_even_mono (x y : Q) :
  x <= y -> (round_half_even x <= round_half_even y)%Z.
Proof.
  intros Hxy. pose proof (Qfloor_resp_le x y Hxy) as Hf.
  pose proof (Qfloor_le x) as Hx1. pose proof (Qlt_floor x) as Hx2.
  pose proof (Qfloor_le y) as Hy1. pose proof (Qlt_floor y) as Hy2.
  unfold round_half_even.
  destruct (Z.eq_dec (Qfloor x) (Qfloor y)) as [E|N].
  - rewrite <- E in *. clear E Hf.
    destruct (Qle_bool (x - inject_Z (Qfloor x)) (1 # 2)) eqn:A1;
      destruct (Qle_bool (1 # 2) (x - inject_Z (Qfloor x))) eqn:A2;
      destruct (Qle_bool (y - inject_Z (Qfloor x)) (1 # 2)) eqn:B1;
      destruct (Qle_bool (1 # 2) (y - inject_Z (Qfloor x))) eqn:B2;
      destruct (Z.even (Qfloor x)); try lia;
      repeat match goal with
             | H : Qle_bool _ _ = true |- _ => apply Qle_bool_iff in H
             | H : Qle_bool _ _ = false |- _ =>
                 apply Bool.not_true_iff_false in H;
                 rewrite Qle_bool_iff in H; apply Qnot_le_lt in H
             end; lra.
  - assert (Hlt : (Qfloor x + 1 <= Qfloor y)%Z) by lia.
    destruct (Qle_bool (x - inject_Z (Qfloor x)) (1 # 2));
      destruct (Qle_bool (1 # 2) (x - inject_Z (Qfloor x)));
      destruct (Qle_bool (y - inject_Z (Qfloor y)) (1 # 2));
      destruct (Qle_bool (1 # 2) (y - inject_Z (Qfloor y)));
      destruct (Z.even (Qfloor x)); destruct (Z.even (Qfloor y)); lia.
Qed.

Lemma clip_range (l : Z) : (0 <= clip 0 MAX_LABEL l <= MAX_LABEL)%Z.
Proof. unfold clip, MAX_LABEL. lia. Qed.

Lemma clip_mono (x y : Z) :
  (x <= y)%Z -> (clip 0 MAX_LABEL x <= clip 0 MAX_LABEL y)%Z.
Proof. unfold clip, MAX_LABEL. lia. Qed.

Lemma count_app (p : Row -> bool) (l1 l2 : list Row) :
  count p (l1 ++ l2) = (count p l1 + count p l2)%nat.
Proof. unfold count. now rewrite filter_app, length_app. Qed.

Lemma count_perm (p : Row -> bool) (l1 l2 : list Row) :
  Permutation l1 l2 -> count p l1 = count p l2.
Proof.
  unfold count. induction 1; simpl.
  - reflexivity.
  - destruct (p x); simpl; congruence.
  - destruct (p x), (p y); reflexivity.
  - congruence.
Qed.

(** If every row counted by [p] or by [q] (never both) is counted by [r],
    the two counts together stay below the count of [r]. *)
Lemma count_add_le (p q r : Row -> bool) (l : list Row) :
  (forall x, p x = true -> q x = false /\ r x = true) ->
  (forall x, q x = true -> r x = true) ->
  (count p l + count q l <= count r l)%nat.
Proof.
  intros Hp Hq. unfold count. induction l as [|x l IH]; simpl; [lia|].
  destruct (p x) eqn:Ep.
  - destruct (Hp x Ep) as [-> ->]. simpl. lia.
  - destruct (q x) eqn:Eq.
    + rewrite (Hq x Eq). simpl. lia.
    + destruct (r x); simpl; lia.
Qed.

Lemma rank_column_In (all : list Row) (rest before : list Row) (r : Row) (k : float) :
  In (r, k) (rank_column all before rest) ->
  exists pre post, rest = pre ++ r :: post /\ k = raw_rank all (before ++ pre) r.
Proof.
  revert before. induction rest as [|x rest IH]; simpl; intros before H;
    [contradiction|].
  destruct H as [H|H].
  - injection H as -> <-. exists [], rest. now rewrite app_nil_r.
  - apply IH in H. destruct H as (pre & post & -> & ->).
    exists (x :: pre), post. now rewrite <- app_assoc.
Qed.

Lemma rank_column_fst (all : list Row) (rest before : list Row) :
  map fst (rank_column all before rest) = rest.
Proof.
  revert before. induction rest as [|x rest IH]; simpl; intros before;
    [reflexivity|]. now rewrite IH.
Qed.

Lemma same_group_ext (a b x : Row) :
  Sub_category a = Sub_category b -> same_group x a = same_group x b.
Proof. unfold same_group. now intros ->. Qed.

Lemma group_ranks_ext (ranked : list (Row * float)) (a b : Row) :
  Sub_category a = Sub_category b ->
  group_ranks ranked a = group_ranks ranked b.
Proof.
  intros H. unfold group_ranks. apply flat_map_ext. intros x.
  now rewrite (same_group_ext a b _ H).
Qed.

Lemma group_ranks_length (ranked : list (Row * float)) (r : Row) :
  (List.length (group_ranks ranked r)
   <= count (fun x => same_group x r) (map fst ranked))%nat.
Proof.
  unfold group_ranks, count. induction ranked as [|[x k] l IH]; simpl; [lia|].
  rewrite length_app.
  destruct (same_group x r); simpl; [destruct k; simpl|]; lia.
Qed.

Lemma fold_Qmin_le (qs : list Q) (q : Q) : fold_left Qmin qs q <= q.
Proof.
  revert q. induction qs as [|x qs IH]; simpl; intros q; [apply Qle_refl|].
  eapply Qle_trans; [apply IH|].
  unfold Qmin. destruct (Qle_bool q x) eqn:E; [apply Qle_refl|].
  apply Bool.not_true_iff_false in E. rewrite Qle_bool_iff in E.
  apply Qnot_le_lt in E. now apply Qlt_le_weak.
Qed.

Lemma fold_Qmax_ge (qs : list Q) (q : Q) : q <= fold_left Qmax qs q.
Proof.
  revert q. induction qs as [|x qs IH]; simpl; intros q; [apply Qle_refl|].
  eapply Qle_trans; [|apply IH].
  unfold Qmax. destruct (Qle_bool q x) eqn:E; [|apply Qle_refl].
  now apply Qle_bool_iff.
Qed.

Lemma series_min_le_max (qs : list Q) (m M : Q) :
  series_min qs = Fin m -> series_max qs = Fin M -> m <= M.
Proof.
  destruct qs as [|q qs]; simpl; [discriminate|].
  intros H1 H2. injection H1 as <-. injection H2 as <-.
  eapply Qle_trans; [apply fold_Qmin_le | apply fold_Qmax_ge].
Qed.

(** A higher value score never gets a lower rank inside a group. *)
Lemma raw_rank_mono (all before_a post_a before_b : list Row) (a b : Row) (va vb : Q) :
  all = before_a ++ post_a ->
  Sub_category a = Sub_category b ->
  value_score a = Fin va -> value_score b = Fin vb -> va < vb ->
  exists ka kb,
    raw_rank all before_a a = Fin ka
    /\ raw_rank all before_b b = Fin kb
    /\ ka <= kb.
Proof.
  intros Hall Hsub Ha Hb Hlt. unfold raw_rank. rewrite Ha, Hb.
  eexists. eexists. split; [reflexivity|]. split; [reflexivity|].
  rewrite <- Zle_Qle. apply inj_le.
  assert (Hpre : (count (tied a va) before_a <= count (tied a va) all)%nat)
    by (rewrite Hall, count_app; lia).
  assert (Hsum : (count (below a va) all + count (tied a va) all
                  <= count (below b vb) all)%nat).
  { apply count_add_le.
    - intros x. unfold below, tied, F.lt, F.gt, F.le, F.ge, F.le.
      rewrite (same_group_ext a b x Hsub).
      destruct (same_group x b); simpl; [|discriminate].
      destruct (value_score x) as [|vx]; [discriminate|].
      intros H. apply negb_true_iff in H.
      apply Bool.not_true_iff_false in H. rewrite Qle_bool_iff in H.
      apply Qnot_le_lt in H. split.
      + apply andb_false_iff. right.
        apply Bool.not_true_iff_false. rewrite Qle_bool_iff. lra.
      + apply negb_true_iff, Bool.not_true_iff_false.
        rewrite Qle_bool_iff. lra.
    - intros x. unfold below, tied, F.lt, F.gt, F.le, F.ge, F.le.
      rewrite (same_group_ext a b x Hsub).
      destruct (same_group x b); simpl; [|discriminate].
      destruct (value_score x) as [|vx]; [discriminate|].
      intros H. apply andb_true_iff in H. destruct H as [H1 H2].
      apply Qle_bool_iff in H1.
      apply negb_true_iff, Bool.not_true_iff_false.
      rewrite Qle_bool_iff. lra. }
  lia.
Qed.

Lemma scale_group_mono (ranked : list (Row * float)) (a b : Row)
      (ka kb : Q) (la lb : Z) :
  Sub_category a = Sub_category b -> ka <= kb ->
  scale_group ranked a (Fin ka) = Ok la ->
  scale_group ranked b (Fin kb) = Ok lb ->
  (la <= lb)%Z.
Proof.
  intros Hsub Hk. unfold scale_group.
  rewrite (group_ranks_ext ranked a b Hsub).
  destruct (series_min (group_ranks ranked b)) as [|m] eqn:Em;
    destruct (series_max (group_ranks ranked b)) as [|M] eqn:EM;
    simpl; try discriminate.
  pose proof (series_min_le_max _ _ _ Em EM) as HmM.
  destruct (Qeq_bool M m) eqn:E.
  - intros H1 H2. injection H1 as <-. injection H2 as <-. lia.
  - intros H1 H2. injection H1 as <-. injection H2 as <-.
    assert (Hne : ~ M == m).
    { intros H. apply Qeq_bool_iff in H. congruence. }
    assert (Hpos : 0 < M - m) by lra.
    apply round_half_even_mono.
    apply Qmult_le_compat_r; [|discriminate].
    unfold Qdiv. apply Qmult_le_compat_r; [lra|].
    apply Qlt_le_weak. now apply Qinv_lt_0_compat.
Qed.

(** The label of a row, traced back to its rank. *)
Lemma labels_In (df : list Row) (out : list (Row * Z)) (groups : list nat)
      (r : Row) (l : Z) :
  _build_groups_and_labels df = Ok (out, groups) -> In (r, l) out ->
  let sorted := sort_by_sub_category df in
  let ranked := rank_column sorted [] sorted in
  exists k l',
    In (r, k) ranked
    /\ scale_group ranked r k = Ok l'
    /\ l = clip 0 MAX_LABEL l'.
Proof.
  unfold _build_groups_and_labels, bind.
  destruct (mapM _ _) as [rel|] eqn:E; [|discriminate].
  intros H Hin. injection H as <- _. simpl.
  apply mapM_Forall2 in E.
  destruct (Forall2_In_r _ _ _ _ E Hin) as ([x k] & Hx & Hs).
  simpl in Hs.
  destruct (scale_group _ x k) as [l'|] eqn:El; [|discriminate].
  injection Hs as -> <-. exists k, l'. auto.
Qed.

(** C2 as stated fails: two products of one sub-category with the same
    value score get the labels 0 and 30, since ties are ranked in order of
    appearance. *)
Lemma constant_group_counterexample :
  ~ (forall (df : list Row) (out : list (Row * Z)) (groups : list nat),
        _build_groups_and_labels df = Ok (out, groups) ->
        forall r l, In (r, l) out ->
          (forall x, In x df -> same_group x r = true ->
                     F.eq (value_score x) (value_score r)) ->
          l = 0%Z).
Proof.
  intros H.
  specialize (H [cheap_chicken; product "Other Chicken" "Poultry" 6 1 0 2 0]
                _ _ eq_refl
                (product "Other Chicken" "Poultry" 6 1 0 2 0) 30%Z).
  assert (E : 30%Z = 0%Z); [|discriminate E].
  apply H.
  - simpl. auto.
  - intros x [<-|[<-|[]]] _; reflexivity.
Qed.

(** Label construction succeeds on rows without null value scores, which
    is what [train] passes after its [dropna]. *)
Lemma _build_groups_and_labels_returns (df : list Row) :
  (forall r, In r df -> F.isna (value_score r) = false) ->
  exists out groups, _build_groups_and_labels df = Ok (out, groups).
Proof.
  intros Hfin. unfold _build_groups_and_labels, bind.
  set (sorted := sort_by_sub_category df).
  set (ranked := rank_column sorted [] sorted).
  destruct (mapM_total
              (fun rk => match scale_group ranked (fst rk) (snd rk) with
                         | Ok l => Ok (fst rk, clip 0 MAX_LABEL l)
                         | Raise e => Raise e
                         end) ranked) as [rel ->]; [|eauto].
  intros [r k] Hin. simpl.
  assert (Hr : In r df).
  { apply (in_map fst) in Hin. unfold ranked in Hin.
    rewrite rank_column_fst in Hin. simpl in Hin.
    unfold sorted, sort_by_sub_category in Hin.
    now apply sort_by_In in Hin. }
  pose proof Hin as Hk. apply rank_column_In in Hk.
  destruct Hk as (pre & post & _ & Hk). unfold raw_rank in Hk.
  specialize (Hfin r Hr).
  destruct (value_score r) as [|v]; [discriminate|].
  set (q := inject_Z _) in Hk. subst k.
  assert (Hq : In q (group_ranks ranked r)).
  { unfold group_ranks. apply in_flat_map. exists (r, Fin q).
    split; [exact Hin|]. simpl. unfold same_group.
    rewrite String.eqb_refl. now left. }
  unfold scale_group.
  destruct (group_ranks ranked r) as [|q0 qs]; [contradiction|].
  simpl. destruct (Qeq_bool _ _); eauto.
Qed.

(** C2 (amended).  Label construction succeeds when no value score is
    null, and whenever it succeeds: every label is an integer in
    [0, MAX_LABEL] with [MAX_LABEL = 30]; inside a sub-category a row with a
    strictly higher value score never has a lower label; the only member
    of a group of size 1 has label 0; and the labelled rows are the
    training rows. *)
Theorem relevance_labels (df : list Row) :
  ((forall r, In r df -> F.isna (value_score r) = false) ->
   exists out groups, _build_groups_and_labels df = Ok (out, groups))
  /\ (forall (out : list (Row * Z)) (groups : list nat),
        _build_groups_and_labels df = Ok (out, groups) ->
        MAX_LABEL = 30%Z
        /\ (forall r l, In (r, l) out -> (0 <= l <= MAX_LABEL)%Z)
        /\ (forall a la b lb va vb,
               In (a, la) out -> In (b, lb) out ->
               Sub_category a = Sub_category b ->
               value_score a = Fin va -> value_score b = Fin vb -> va < vb ->
               (la <= lb)%Z)
        /\ (forall r l,
               In (r, l) out ->
               count (fun x => same_group x r) df = 1%nat ->
               l = 0%Z)
        /\ Permutation (map fst out) df).
Proof.
  split; [apply _build_groups_and_labels_returns|].
  intros out groups Hrun.
  split; [reflexivity|]. split; [|split; [|split]].
  - intros r l Hin.
    destruct (labels_In _ _ _ _ _ Hrun Hin) as (k & l' & _ & _ & ->).
    apply clip_range.
  - intros a la b lb va vb Ha Hb Hsub Hva Hvb Hlt.
    destruct (labels_In _ _ _ _ _ Hrun Ha) as (ka & la' & Hka & Hsa & ->).
    destruct (labels_In _ _ _ _ _ Hrun Hb) as (kb & lb' & Hkb & Hsb & ->).
    apply rank_column_In in Hka. destruct Hka as (pa & qa & Hda & ->).
    apply rank_column_In in Hkb. destruct Hkb as (pb & qb & Hdb & ->).
    simpl in Hsa, Hsb.
    destruct (raw_rank_mono (sort_by_sub_category df) pa (a :: qa) pb
                a b va vb Hda Hsub Hva Hvb Hlt) as (ka & kb & Ea & Eb & Hk).
    rewrite Ea in Hsa. rewrite Eb in Hsb.
    apply clip_mono. eapply scale_group_mono; eauto.
  - intros r l Hin Hone.
    destruct (labels_In _ _ _ _ _ Hrun Hin) as (k & l' & _ & Hs & ->).
    set (ranked := rank_column _ _ _) in Hs.
    pose proof (group_ranks_length ranked r) as Hlen.
    unfold ranked in Hlen at 2. rewrite rank_column_fst in Hlen.
    rewrite (count_perm _ (sort_by_sub_category df) df (sort_by_perm _ df)),
      Hone in Hlen.
    unfold scale_group in Hs.
    destruct (group_ranks ranked r) as [|q [|q' qs]]; simpl in *.
    + destruct k; discriminate.
    + rewrite Qeq_bool_refl in Hs. now injection Hs as <-.
    + lia.
  - unfold _build_groups_and_labels, bind in Hrun.
    destruct (mapM _ _) as [rel|] eqn:E; [|discriminate].
    injection Hrun as <- _. apply mapM_Forall2 in E.
    assert (Hfst : map fst rel
                   = map fst (rank_column (sort_by_sub_category df) []
                                          (sort_by_sub_category df))).
    { induction E as [|x y xs ys Hxy _ IH]; simpl; [reflexivity|].
      destruct (scale_group _ _ _); [|discriminate].
      injection Hxy as <-. simpl. now rewrite IH. }
    rewrite Hfst, rank_column_fst. apply sort_by_perm.
Qed.

Lemma relevance_labels_witness :
  (exists out groups,
      _build_groups_and_labels (rows sample_products) = Ok (out, groups))
  /\ (forall r l, In (r, l) sample_labels -> (0 <= l <= MAX_LABEL)%Z)
  /\ (forall a la b lb va vb,
         In (a, la) sample_labels -> In (b, lb) sample_labels ->
         Sub_category a = Sub_category b ->
         value_score a = Fin va -> value_score b = Fin vb -> va < vb ->
         (la <= lb)%Z)
  /\ (forall r l,
         In (r, l) sample_labels ->
         count (fun x => same_group x r) (rows sample_products) = 1%nat ->
         l = 0%Z)
  /\ Permutation (map fst sample_labels) (rows sample_products).
Proof.
  destruct (relevance_labels (rows sample_products)) as [Hreturns Hlabels].
  split.
  - apply Hreturns. intros r Hr. simpl in Hr.
    destruct Hr as [<-|[<-|[<-|[<-|[]]]]]; reflexivity.
  - apply (Hlabels sample_labels [3; 1]%nat eq_refl).
Defined.

(* ================================================================== *)
(** * Further properties of the modelled code *)

(** ** rank_products: size, completeness and order *)

Lemma filter_partition_perm {A : Type} (p : A -> bool) (xs : list A) :
  Permutation (filter p xs ++ filter (fun x => negb (p x)) xs) xs.
Proof.
  induction xs as [|x xs IH]; simpl; [constructor|].
  destruct (p x); simpl.
  - now constructor.
  - eapply Permutation_trans; [apply Permutation_sym, Permutation_middle|].
    now constructor.
Qed.

Lemma sort_values_desc_perm (key : Row -> float) (rs : list Row) :
  Permutation (sort_values_desc key rs) rs.
Proof.
  unfold sort_values_desc.
  eapply Permutation_trans; [|apply (filter_partition_perm
                                       (fun r => negb (F.isna (key r))) rs)].
  apply Permutation_app.
  - eapply Permutation_trans; [apply Permutation_sym, Permutation_rev|].
    eapply Permutation_trans; [apply sort_by_perm|].
    apply Permutation_sym, Permutation_rev.
  - match goal with
    | |- Permutation ?a ?b =>
        assert (E : b = a)
          by (apply filter_ext; intros r; simpl; apply negb_involutive);
        rewrite E; apply Permutation_refl
    end.
Qed.

Lemma guarded_sub_perm (df : DataFrame) (budget : Q) :
  exists dropped, Permutation (guarded df budget ++ dropped) (rows df).
Proof.
  unfold guarded.
  set (p1 := fun r => F.le (Package_price r) (Fin budget)).
  set (p2 := fun r : Row => if has_search_score df
                            then F.gt (search_score r) (Fin (1 # 100))
                            else true).
  exists (filter (fun r => negb (p2 r)) (filter p1 (rows df))
          ++ filter (fun r => negb (p1 r)) (rows df)).
  rewrite app_assoc.
  eapply Permutation_trans; [|apply (filter_partition_perm p1 (rows df))].
  apply Permutation_app_tail. apply filter_partition_perm.
Qed.

Lemma head_all {A : Type} (n : Z) (xs : list A) :
  (Z.of_nat (List.length xs) <= n)%Z -> head n xs = xs.
Proof.
  intros H. unfold head, slice_to.
  destruct (0 <=? n)%Z eqn:E; [|lia].
  apply firstn_all2. lia.
Qed.

(** X1.  For [top_n >= 0], [rank_products] returns at most [top_n] rows,
    and it never returns a row more often than the input frame holds it:
    the result can be completed to a permutation of the input. *)
Theorem rank_products_at_most_top_n
        (self : BudgetRanker) (df : DataFrame) (budget : Q) (top_n : Z) :
  (0 <= top_n)%Z ->
  (Z.of_nat (List.length (rows (rank_products self df budget top_n))) <= top_n)%Z
  /\ exists dropped,
       Permutation (rows (rank_products self df budget top_n) ++ dropped)
                   (rows df).
Proof.
  intros Hn. rewrite rank_products_rows. split.
  - now apply slice_to_length.
  - set (sorted := sort_values_desc _ _).
    destruct (slice_to_prefix top_n sorted) as [cut Hcut].
    destruct (guarded_sub_perm df budget) as [dropped Hd].
    exists (cut ++ dropped). unfold head. rewrite app_assoc, <- Hcut.
    eapply Permutation_trans; [|exact Hd].
    apply Permutation_app_tail. apply sort_values_desc_perm.
Qed.

Lemma rank_products_at_most_top_n_witness :
  (Z.of_nat (List.length
               (rows (rank_products BudgetRanker_init sample_products 100 2)))
   <= 2)%Z
  /\ exists dropped,
       Permutation
         (rows (rank_products BudgetRanker_init sample_products 100 2) ++ dropped)
         (rows sample_products).
Proof.
  apply (rank_products_at_most_top_n BudgetRanker_init sample_products 100 2).
  discriminate.
Defined.

(** X2.  When [top_n] is at least the number of eligible candidates (within
    budget and, on a frame with search scores, scored above 0.01), every
    one of them is returned: the result is a permutation of them. *)
Theorem rank_products_returns_all
        (self : BudgetRanker) (df : DataFrame) (budget : Q) (top_n : Z) :
  (Z.of_nat (List.length (guarded df budget)) <= top_n)%Z ->
  Permutation (rows (rank_products self df budget top_n)) (guarded df budget).
Proof.
  intros Hn. rewrite rank_products_rows, head_all.
  - apply sort_values_desc_perm.
  - now rewrite (Permutation_length (sort_values_desc_perm _ _)).
Qed.

Lemma rank_products_returns_all_witness :
  Permutation (rows (rank_products BudgetRanker_init sample_candidates 10 10))
              (guarded sample_candidates 10).
Proof.
  apply (rank_products_returns_all BudgetRanker_init sample_candidates 10 10).
  vm_compute. discriminate.
Defined.

(** X3.  The returned rows are in descending order of their total score,
    for the rule-based fallback and for any trained model whose scores are
    not null. *)
Theorem rank_products_descending
        (self : BudgetRanker) (df : DataFrame) (budget : Q) (top_n : Z) :
  model self = None
  \/ (forall r, In r (rows df) ->
                F.isna (total_score self (has_search_score df) r) = false) ->
  StronglySorted
    (fun x y => F.ge (total_score self (has_search_score df) x)
                     (total_score self (has_search_score df) y) = true)
    (rows (rank_products self df budget top_n)).
Proof.
  intros Hfin. rewrite rank_products_rows.
  set (key := total_score self (has_search_score df)).
  assert (Hg : forall r, In r (guarded df budget) -> F.isna (key r) = false).
  { intros r Hr. unfold guarded in Hr. apply filter_In in Hr.
    destruct Hr as [Hr Hgd]. apply filter_In in Hr. destruct Hr as [Hr _].
    destruct Hfin as [Hnone | Hall]; [|now apply Hall].
    apply fallback_total_score_finite; [exact Hnone|].
    intros E. now rewrite E in Hgd. }
  apply StronglySorted_slice_to.
  assert (Hs := sort_values_desc_sorted key (guarded df budget) Hg).
  assert (Hin : forall r, In r (sort_values_desc key (guarded df budget)) ->
                          F.isna (key r) = false).
  { intros r Hr. apply Hg. now apply sort_values_desc_In in Hr. }
  revert Hs Hin. generalize (sort_values_desc key (guarded df budget)).
  induction 1 as [|a l Hs IH Hall]; intros Hin; constructor.
  - apply IH. intros r Hr. apply Hin. now right.
  - rewrite Forall_forall in *. intros y Hy.
    specialize (Hall y Hy). unfold float_key in Hall.
    pose proof (Hin a (or_introl eq_refl)) as Ha.
    pose proof (Hin y (or_intror Hy)) as Hy'.
    unfold F.ge, F.le.
    destruct (key a), (key y); try discriminate.
    now apply Qle_bool_iff.
Qed.

Lemma rank_products_descending_witness :
  StronglySorted
    (fun x y => F.ge (total_score BudgetRanker_init true x)
                     (total_score BudgetRanker_init true y) = true)
    (rows (rank_products BudgetRanker_init sample_candidates 100 10)).
Proof.
  apply (rank_products_descending BudgetRanker_init sample_candidates 100 10).
  now left.
Defined.

(** ** Lexical search: exact size and optimality of the top k *)

Lemma search_lexical_eq (self : ProductSearchIndex) (tf : TfidfIndex)
      (q : string) (top_k : Z) :
  use_faiss self = false \/ index self = None ->
  tfidf self = Some tf ->
  search self q top_k = _search_tfidf self tf q top_k.
Proof.
  intros Hmode Htf. unfold search. rewrite Htf.
  destruct Hmode as [-> | ->]; [reflexivity|].
  now destruct (use_faiss self).
Qed.

Lemma argsort_perm (scores : list Q) :
  Permutation (argsort scores) (seq 0 (List.length scores)).
Proof. apply sort_by_perm. Qed.

(** X4.  On an index in lexical mode, a search with [top_k >= 0] returns
    exactly [min(top_k, catalog size)] rows.  They are rows at pairwise
    distinct catalog positions, each carrying its own similarity, and no
    position left out has a higher similarity than a position returned. *)
Theorem search_lexical_top_k
        (self : ProductSearchIndex) (tf : TfidfIndex) (q : string) (top_k : Z) :
  use_faiss self = false \/ index self = None ->
  tfidf self = Some tf ->
  List.length (cosine_scores tf q) = List.length (product_df self) ->
  (0 <= top_k)%Z ->
  exists df idxs,
    search self q top_k = Ok df
    /\ List.length (rows df)
       = Nat.min (Z.to_nat top_k) (List.length (product_df self))
    /\ NoDup idxs
    /\ Forall2 (fun i r =>
                  exists r0, nth_error (product_df self) i = Some r0
                             /\ r = set_search_score r0
                                      (Fin (nth i (cosine_scores tf q) 0)))
               idxs (rows df)
    /\ (forall i j,
           In i idxs -> (j < List.length (product_df self))%nat ->
           ~ In j idxs ->
           nth j (cosine_scores tf q) 0 <= nth i (cosine_scores tf q) 0).
Proof.
  intros Hmode Htf Hlen Hk.
  destruct (search_lexical_returns self q top_k) as [df Hdf].
  { split; [exact Hmode|]. now exists tf. }
  exists df, (slice_to top_k (rev (argsort (cosine_scores tf q)))).
  split; [exact Hdf|].
  rewrite (search_lexical_eq self tf q top_k Hmode Htf) in Hdf.
  unfold _search_tfidf, bind in Hdf.
  destruct (mapM _ _) as [rs|] eqn:E; [|discriminate].
  injection Hdf as <-. simpl. apply mapM_Forall2 in E.
  set (scores := cosine_scores tf q) in *.
  assert (Hslice : slice_to top_k (rev (argsort scores))
                   = firstn (Z.to_nat top_k) (rev (argsort scores))).
  { unfold slice_to. destruct (0 <=? top_k)%Z eqn:E0; [reflexivity|lia]. }
  assert (Hnd : NoDup (rev (argsort scores))).
  { apply NoDup_rev. eapply Permutation_NoDup.
    - apply Permutation_sym, argsort_perm.
    - apply seq_NoDup. }
  split; [|split; [|split]].
  - rewrite <- (Forall2_length E), Hslice, length_firstn, length_rev.
    unfold argsort. rewrite (Permutation_length (sort_by_perm _ _)), length_seq.
    now rewrite Hlen.
  - rewrite Hslice.
    rewrite <- (firstn_skipn (Z.to_nat top_k) (rev (argsort scores))) in Hnd.
    now apply NoDup_app_remove_r in Hnd.
  - eapply Forall2_impl; [|exact E]. simpl. intros i r Hr.
    destruct (nth_error (product_df self) i) as [r0|]; [|discriminate].
    injection Hr as <-. now exists r0.
  - intros i j Hi Hj Hnot. rewrite Hslice in Hi, Hnot.
    assert (Hjin : In j (rev (argsort scores))).
    { rewrite <- in_rev. apply (Permutation_in j (Permutation_sym (argsort_perm scores))).
      apply in_seq. lia. }
    rewrite <- (firstn_skipn (Z.to_nat top_k) (rev (argsort scores))) in Hjin.
    apply in_app_or in Hjin. destruct Hjin as [Hjin|Hjin]; [contradiction|].
    pose proof (argsort_descending scores) as Hs.
    rewrite <- (firstn_skipn (Z.to_nat top_k) (rev (argsort scores))) in Hs.
    exact (StronglySorted_app_inv _ _ _ Hs i j Hi Hjin).
Qed.

Lemma search_lexical_top_k_witness :
  exists df idxs,
    search sample_index "fish" 1 = Ok df
    /\ List.length (rows df) = Nat.min (Z.to_nat 1) 2
    /\ NoDup idxs
    /\ Forall2 (fun i r =>
                  exists r0, nth_error (product_df sample_index) i = Some r0
                             /\ r = set_search_score r0
                                      (Fin (nth i (cosine_scores sample_tfidf "fish") 0)))
               idxs (rows df)
    /\ (forall i j,
           In i idxs -> (j < 2)%nat -> ~ In j idxs ->
           nth j (cosine_scores sample_tfidf "fish") 0
           <= nth i (cosine_scores sample_tfidf "fish") 0).
Proof.
  apply (search_lexical_top_k sample_index sample_tfidf "fish" 1).
  - now left.
  - reflexivity.
  - reflexivity.
  - discriminate.
Defined.

(** ** Semantic search: labels outside the catalog *)

Lemma py_index_minus_one (rs : list Row) :
  py_index rs (-1) = last_row rs.
Proof.
  unfold py_index, last_row. simpl.
  destruct rs as [|r rs] using rev_ind; [reflexivity|].
  rewrite rev_app_distr, length_app. simpl.
  replace (Z.of_nat (List.length rs + 1) + -1 <? 0)%Z with false
    by (symmetry; apply Z.ltb_ge; lia).
  replace (Z.to_nat (Z.of_nat (List.length rs + 1) + -1)) with (List.length rs)
    by lia.
  now rewrite nth_error_app2, Nat.sub_diag by lia.
Qed.

Lemma hit_rows_in_range (self : ProductSearchIndex) (hits : list (Q * Z))
      (last : Row) :
  last_row (product_df self) = Some last ->
  Forall (fun hit => (-1 <= snd hit < Z.of_nat (List.length (product_df self)))%Z)
         hits ->
  mapM (hit_row self) hits
  = Ok (map (fun hit =>
               set_search_score
                 (if (snd hit =? -1)%Z then last
                  else nth (Z.to_nat (snd hit)) (product_df self) last)
                 (Fin (fst hit)))
            hits).
Proof.
  intros Hlast. induction 1 as [|h hs Hh _ IH]; [reflexivity|].
  simpl. rewrite IH. unfold hit_row.
  destruct (snd h =? -1)%Z eqn:E.
  - apply Z.eqb_eq in E. now rewrite E, py_index_minus_one, Hlast.
  - apply Z.eqb_neq in E. unfold py_index.
    replace (0 <=? snd h)%Z with true by (symmetry; apply Z.leb_le; lia).
    rewrite (nth_error_nth' (product_df self) last) by lia.
    reflexivity.
Qed.

Lemma hit_rows_out_of_range (self : ProductSearchIndex) (hits : list (Q * Z))
      (s : Q) (label : Z) :
  (Z.of_nat (List.length (product_df self)) <= label)%Z ->
  In (s, label) hits ->
  mapM (hit_row self) hits = Raise IndexError.
Proof.
  intros Hlabel. induction hits as [|h hs IH]; [contradiction|].
  intros [->|Hin]; simpl.
  - unfold hit_row, py_index. simpl.
    replace (0 <=? label)%Z with true by (symmetry; apply Z.leb_le; lia).
    replace (nth_error (product_df self) (Z.to_nat label)) with (@None Row)
      by (symmetry; apply nth_error_None; lia).
    reflexivity.
  - rewrite (IH Hin). unfold hit_row.
    now destruct (py_index (product_df self) (snd h)).
Qed.

(** X5.  In semantic mode nothing is filtered out of the FAISS answer:
    when every label lies between [-1] and the catalog size, the frame has
    one row per hit, in the order of the hits, each with its score.  The
    label [-1], with which FAISS pads an answer that has fewer than [k]
    neighbours, is read as a Python index: such a hit comes back as the
    last catalog row with the padding score.  A label at or beyond the
    catalog size makes the search raise [IndexError]. *)
Theorem _search_faiss_padding
        (self : ProductSearchIndex) (ix : FaissIndex) (q : string) (k : Z)
        (hits : list (Q * Z)) :
  faiss_search ix q k = Ok hits ->
  (forall last,
      last_row (product_df self) = Some last ->
      Forall (fun hit =>
                (-1 <= snd hit < Z.of_nat (List.length (product_df self)))%Z)
             hits ->
      _search_faiss self ix q k
      = Ok (mkDF true
              (map (fun hit =>
                      set_search_score
                        (if (snd hit =? -1)%Z then last
                         else nth (Z.to_nat (snd hit)) (product_df self) last)
                        (Fin (fst hit)))
                   hits)))
  /\ (forall s label,
         (Z.of_nat (List.length (product_df self)) <= label)%Z ->
         In (s, label) hits ->
         _search_faiss self ix q k = Raise IndexError).
Proof.
  intros Hhits. unfold _search_faiss, bind. rewrite Hhits.
  fold (hit_row self). split.
  - intros last Hlast Hall. now rewrite (hit_rows_in_range self hits last).
  - intros s label Hlabel Hin.
    now rewrite (hit_rows_out_of_range self hits s label).
Qed.

(** The padded answer of the sample index: two neighbours and one padding
    hit for [k = 3]; the padding hit is the last row once more. *)
Lemma _search_faiss_padding_witness :
  _search_faiss sample_semantic_index sample_faiss "chicken" 3
  = Ok (mkDF true [set_search_score cheap_chicken (Fin (9 # 10));
                   set_search_score melbourne_fish (Fin (1 # 10));
                   set_search_score melbourne_fish (Fin (-(1000)))])
  /\ _search_faiss sample_semantic_index
                   (mkFaiss (fun _ _ => Ok [(1 # 2, 2%Z)])) "x" 1
     = Raise IndexError.
Proof.
  split.
  - apply (proj1 (_search_faiss_padding sample_semantic_index sample_faiss
                    "chicken" 3
                    [(9 # 10, 0%Z); (1 # 10, 1%Z); (-(1000), (-1)%Z)] eq_refl)
                 melbourne_fish eq_refl).
    repeat constructor; simpl; lia.
  - apply (proj2 (_search_faiss_padding sample_semantic_index
                    (mkFaiss (fun _ _ => Ok [(1 # 2, 2%Z)])) "x" 1
                    [(1 # 2, 2%Z)] eq_refl) (1 # 2) 2%Z).
    + simpl. lia.
    + now left.
Defined.

(** ** recommend: what the returned records are *)

Lemma recommend_unfold (self : InferencePipeline) (q : string) (budget : Q)
      (city' state' : option string) (top_n : Z) (out : list Out.t) :
  recommend self q budget city' state' top_n = Ok out ->
  exists cands,
    search (search_index self) q 50 = Ok cands
    /\ out = map to_record
               (rows (rank_products (ranker self)
                        (mkDF (has_search_score cands)
                              (location_filter city' state' (rows cands)))
                        budget top_n)).
Proof.
  unfold recommend, bind.
  destruct (search (search_index self) q 50) as [cands|]; [|discriminate].
  intros H. exists cands. split; [reflexivity|].
  unfold empty in H.
  destruct (rows cands) as [|c cs] eqn:Ec.
  - injection H as <-.
    now destruct city' as [[|? ?]|], state' as [[|? ?]|].
  - set (ranked := rank_products _ _ _ _) in *.
    destruct (rows ranked); now injection H as <-.
Qed.

Lemma filter_length_le {A : Type} (p : A -> bool) (xs : list A) :
  (List.length (filter p xs) <= List.length xs)%nat.
Proof.
  induction xs as [|x xs IH]; simpl; [lia|]. destruct (p x); simpl; lia.
Qed.

Lemma soft_filter_length (mask : Row -> bool) (rs : list Row) :
  (List.length (soft_filter mask rs) <= List.length rs)%nat.
Proof.
  unfold soft_filter. destruct (0 <? count mask rs)%nat; [|lia].
  apply filter_length_le.
Qed.

Lemma location_filter_length (city' state' : option string) (rs : list Row) :
  (List.length (location_filter city' state' rs) <= List.length rs)%nat.
Proof.
  unfold location_filter.
  destruct (truthy city'), (truthy state');
    repeat (eapply Nat.le_trans; [apply soft_filter_length|]); lia.
Qed.

Lemma rank_products_length (self : BudgetRanker) (df : DataFrame)
      (budget : Q) (top_n : Z) :
  (List.length (rows (rank_products self df budget top_n))
   <= List.length (rows df))%nat.
Proof.
  rewrite rank_products_rows.
  set (sorted := sort_values_desc _ _).
  destruct (slice_to_prefix top_n sorted) as [cut Hcut].
  assert (H1 : (List.length (head top_n sorted) <= List.length sorted)%nat).
  { unfold head. rewrite Hcut at 2. rewrite length_app. lia. }
  unfold sorted in H1 at 2.
  rewrite (Permutation_length (sort_values_desc_perm _ _)) in H1.
  unfold guarded in H1.
  pose proof (filter_length_le
                (fun r => if has_search_score df
                          then F.gt (search_score r) (Fin (1 # 100)) else true)
                (filter (fun r => F.le (Package_price r) (Fin budget)) (rows df))).
  pose proof (filter_length_le
                (fun r => F.le (Package_price r) (Fin budget)) (rows df)).
  lia.
Qed.

Lemma search_length (self : ProductSearchIndex) (q : string) (k : Z)
      (df : DataFrame) :
  (0 <= k)%Z ->
  (forall ix, index self = Some ix -> faiss_contract ix) ->
  search self q k = Ok df ->
  (Z.of_nat (List.length (rows df)) <= k)%Z /\ has_search_score df = true.
Proof.
  intros Hk Hc. unfold search.
  assert (Htf : forall tf, _search_tfidf self tf q k = Ok df ->
              (Z.of_nat (List.length (rows df)) <= k)%Z
              /\ has_search_score df = true).
  { intros tf H. apply _search_tfidf_spec in H.
    destruct H as (H1 & H2 & _). rewrite H2.
    split; [now apply slice_to_length | exact H1]. }
  assert (Hfa : forall ix, index self = Some ix ->
              _search_faiss self ix q k = Ok df ->
              (Z.of_nat (List.length (rows df)) <= k)%Z
              /\ has_search_score df = true).
  { intros ix Hix H. apply _search_faiss_spec in H; [|now apply Hc].
    destruct H as (H1 & H2 & _). split; [lia | exact H1]. }
  destruct (use_faiss self), (index self) as [ix|] eqn:Ei,
    (tfidf self) as [tf|]; try discriminate; try apply Htf;
    now apply Hfa.
Qed.

(** Retrieval attaches a non-null score to every row it returns. *)
Lemma search_scored (self : ProductSearchIndex) (q : string) (k : Z)
      (df : DataFrame) :
  search self q k = Ok df ->
  has_search_score df = true
  /\ forall r, In r (rows df) ->
       exists r0 s, In r0 (product_df self) /\ r = set_search_score r0 (Fin s).
Proof.
  assert (Hf : forall ix, _search_faiss self ix q k = Ok df ->
             has_search_score df = true
             /\ forall r, In r (rows df) ->
                  exists r0 s, In r0 (product_df self)
                               /\ r = set_search_score r0 (Fin s)).
  { intros ix. unfold _search_faiss, bind.
    destruct (faiss_search ix q k) as [hits|]; [|discriminate].
    destruct (mapM _ hits) as [rs|] eqn:E; [|discriminate].
    intros H. injection H as <-. split; [reflexivity|]. simpl. intros r Hin.
    apply mapM_Forall2 in E.
    destruct (Forall2_In_r _ _ _ _ E Hin) as (h & _ & Hh).
    unfold py_index in Hh.
    destruct (0 <=? snd h)%Z.
    - destruct (nth_error _ _) as [r0|] eqn:En; [|discriminate].
      injection Hh as <-. exists r0, (fst h).
      split; [eapply nth_error_In, En | reflexivity].
    - destruct (_ <? 0)%Z; [discriminate|].
      destruct (nth_error _ _) as [r0|] eqn:En; [|discriminate].
      injection Hh as <-. exists r0, (fst h).
      split; [eapply nth_error_In, En | reflexivity]. }
  assert (Ht : forall tf, _search_tfidf self tf q k = Ok df ->
             has_search_score df = true
             /\ forall r, In r (rows df) ->
                  exists r0 s, In r0 (product_df self)
                               /\ r = set_search_score r0 (Fin s)).
  { intros tf. unfold _search_tfidf, bind.
    destruct (mapM _ _) as [rs|] eqn:E; [|discriminate].
    intros H. injection H as <-. split; [reflexivity|]. simpl. intros r Hin.
    apply mapM_Forall2 in E.
    destruct (Forall2_In_r _ _ _ _ E Hin) as (i & _ & Hi).
    destruct (nth_error _ _) as [r0|] eqn:En; [|discriminate].
    injection Hi as <-. exists r0, (nth i (cosine_scores tf q) 0).
    split; [eapply nth_error_In, En | reflexivity]. }
  unfold search.
  destruct (use_faiss self), (index self) as [ix|], (tfidf self) as [tf|];
    try discriminate; try apply Hf; try apply Ht.
Qed.

(** X6.  [recommend] never returns more than 50 records, whatever [top_n]
    is (retrieval is capped at 50 candidates), and at most [top_n] records
    when [top_n >= 0]. *)
Theorem recommend_at_most
        (self : InferencePipeline) (q : string) (budget : Q)
        (city' state' : option string) (top_n : Z) (out : list Out.t) :
  (forall ix, index (search_index self) = Some ix -> faiss_contract ix) ->
  recommend self q budget city' state' top_n = Ok out ->
  (List.length out <= 50)%nat
  /\ ((0 <= top_n)%Z -> (Z.of_nat (List.length out) <= top_n)%Z).
Proof.
  intros Hc H. apply recommend_unfold in H. destruct H as (cands & Hs & ->).
  rewrite length_map. split.
  - apply search_length in Hs; [|lia|exact Hc]. destruct Hs as [Hs _].
    pose proof (rank_products_length (ranker self)
                  (mkDF (has_search_score cands)
                        (location_filter city' state' (rows cands)))
                  budget top_n) as H1.
    simpl in H1.
    pose proof (location_filter_length city' state' (rows cands)). lia.
  - intros Hn. rewrite rank_products_rows. now apply slice_to_length.
Qed.

Lemma recommend_at_most_witness :
  (List.length [to_record melbourne_fish] <= 50)%nat
  /\ ((0 <= 3)%Z -> (Z.of_nat (List.length [to_record melbourne_fish]) <= 3)%Z).
Proof.
  apply (recommend_at_most sample_pipeline "fish" 10 None None 3).
  - discriminate.
  - reflexivity.
Defined.

Lemma round_dec_mono (n : nat) (x y : Q) :
  x <= y -> round_dec n x <= round_dec n y.
Proof.
  intros H. unfold round_dec.
  assert (Hpos : 0 < inject_Z (10 ^ Z.of_nat n)).
  { rewrite <- (Zlt_Qlt 0). apply Z.pow_pos_nonneg; lia. }
  unfold Qdiv. apply Qmult_le_compat_r.
  - rewrite <- Zle_Qle. apply round_half_even_mono.
    apply Qmult_le_compat_r; [exact H | now apply Qlt_le_weak].
  - apply Qlt_le_weak. now apply Qinv_lt_0_compat.
Qed.

(** The rows behind the records, with everything the stages guarantee. *)
Lemma recommend_sources (self : InferencePipeline) (q : string) (budget : Q)
      (city' state' : option string) (top_n : Z) (out : list Out.t) (o : Out.t) :
  recommend self q budget city' state' top_n = Ok out -> In o out ->
  exists cands r0 s p,
    search (search_index self) q 50 = Ok cands
    /\ In (set_search_score r0 (Fin s))
          (location_filter city' state' (rows cands))
    /\ In r0 (product_df (search_index self))
    /\ o = to_record (set_search_score r0 (Fin s))
    /\ Package_price r0 = Fin p /\ p <= budget
    /\ 1 # 100 < s.
Proof.
  intros H Hin. apply recommend_unfold in H. destruct H as (cands & Hs & ->).
  apply in_map_iff in Hin. destruct Hin as (r & <- & Hr).
  apply rank_products_In in Hr. simpl in Hr. destruct Hr as (Hr & Hp & Hg).
  destruct (search_scored _ _ _ _ Hs) as [Hss Hrows].
  specialize (Hg Hss).
  destruct (Hrows r (location_filter_In _ _ _ _ Hr)) as (r0 & s & Hr0 & ->).
  simpl in Hp, Hg.
  destruct (Package_price r0) as [|p] eqn:Ep; [discriminate|].
  exists cands, r0, s, p. repeat split; try assumption; try reflexivity.
  - now apply Qle_bool_iff.
  - apply Qnot_le_lt. intros Hle. apply Qle_bool_iff in Hle.
    rewrite Hle in Hg. discriminate.
Qed.

(** X7.  The price a record reports is the catalog price rounded to cents,
    of a product priced within the budget; it is therefore at most the
    budget rounded to cents, and at most the budget itself when the budget
    is a whole number of cents. *)
Theorem recommend_reported_price
        (self : InferencePipeline) (q : string) (budget : Q)
        (city' state' : option string) (top_n : Z) (out : list Out.t) (o : Out.t) :
  recommend self q budget city' state' top_n = Ok out -> In o out ->
  exists p,
    Out.Package_price o = Fin (round_dec 2 p)
    /\ p <= budget
    /\ round_dec 2 p <= round_dec 2 budget
    /\ (forall cents : Z, budget == inject_Z cents / 100 ->
                          round_dec 2 p <= budget).
Proof.
  intros H Hin.
  destruct (recommend_sources _ _ _ _ _ _ _ _ H Hin)
    as (cands & r0 & s & p & _ & _ & _ & -> & Hp & Hle & _).
  exists p. simpl. rewrite Hp. simpl. split; [reflexivity|].
  split; [exact Hle|]. split; [now apply round_dec_mono|].
  intros cents Hc. apply Qle_trans with (round_dec 2 budget).
  - now apply round_dec_mono.
  - rewrite (round_dec_cents budget cents Hc). apply Qle_refl.
Qed.

Lemma recommend_reported_price_witness :
  exists p,
    Out.Package_price (to_record melbourne_fish) = Fin (round_dec 2 p)
    /\ p <= 10
    /\ round_dec 2 p <= round_dec 2 10
    /\ (forall cents : Z, 10 == inject_Z cents / 100 -> round_dec 2 p <= 10).
Proof.
  apply (recommend_reported_price sample_pipeline "fish" 10 None None 3
           [to_record melbourne_fish]).
  - reflexivity.
  - now left.
Defined.

(** Rounding can lift a reported price above a budget that is not in whole
    cents: 9.996 is within 9.999 and is reported as 10.00. *)
Example reported_price_above_fractional_budget :
  9996 # 1000 <= 9999 # 1000 /\ round_dec 2 (9996 # 1000) == 10.
Proof. split; [discriminate | reflexivity]. Qed.

Lemma soft_filter_all_match (mask : Row -> bool) (rs : list Row) (x : Row) :
  In x rs -> mask x = true ->
  forall r, In r (soft_filter mask rs) -> mask r = true.
Proof.
  intros Hx Hm r. unfold soft_filter.
  assert (Hc : (0 <? count mask rs)%nat = true).
  { apply count_pos_filter. intros E.
    assert (Hin : In x (filter mask rs)) by (apply filter_In; auto).
    now rewrite E in Hin. }
  rewrite Hc. intros Hr. now apply filter_In in Hr.
Qed.

Lemma soft_filter_keeps (mask : Row -> bool) (rs : list Row) (x : Row) :
  In x rs -> mask x = true -> In x (soft_filter mask rs).
Proof.
  intros Hx Hm. unfold soft_filter.
  destruct (0 <? count mask rs)%nat; [|exact Hx].
  apply filter_In. auto.
Qed.

Lemma location_filter_all_match (city' state' : option string)
      (rs : list Row) (x : Row) :
  In x rs -> matches_location city' state' x = true ->
  forall r, In r (location_filter city' state' rs) ->
            matches_location city' state' r = true.
Proof.
  unfold matches_location, location_filter. intros Hx Hm r.
  apply andb_true_iff in Hm. destruct Hm as [Hc Hs].
  destruct (truthy city'), (truthy state'); intros Hr; simpl.
  - apply andb_true_iff. split.
    + apply soft_filter_In in Hr.
      exact (soft_filter_all_match _ rs x Hx Hc r Hr).
    + refine (soft_filter_all_match _ _ x _ Hs r Hr).
      now apply soft_filter_keeps.
  - rewrite andb_true_r.
    exact (soft_filter_all_match _ rs x Hx Hc r Hr).
  - exact (soft_filter_all_match _ rs x Hx Hs r Hr).
  - reflexivity.
Qed.

(** X8.  If at least one retrieved candidate is in the requested city and
    state (as far as they are given), then every returned record is: the
    soft location filter is then a hard one. *)
Theorem recommend_location
        (self : InferencePipeline) (q : string) (budget : Q)
        (city' state' : option string) (top_n : Z)
        (cands : DataFrame) (x : Row) (out : list Out.t) (o : Out.t) :
  search (search_index self) q 50 = Ok cands ->
  In x (rows cands) -> matches_location city' state' x = true ->
  recommend self q budget city' state' top_n = Ok out -> In o out ->
  record_matches_location city' state' o = true.
Proof.
  intros Hs Hx Hm H Hin.
  destruct (recommend_sources _ _ _ _ _ _ _ _ H Hin)
    as (cands' & r0 & s & p & Hs' & Hloc & _ & -> & _).
  rewrite Hs in Hs'. injection Hs' as <-.
  exact (location_filter_all_match city' state' (rows cands) x Hx Hm _ Hloc).
Qed.

Lemma recommend_location_witness :
  record_matches_location (Some "melbourne"%string) (Some "vic"%string)
                          (to_record melbourne_fish) = true.
Proof.
  apply (recommend_location sample_pipeline "fish" 10
           (Some "melbourne"%string) (Some "vic"%string) 3
           (mkDF true [set_search_score melbourne_fish (Fin (7 # 10));
                       set_search_score cheap_chicken (Fin 0)])
           (set_search_score melbourne_fish (Fin (7 # 10)))
           [to_record melbourne_fish]).
  - reflexivity.
  - now left.
  - reflexivity.
  - reflexivity.
  - now left.
Defined.

(** X9.  In the pipeline the relevance guard is always active: every
    record comes from a catalog row that retrieval scored above 0.01. *)
Theorem recommend_relevant
        (self : InferencePipeline) (q : string) (budget : Q)
        (city' state' : option string) (top_n : Z) (out : list Out.t) (o : Out.t) :
  recommend self q budget city' state' top_n = Ok out -> In o out ->
  exists cands r0 s,
    search (search_index self) q 50 = Ok cands
    /\ In (set_search_score r0 (Fin s)) (rows cands)
    /\ In r0 (product_df (search_index self))
    /\ o = to_record r0
    /\ 1 # 100 < s.
Proof.
  intros H Hin.
  destruct (recommend_sources _ _ _ _ _ _ _ _ H Hin)
    as (cands & r0 & s & p & Hs & Hloc & Hr0 & -> & _ & _ & Hgt).
  exists cands, r0, s. repeat split; try assumption.
  now apply location_filter_In in Hloc.
Qed.

Lemma recommend_relevant_witness :
  exists cands r0 s,
    search sample_index "fish" 50 = Ok cands
    /\ In (set_search_score r0 (Fin s)) (rows cands)
    /\ In r0 [cheap_chicken; melbourne_fish]
    /\ to_record melbourne_fish = to_record r0
    /\ 1 # 100 < s.
Proof.
  apply (recommend_relevant sample_pipeline "fish" 10 None None 3
           [to_record melbourne_fish]).
  - reflexivity.
  - now left.
Defined.

(** ** recommend_basket: shape of the answer and cost bounds *)

Lemma plan_spec_shape (pipeline : Recommender) (request : Request.t) (per : Q)
      (items : list string) (lines : list BasketItem) (calls : list Call) :
  plan_spec pipeline request per items lines calls ->
  map query lines = items
  /\ (List.length items <= List.length calls <= 2 * List.length items)%nat
  /\ Forall (fun c => call_top_n c = 3%Z
                      /\ (call_budget c = per
                          \/ call_budget c = Request.total_budget request))
            calls.
Proof.
  induction 1 as [|q qs line lines calls calls' Hl Hp IH].
  - simpl. repeat split; try lia. constructor.
  - destruct IH as (IH1 & IH2 & IH3).
    rewrite length_app, Forall_app. simpl.
    destruct Hl; simpl; (split; [now rewrite IH1|]); (split; [lia|]);
      (split; [|exact IH3]);
      repeat (apply Forall_cons; [simpl; split; [reflexivity | auto]|]);
      apply Forall_nil.
Qed.

(** X10.  Whatever the pipeline, a planner run that returns has one basket
    line per requested item, in request order; it echoes the total budget;
    and it spends between [n] and [2n] pipeline calls on [n] items, each
    with [top_n = 3] and with either the per-item or the total budget.  An
    empty item list is rejected with HTTP 400. *)
Theorem recommend_basket_shape
        (pipeline : Recommender) (request : Request.t) (log : list Call) :
  (Request.items request = [] ->
   recommend_basket request pipeline log
   = Raise (HTTPException 400 "Items list cannot be empty"))
  /\ (forall resp log',
         recommend_basket request pipeline log = Ok (resp, log') ->
         map query (Response.basket resp) = Request.items request
         /\ Response.total_budget resp = Request.total_budget request
         /\ exists calls,
              log' = log ++ calls
              /\ (List.length (Request.items request) <= List.length calls
                  <= 2 * List.length (Request.items request))%nat
              /\ Forall (fun c =>
                           call_top_n c = 3%Z
                           /\ (call_budget c = per_item request
                               \/ call_budget c = Request.total_budget request))
                        calls).
Proof.
  split.
  - intros E. unfold recommend_basket. now rewrite E.
  - intros resp log' H. apply recommend_basket_spec in H.
    destruct H as (total & calls & _ & Hlog & Hplan & _ & _ & _ & Hb).
    destruct (plan_spec_shape _ _ _ _ _ _ Hplan) as (H1 & H2 & H3).
    split; [exact H1|]. split; [exact Hb|]. now exists calls.
Qed.

Lemma recommend_basket_shape_witness :
  recommend_basket (Request.mk [] 40 None None) sample_engine []
  = Raise (HTTPException 400 "Items list cannot be empty")
  /\ map query sample_basket = Request.items sample_request.
Proof.
  split.
  - apply (proj1 (recommend_basket_shape sample_engine
                    (Request.mk [] 40 None None) [])).
    reflexivity.
  - apply (proj2 (recommend_basket_shape sample_engine sample_request [])
                 (Response.mk 40 (fround 2 (Fin (0 + 5 + 0 + 15)))
                              true sample_basket)
                 _ eq_refl).
Defined.

Lemma per_item_le_total (request : Request.t) :
  Request.items request <> [] ->
  0 <= Request.total_budget request ->
  per_item request <= Request.total_budget request.
Proof.
  intros Hne Hb. unfold per_item.
  assert (Hn : 1 <= inject_Z (Z.of_nat (List.length (Request.items request)))).
  { rewrite <- (Zle_Qle 1). destruct (Request.items request); [contradiction|].
    simpl List.length. lia. }
  set (n := inject_Z _) in *. set (b := Request.total_budget request) in *.
  clearbody n b.
  apply Qle_shift_div_r; [lra|]. nra.
Qed.

Lemma fold_add_bound (costs : list float) (acc bound : Q) :
  Forall (fun c => exists x, c = Fin x /\ x <= bound) costs ->
  exists t, fold_left F.add costs (Fin acc) = Fin t
            /\ t <= acc + inject_Z (Z.of_nat (List.length costs)) * bound.
Proof.
  revert acc. induction costs as [|c cs IH]; intros acc Hall.
  - exists acc. split; [reflexivity|].
    change (inject_Z (Z.of_nat (List.length (@nil float)))) with 0. lra.
  - inversion Hall as [|? ? (x & -> & Hx) Hrest]; subst.
    destruct (IH (acc + x) Hrest) as (t & Ht & Hle).
    exists t. split; [exact Ht|].
    change (List.length (Fin x :: cs)) with (S (List.length cs)).
    rewrite Nat2Z.inj_succ, <- Z.add_1_r, inject_Z_plus.
    change (inject_Z 1) with 1.
    set (n := inject_Z (Z.of_nat (List.length cs))) in *. clearbody n. lra.
Qed.

(** X11.  With the inference pipeline and a positive total budget, no
    basket line costs more than the total budget rounded to cents, and the
    reported total is at most the number of lines times that amount. *)
Theorem recommend_basket_cost_bound
        (self : InferencePipeline) (request : Request.t)
        (log log' : list Call) (resp : Response.t) :
  0 < Request.total_budget request ->
  recommend_basket request (recommend self) log = Ok (resp, log') ->
  (forall line, In line (Response.basket resp) ->
      exists c, estimated_cost line = Fin c
                /\ c <= round_dec 2 (Request.total_budget request))
  /\ exists t,
       F.eq (Response.estimated_total resp) (Fin t)
       /\ t <= inject_Z (Z.of_nat (List.length (Response.basket resp)))
               * round_dec 2 (Request.total_budget request).
Proof.
  intros Hb H.
  pose proof (recommend_basket_total_cents (recommend self) request log log' resp
                (fun q b c s n => recommend_two_decimals self q b c s n) H)
    as (Hsum & _ & _).
  apply recommend_basket_spec in H.
  destruct H as (total & calls & Hne & _ & Hplan & _).
  assert (Hper := per_item_le_total request Hne (Qlt_le_weak _ _ Hb)).
  assert (Hlines : forall line, In line (Response.basket resp) ->
             exists c, estimated_cost line = Fin c
                       /\ c <= round_dec 2 (Request.total_budget request)).
  { intros line Hin.
    destruct (plan_spec_lines _ _ _ _ _ _ _ Hplan Hin) as [cs Hline].
    assert (Hhit : forall b best alts,
               b <= Request.total_budget request ->
               recommend self (query line) b (Request.city request)
                         (Request.state request) 3 = Ok (best :: alts) ->
               exists c, Out.Package_price best = Fin c
                         /\ c <= round_dec 2 (Request.total_budget request)).
    { intros b best alts Hble E.
      destruct (recommend_sources _ _ _ _ _ _ _ _ E (or_introl eq_refl))
        as (_ & r0 & s & p & _ & _ & _ & -> & Hp & Hle & _).
      exists (round_dec 2 p). simpl. rewrite Hp. split; [reflexivity|].
      apply round_dec_mono. lra. }
    destruct Hline as [best alts E | best alts _ E | _ _]; simpl.
    - exact (Hhit _ _ _ Hper E).
    - exact (Hhit _ _ _ (Qle_refl _) E).
    - exists 0. split; [reflexivity|].
      apply Qle_trans with (round_dec 2 0); [discriminate|].
      apply round_dec_mono. lra. }
  split; [exact Hlines|].
  destruct (fold_add_bound (map estimated_cost (Response.basket resp)) 0
              (round_dec 2 (Request.total_budget request))) as (t & Ht & Hle).
  { rewrite Forall_forall. intros c Hc. apply in_map_iff in Hc.
    destruct Hc as (line & <- & Hin). now apply Hlines. }
  exists t. unfold sum_costs in Hsum. rewrite Ht in Hsum.
  split; [exact Hsum|]. rewrite length_map in Hle. lra.
Qed.

Lemma recommend_basket_cost_bound_witness :
  exists resp log',
    recommend_basket sample_pipeline_request (recommend sample_pipeline) []
    = Ok (resp, log')
    /\ (forall line, In line (Response.basket resp) ->
          exists c, estimated_cost line = Fin c /\ c <= round_dec 2 30)
    /\ exists t,
         F.eq (Response.estimated_total resp) (Fin t)
         /\ t <= inject_Z (Z.of_nat (List.length (Response.basket resp)))
                 * round_dec 2 30.
Proof.
  destruct (recommend_basket sample_pipeline_request (recommend sample_pipeline) [])
    as [[resp log']|] eqn:E; [|vm_compute in E; discriminate E].
  exists resp, log'. split; [reflexivity|].
  apply (recommend_basket_cost_bound sample_pipeline sample_pipeline_request
           [] log' resp).
  - reflexivity.
  - exact E.
Defined.

(** ** PricePredictor: history and forecasts *)

Lemma StronglySorted_filter {A : Type} (R : A -> A -> Prop) (p : A -> bool)
      (l : list A) :
  StronglySorted R l -> StronglySorted R (filter p l).
Proof.
  induction 1 as [|a l Hs IH Hall]; simpl; [constructor|].
  destruct (p a); [|exact IH]. constructor; [exact IH|].
  rewrite Forall_forall in *. intros x Hx. apply filter_In in Hx.
  now apply Hall.
Qed.

Lemma date_leb_total (a b : Row) : date_leb a b = false -> date_leb b a = true.
Proof.
  unfold date_leb. destruct (RunDate a), (RunDate b); try discriminate.
  intros H. apply Z.leb_gt in H. apply Z.leb_le. lia.
Qed.

Lemma sort_values_RunDate_perm (rs : list Row) :
  Permutation (sort_values_RunDate rs) rs.
Proof.
  unfold sort_values_RunDate.
  eapply Permutation_trans; [|apply (filter_partition_perm has_date rs)].
  apply Permutation_app_tail. apply sort_by_perm.
Qed.

(** Sorting dated rows: the order relation is only transitive on them, so
    sortedness is shown directly. *)
Lemma insert_by_date_sorted (x : Row) (xs : list Row) :
  has_date x = true -> Forall (fun r => has_date r = true) xs ->
  StronglySorted (fun a b => date_before (RunDate a) (RunDate b)) xs ->
  StronglySorted (fun a b => date_before (RunDate a) (RunDate b))
                 (insert_by date_leb x xs).
Proof.
  intros Hx Hall Hs. induction Hs as [|y ys Hs IH Hy]; simpl.
  - constructor; constructor.
  - inversion Hall as [|? ? Hdy Hdys]; subst.
    unfold has_date in Hx, Hdy.
    destruct (date_leb x y) eqn:E.
    + constructor; [now constructor|].
      unfold date_leb in E.
      destruct (RunDate x) as [dx|] eqn:Ex; [|discriminate].
      destruct (RunDate y) as [dy|] eqn:Ey; [|discriminate].
      apply Z.leb_le in E.
      constructor; [rewrite Ey; exact E|].
      rewrite Forall_forall in *. intros z Hz. specialize (Hy z Hz).
      specialize (Hdys z Hz). unfold has_date in Hdys.
      destruct (RunDate z); [|discriminate]. simpl in *. lia.
    + constructor; [now apply IH|].
      rewrite Forall_forall in *. intros z Hz.
      apply (Permutation_in _ (insert_by_perm date_leb x ys)) in Hz.
      destruct Hz as [<-|Hz]; [|now apply Hy].
      unfold date_leb in E.
      destruct (RunDate x) as [dx|]; [|discriminate].
      destruct (RunDate y) as [dy|]; [|discriminate].
      apply Z.leb_gt in E. simpl. lia.
Qed.

Lemma sort_by_date_sorted (rs : list Row) :
  Forall (fun r => has_date r = true) rs ->
  StronglySorted (fun a b => date_before (RunDate a) (RunDate b))
                 (sort_by date_leb rs).
Proof.
  induction 1 as [|x xs Hx Hxs IH]; simpl; [constructor|].
  apply insert_by_date_sorted; [exact Hx| |exact IH].
  rewrite Forall_forall in *. intros r Hr. apply Hxs.
  now apply (sort_by_In date_leb r xs).
Qed.

Lemma sort_values_RunDate_sorted (rs : list Row) :
  StronglySorted (fun a b => date_before (RunDate a) (RunDate b))
                 (sort_values_RunDate rs).
Proof.
  unfold sort_values_RunDate.
  assert (Hd : Forall (fun r => has_date r = true) (filter has_date rs)).
  { rewrite Forall_forall. intros r Hr. now apply filter_In in Hr. }
  pose proof (sort_by_date_sorted _ Hd) as Hs.
  assert (Hd' : forall r, In r (sort_by date_leb (filter has_date rs)) ->
                          has_date r = true).
  { intros r Hr. apply sort_by_In, filter_In in Hr. tauto. }
  revert Hs Hd'. generalize (sort_by date_leb (filter has_date rs)).
  intros l Hs. induction Hs as [|a l Hs IH Hall]; intros Hd'; simpl.
  - induction rs as [|r rs IHrs]; simpl; [constructor|].
    assert (Hd2 : Forall (fun r0 => has_date r0 = true) (filter has_date rs)).
    { rewrite Forall_forall. intros r0 Hr0. now apply filter_In in Hr0. }
    destruct (has_date r) eqn:Er; simpl; [now apply IHrs|].
    constructor; [now apply IHrs|].
    rewrite Forall_forall. intros z Hz. apply filter_In in Hz.
    destruct Hz as [_ Hz]. unfold has_date in Hz.
    destruct (RunDate z); [discriminate|].
    unfold date_before. now destruct (RunDate r).
  - constructor.
    + apply IH. intros r Hr. apply Hd'. now right.
    + apply Forall_app. split; [exact Hall|].
      rewrite Forall_forall. intros z Hz. apply filter_In in Hz.
      destruct Hz as [_ Hz]. unfold has_date in Hz.
      destruct (RunDate z); [discriminate|].
      unfold date_before. now destruct (RunDate a).
Qed.

Lemma Permutation_filter {A : Type} (p : A -> bool) (l1 l2 : list A) :
  Permutation l1 l2 -> Permutation (filter p l1) (filter p l2).
Proof.
  induction 1; simpl.
  - constructor.
  - destruct (p x); [now constructor | assumption].
  - destruct (p x), (p y); try apply Permutation_refl. apply perm_swap.
  - eapply Permutation_trans; eassumption.
Qed.

(** X12.  [get_price_history] returns exactly the observations of the
    product that have a price (each once, as a permutation), in ascending
    date order with undated observations last; no returned price is
    null. *)
Theorem get_price_history_sorted
        (self : PricePredictor) (sku' : string) (df : list Row) :
  Permutation
    (get_price_history self sku' df)
    (map to_history
         (filter (fun r => String.eqb (Sku r) sku'
                           && negb (F.isna (Package_price r))) df))
  /\ StronglySorted
       (fun a b => date_before (History.RunDate a) (History.RunDate b))
       (get_price_history self sku' df)
  /\ Forall (fun h => F.isna (History.Package_price h) = false)
            (get_price_history self sku' df).
Proof.
  unfold get_price_history.
  set (priced := fun r : Row => negb (F.isna (Package_price r))).
  set (of_sku := fun r : Row => String.eqb (Sku r) sku').
  split; [|split].
  - apply Permutation_map.
    eapply Permutation_trans;
      [apply Permutation_filter, sort_values_RunDate_perm|].
    unfold of_sku, priced. clear.
    induction df as [|r df IH]; simpl; [constructor|].
    destruct (String.eqb (Sku r) sku'); simpl; [|exact IH].
    destruct (negb (F.isna (Package_price r))); [now constructor | exact IH].
  - assert (Hs := StronglySorted_filter _ priced _
                    (sort_values_RunDate_sorted (filter of_sku df))).
    revert Hs. generalize (filter priced (sort_values_RunDate (filter of_sku df))).
    induction 1 as [|a l Hs IH Hall]; simpl; constructor; [exact IH|].
    rewrite Forall_forall in *. intros h Hh. apply in_map_iff in Hh.
    destruct Hh as (r & <- & Hr). now apply Hall.
  - rewrite Forall_forall. intros h Hh. apply in_map_iff in Hh.
    destruct Hh as (r & <- & Hr). apply filter_In in Hr.
    destruct Hr as [_ Hr]. unfold priced in Hr. simpl.
    now apply negb_true_iff in Hr.
Qed.

Lemma _build_time_features_length (sku' : string) (df : list Row) :
  List.length (_build_time_features
                 (filter (fun r => String.eqb (Sku r) sku') df))
  = count (usable sku') df.
Proof.
  unfold _build_time_features, count.
  rewrite (Permutation_length (sort_by_perm _ _)). f_equal.
  induction df as [|r df IH]; simpl; [reflexivity|].
  unfold usable at 1, has_date.
  destruct (String.eqb (Sku r) sku'); simpl; [|exact IH].
  destruct (RunDate r); simpl; [|exact IH].
  destruct (negb (F.isna (Package_price r))); simpl; [now rewrite IH | exact IH].
Qed.

(** X13.  A forecast names the requested product; its trend is one of
    "rising", "falling", "stable" and its confidence "low" or "medium"
    (never "high").  Confidence "medium" requires a trained predictor and
    at least five observations with both a date and a price.  A forecast
    without [price_change] is the fallback: predicted price equal to the
    last known one, trend "stable", confidence "low". *)
Theorem predict_next_price_domains
        (self : PricePredictor) (sku' : string) (df : list Row) (f : Forecast) :
  predict_next_price self sku' df = Ok (ForecastDict f) ->
  sku f = sku'
  /\ (trend f = "rising" \/ trend f = "falling" \/ trend f = "stable")%string
  /\ (confidence f = "low" \/ confidence f = "medium")%string
  /\ (confidence f = "medium"%string ->
      is_trained self = true /\ (5 <= count (usable sku') df)%nat)
  /\ (price_change f = None ->
      predicted_price f = last_known_price f
      /\ trend f = "stable"%string /\ confidence f = "low"%string).
Proof.
  unfold predict_next_price.
  destruct (rev (filter _ df)) as [|last rest]; [discriminate|].
  destruct ((_ <? _)%nat || negb (is_trained self)) eqn:Efb.
  - intros H. injection H as <-. simpl.
    repeat split; auto; discriminate.
  - pose proof (_build_time_features_length sku' df) as Hlen.
    destruct (_build_time_features _) as [|x xs] eqn:Eb; [discriminate|].
    apply orb_false_iff in Efb. destruct Efb as [_ Htr].
    apply negb_false_iff in Htr.
    intros H. injection H as <-. simpl.
    split; [reflexivity|]. split.
    { repeat match goal with
             | |- context [if ?c then _ else _] => destruct c
             end; auto. }
    split.
    { match goal with
      | |- context [if ?c then _ else _] => destruct c
      end; auto. }
    split; [|discriminate].
    match goal with
    | |- context [if ?c then _ else _] => destruct c eqn:E5
    end; [|intros Hc; discriminate Hc].
    change ((5 <=? List.length (x :: xs))%nat = true) in E5.
    intros _. split; [exact Htr|]. apply Nat.leb_le in E5. now rewrite <- Hlen.
Qed.

Lemma predict_next_price_domains_witness :
  sku (mkForecast "A001" (Fin 7) (Fin 7) None "stable" "low") = "A001"%string
  /\ (trend (mkForecast "A001" (Fin 7) (Fin 7) None "stable" "low") = "rising"
      \/ trend (mkForecast "A001" (Fin 7) (Fin 7) None "stable" "low") = "falling"
      \/ trend (mkForecast "A001" (Fin 7) (Fin 7) None "stable" "low") = "stable")%string
  /\ (confidence (mkForecast "A001" (Fin 7) (Fin 7) None "stable" "low") = "low"
      \/ confidence (mkForecast "A001" (Fin 7) (Fin 7) None "stable" "low")
         = "medium")%string
  /\ (confidence (mkForecast "A001" (Fin 7) (Fin 7) None "stable" "low")
      = "medium"%string ->
      is_trained sample_predictor = true
      /\ (5 <= count (usable "A001") sample_history)%nat)
  /\ (price_change (mkForecast "A001" (Fin 7) (Fin 7) None "stable" "low") = None ->
      predicted_price (mkForecast "A001" (Fin 7) (Fin 7) None "stable" "low")
      = last_known_price (mkForecast "A001" (Fin 7) (Fin 7) None "stable" "low")
      /\ trend (mkForecast "A001" (Fin 7) (Fin 7) None "stable" "low")
         = "stable"%string
      /\ confidence (mkForecast "A001" (Fin 7) (Fin 7) None "stable" "low")
         = "low"%string).
Proof.
  apply (predict_next_price_domains sample_predictor "A001" sample_history).
  reflexivity.
Defined.

(** X14.  On the regression path (the forecast carries a [price_change])
    the predicted price is floored: unless the regression produced a null,
    it is at least 0.10. *)
Theorem predict_next_price_floor
        (self : PricePredictor) (sku' : string) (df : list Row) (f : Forecast) :
  predict_next_price self sku' df = Ok (ForecastDict f) ->
  price_change f <> None ->
  F.isna (predicted_price f) = true
  \/ exists p, predicted_price f = Fin p /\ 1 # 10 <= p.
Proof.
  unfold predict_next_price.
  destruct (rev (filter _ df)) as [|last rest]; [discriminate|].
  destruct ((_ <? _)%nat || negb (is_trained self)).
  - intros H. injection H as <-. simpl. congruence.
  - destruct (_build_time_features _) as [|x xs]; [discriminate|].
    intros H _. injection H as <-. simpl.
    unfold py_max. destruct (predict_last self (x :: xs)) as [|v]; simpl.
    + now left.
    + right.
      assert (Hfloor : 1 # 10 <= round_dec 2 (1 # 10)).
      { rewrite (round_dec_cents (1 # 10) 10); [apply Qle_refl | reflexivity]. }
      destruct (Qle_bool (1 # 10) v) eqn:E; simpl.
      * eexists. split; [reflexivity|].
        apply Qle_bool_iff in E.
        eapply Qle_trans; [exact Hfloor | now apply round_dec_mono].
      * eexists. split; [reflexivity | exact Hfloor].
Qed.

Lemma predict_next_price_floor_witness :
  F.isna (fround 2 (Fin (1 # 10))) = true
  \/ exists p, fround 2 (Fin (1 # 10)) = Fin p /\ 1 # 10 <= p.
Proof.
  apply (predict_next_price_floor
           (mkPredictor (fun _ => Fin (-(5))) true 3) "A001"
           (sample_history ++ sample_history)
           (mkForecast "A001" (fround 2 (Fin (1 # 10))) (fround 2 (Fin 7))
                       (Some (fround 2 (Fin ((1 # 10) - 7)))) "falling" "low")).
  - reflexivity.
  - discriminate.
Defined.

(** ** The search endpoints *)

Lemma recommend_length (self : InferencePipeline) (q : string) (budget : Q)
      (city' state' : option string) (top_n : Z) (out : list Out.t) :
  (0 <= top_n)%Z ->
  recommend self q budget city' state' top_n = Ok out ->
  (Z.of_nat (List.length out) <= top_n)%Z.
Proof.
  intros Hn H. apply recommend_unfold in H. destruct H as (cands & _ & ->).
  rewrite length_map, rank_products_rows. now apply slice_to_length.
Qed.

(** X15.  [search_products] on the inference pipeline either answers or
    raises HTTP 500, nothing else.  An answer echoes the query and the
    budget, its results are those of [recommend], [total_found] is their
    number and it is at most [max_results] (for [max_results >= 0]). *)
Theorem search_products_answer
        (str : exn -> string) (request : SearchRequest.t)
        (self : InferencePipeline) :
  (forall e, search_products str request (recommend self) = Raise e ->
             exists detail, e = HTTPException 500 detail)
  /\ (forall resp,
         search_products str request (recommend self) = Ok resp ->
         SearchResponse.query resp = SearchRequest.query request
         /\ SearchResponse.budget resp = SearchRequest.budget request
         /\ SearchResponse.total_found resp
            = List.length (SearchResponse.results resp)
         /\ ((0 <= SearchRequest.max_results request)%Z ->
             (Z.of_nat (SearchResponse.total_found resp)
              <= SearchRequest.max_results request)%Z)
         /\ recommend self (SearchRequest.query request)
                      (SearchRequest.budget request)
                      (SearchRequest.city request) (SearchRequest.state request)
                      (SearchRequest.max_results request)
            = Ok (SearchResponse.results resp)).
Proof.
  unfold search_products.
  destruct (recommend self _ _ _ _ _) as [results|e0] eqn:E; split.
  - discriminate.
  - intros resp H. injection H as <-. simpl. repeat split.
    intros Hn. exact (recommend_length _ _ _ _ _ _ _ Hn E).
  - intros e H. injection H as <-. eauto.
  - discriminate.
Qed.

Lemma search_products_answer_witness :
  (exists detail,
      HTTPException 500 "Index not built. Call build() first."
      = HTTPException 500 detail)
  /\ (Z.of_nat 1 <= 3)%Z.
Proof.
  split.
  - apply (proj1 (search_products_answer
                    (fun e => match e with
                              | RuntimeError msg => msg
                              | _ => EmptyString
                              end)
                    (SearchRequest.mk "fish" 10 None None 3)
                    (mkPipeline BudgetRanker_init ProductSearchIndex_init []))).
    reflexivity.
  - apply (proj2 (search_products_answer (fun _ => EmptyString)
                    (SearchRequest.mk "fish" 10 None None 3) sample_pipeline)
                 (SearchResponse.mk "fish" 10 1 [to_record melbourne_fish])
                 eq_refl).
    discriminate.
Defined.

(** X16.  [price_trend] answers 503 when no predictor file exists.  With a
    predictor it raises HTTP 404 exactly when no row of the catalog carries
    the Sku; an answer is the forecast for that Sku together with its price
    history, which has at most as many entries as the Sku has rows. *)
Theorem price_trend_not_found
        (predictor : PricePredictor) (sku' : string) (self : InferencePipeline) :
  (exists detail, price_trend None sku' self = Raise (HTTPException 503 detail))
  /\ (price_trend (Some predictor) sku' self
      = Raise (HTTPException 404 ("Sku '" ++ sku' ++ "' not found"))
      <-> filter (fun r => String.eqb (Sku r) sku') (full_df self) = [])
  /\ (forall f history,
         price_trend (Some predictor) sku' self = Ok (f, history) ->
         sku f = sku'
         /\ history = get_price_history predictor sku' (full_df self)
         /\ (List.length history
             <= count (fun r => String.eqb (Sku r) sku') (full_df self))%nat).
Proof.
  split; [eexists; reflexivity|]. unfold price_trend, bind. split.
  - split.
    + intros H. unfold predict_next_price in H.
      destruct (filter _ (full_df self)) as [|x xs] using rev_ind;
        [reflexivity|].
      rewrite rev_app_distr in H. simpl in H.
      destruct (_ || _); [discriminate|].
      destruct (_build_time_features _); discriminate.
    + intros H. now rewrite (predict_next_price_not_found predictor sku' _ H).
  - intros f history H.
    destruct (predict_next_price predictor sku' (full_df self))
      as [[msg|f0]|] eqn:E; try discriminate.
    injection H as <- <-.
    split; [|split; [reflexivity|]].
    + unfold predict_next_price in E.
      destruct (rev _) as [|last rest]; [discriminate|].
      destruct (_ || _); [now injection E as <-|].
      destruct (_build_time_features _); [discriminate|].
      now injection E as <-.
    + unfold get_price_history, count. rewrite length_map.
      eapply Nat.le_trans; [apply filter_length_le|].
      now rewrite (Permutation_length (sort_values_RunDate_perm _)).
Qed.

Lemma price_trend_not_found_witness :
  price_trend (Some sample_predictor) "B777"
              (mkPipeline BudgetRanker_init sample_index sample_history)
  = Raise (HTTPException 404 ("Sku '" ++ "B777" ++ "' not found")).
Proof.
  apply (proj1 (proj2 (price_trend_not_found sample_predictor "B777"
                         (mkPipeline BudgetRanker_init sample_index
                                     sample_history)))).
  reflexivity.
Defined.

(** ** Building, saving and loading the index *)

(** X17.  Saving an index and loading it back gives an index with the same
    catalog and the same answer to every search: for an index in lexical
    mode, provided no [faiss.index] file is left in the directory or the
    FAISS libraries do not import at load time; for an index in semantic
    mode, provided they do import.  If a lexical index is saved next to a
    stale [faiss.index] and the libraries import, [load] comes back in
    semantic mode on the stale file. *)
Theorem save_load_round_trip
        (self : ProductSearchIndex) (dir : Store)
        (libs_installed : bool) (refit : list string -> TfidfIndex) :
  (forall tf,
      tfidf self = Some tf ->
      use_faiss self = false \/ index self = None ->
      libs_installed = false \/ faiss_index dir = None ->
      exists inst,
        load libs_installed refit (save self dir) = inr inst
        /\ product_df inst = product_df self
        /\ forall q k, search inst q k = search self q k)
  /\ (forall ix,
         use_faiss self = true -> index self = Some ix ->
         libs_installed = true ->
         exists inst,
           load libs_installed refit (save self dir) = inr inst
           /\ product_df inst = product_df self
           /\ forall q k, search inst q k = search self q k)
  /\ (forall tf stale,
         tfidf self = Some tf ->
         use_faiss self = false \/ index self = None ->
         libs_installed = true -> faiss_index dir = Some stale ->
         load libs_installed refit (save self dir)
         = inr (mkIndex (Some stale) (product_df self) true None)).
Proof.
  split; [|split].
  - intros tf Htf Hmode Hclean.
    exists (mkIndex None (product_df self) false (Some tf)).
    split; [|split; [reflexivity|]].
    + unfold load, save. simpl. rewrite Htf.
      destruct Hclean as [-> | Hnone].
      * reflexivity.
      * rewrite Hnone.
        destruct libs_installed; [|reflexivity].
        destruct Hmode as [-> | ->]; [reflexivity|].
        now destruct (use_faiss self).
    + intros q k. rewrite (search_lexical_eq self tf q k Hmode Htf).
      reflexivity.
  - intros ix Hf Hix ->.
    exists (mkIndex (Some ix) (product_df self) true None).
    split; [|split; [reflexivity|]].
    + unfold load, save. simpl. now rewrite Hf, Hix.
    + intros q k. unfold search. simpl. now rewrite Hf, Hix.
  - intros tf stale Htf Hmode -> Hstale.
    unfold load, save. simpl. rewrite Hstale.
    destruct Hmode as [-> | ->]; [reflexivity|].
    now destruct (use_faiss self).
Qed.

Lemma save_load_round_trip_witness :
  (exists inst,
      load true (fun _ => sample_tfidf) (save sample_index empty_store)
      = inr inst
      /\ product_df inst = product_df sample_index
      /\ forall q k, search inst q k = search sample_index q k)
  /\ (exists inst,
         load true (fun _ => sample_tfidf)
              (save sample_semantic_index empty_store) = inr inst
         /\ product_df inst = product_df sample_semantic_index
         /\ forall q k, search inst q k = search sample_semantic_index q k)
  /\ load true (fun _ => sample_tfidf)
          (save sample_index (save sample_semantic_index empty_store))
     = inr (mkIndex (Some sample_faiss) (product_df sample_index) true None).
Proof.
  split; [|split].
  - apply (proj1 (save_load_round_trip sample_index empty_store true
                    (fun _ => sample_tfidf)) sample_tfidf).
    + reflexivity.
    + now left.
    + now right.
  - apply (proj1 (proj2 (save_load_round_trip sample_semantic_index empty_store
                           true (fun _ => sample_tfidf))) sample_faiss);
      reflexivity.
  - apply (proj2 (proj2 (save_load_round_trip sample_index
                           (save sample_semantic_index empty_store)
                           true (fun _ => sample_tfidf)))
                 sample_tfidf sample_faiss).
    + reflexivity.
    + now left.
    + reflexivity.
    + reflexivity.
Defined.

(** X18.  [load] fails exactly when the product snapshot is missing.  An
    index it returns holds the stored snapshot and always has a back end
    to search with (a FAISS index in semantic mode, a TF-IDF model in
    lexical mode), so [search] never reports "Index not built"; when the
    TF-IDF model had to be refitted on the snapshot, every search
    returns. *)
Theorem load_searchable
        (libs_installed : bool) (refit : list string -> TfidfIndex)
        (dir : Store) :
  (product_index_df dir = None <->
   exists path, load libs_installed refit dir = inl (FileNotFoundError path))
  /\ (forall inst,
         load libs_installed refit dir = inr inst ->
         product_index_df dir = Some (product_df inst)
         /\ ((use_faiss inst = true /\ exists ix, index inst = Some ix)
             \/ (use_faiss inst = false /\ index inst = None
                 /\ exists tf, tfidf inst = Some tf))
         /\ ((libs_installed = false \/ faiss_index dir = None) ->
             tfidf_index dir = None ->
             vectorizer_contract refit ->
             forall q k, exists df, search inst q k = Ok df)).
Proof.
  unfold load. split.
  - split.
    + intros ->. eauto.
    + intros [path H]. destruct (product_index_df dir) as [df|]; [|reflexivity].
      destruct (if libs_installed then faiss_index dir else None);
        [discriminate|].
      destruct (tfidf_index dir); discriminate.
  - intros inst H. destruct (product_index_df dir) as [df|]; [|discriminate].
    destruct (if libs_installed then faiss_index dir else None) as [ix|] eqn:Ef.
    + injection H as <-. simpl. split; [reflexivity|]. split.
      * left. eauto.
      * intros [-> | Hn]; [discriminate|].
        rewrite Hn in Ef. now destruct libs_installed.
    + destruct (tfidf_index dir) as [tf|] eqn:Et.
      * injection H as <-. simpl. split; [reflexivity|]. split.
        -- right. eauto.
        -- discriminate.
      * injection H as <-. simpl. split; [reflexivity|]. split.
        -- right. eauto.
        -- intros _ _ Hc q k. apply search_lexical_returns.
           split; [now left|]. eexists. split; [reflexivity|].
           simpl. now rewrite Hc, length_map.
Qed.

Lemma sample_vectorizer_contract : vectorizer_contract sample_vectorizer.
Proof. intros names q. simpl. apply length_map. Qed.

Lemma load_searchable_witness :
  (exists path,
      load false sample_vectorizer empty_store = inl (FileNotFoundError path))
  /\ forall q k, exists df,
       search (mkIndex None [cheap_chicken; melbourne_fish] false
                 (Some (sample_vectorizer ["Cheap Chicken"; "Fish"]%string)))
              q k = Ok df.
Proof.
  split.
  - apply (proj1 (load_searchable false sample_vectorizer empty_store)).
    reflexivity.
  - apply (proj2 (load_searchable false sample_vectorizer
                    (mkStore None (Some [cheap_chicken; melbourne_fish])
                             None None))
                 (mkIndex None [cheap_chicken; melbourne_fish] false
                    (Some (sample_vectorizer ["Cheap Chicken"; "Fish"]%string)))
                 eq_refl).
    + now left.
    + reflexivity.
    + exact sample_vectorizer_contract.
Defined.

(** X19.  After [build] in fallback mode (the FAISS libraries do not
    import) the index is in lexical mode over exactly the given frame;
    every search on it returns, and returns only rows of that frame with
    their scores.  With [save=True] loading what [build] saved, into a
    directory without a stale [faiss.index] or without the libraries,
    gives the same answers; with [save=False] the directory is not
    touched. *)
Theorem build_fallback_searchable
        (vectorizer : list string -> TfidfIndex)
        (self : ProductSearchIndex) (df : list Row) (save' : bool)
        (dir : Store) :
  vectorizer_contract vectorizer ->
  product_df (fst (build None vectorizer self df save' dir)) = df
  /\ use_faiss (fst (build None vectorizer self df save' dir)) = false
  /\ (forall q k, exists res,
         search (fst (build None vectorizer self df save' dir)) q k = Ok res
         /\ forall r, In r (rows res) ->
              exists r0 s, In r0 df /\ r = set_search_score r0 (Fin s))
  /\ (forall libs_installed refit,
         save' = true ->
         libs_installed = false \/ faiss_index dir = None ->
         exists inst,
           load libs_installed refit
                (snd (build None vectorizer self df save' dir))
           = inr inst
           /\ forall q k,
                search inst q k
                = search (fst (build None vectorizer self df save' dir)) q k)
  /\ (save' = false -> snd (build None vectorizer self df save' dir) = dir).
Proof.
  intros Hc. simpl. split; [reflexivity|]. split; [reflexivity|]. split.
  - intros q k.
    destruct (search_lexical_returns
                (_build_tfidf vectorizer
                   (mkIndex (index self) (product_df self) false (tfidf self)) df)
                q k) as [res Hres].
    { split; [now left|]. eexists. split; [reflexivity|].
      simpl. now rewrite Hc, length_map. }
    exists res. split; [exact Hres|].
    intros r Hr. exact (proj2 (search_scored _ _ _ _ Hres) r Hr).
  - split.
    + intros libs_installed refit -> Hclean.
      exists (mkIndex None df false (Some (vectorizer (map Product_Name df)))).
      split.
      * unfold load, save. simpl.
        destruct Hclean as [-> | ->]; [reflexivity|].
        now destruct libs_installed.
      * intros q k. unfold search. simpl. now destruct (index self).
    + intros ->. reflexivity.
Qed.

Lemma build_fallback_searchable_witness :
  product_df (fst (build None sample_vectorizer ProductSearchIndex_init
                         [cheap_chicken; melbourne_fish] true empty_store))
  = [cheap_chicken; melbourne_fish]
  /\ (exists inst,
        load true sample_vectorizer
             (snd (build None sample_vectorizer ProductSearchIndex_init
                         [cheap_chicken; melbourne_fish] true empty_store))
        = inr inst
        /\ forall q k,
             search inst q k
             = search (fst (build None sample_vectorizer
                                  ProductSearchIndex_init
                                  [cheap_chicken; melbourne_fish] true
                                  empty_store)) q k).
Proof.
  pose proof (build_fallback_searchable
                sample_vectorizer ProductSearchIndex_init
                [cheap_chicken; melbourne_fish] true empty_store
                sample_vectorizer_contract) as H.
  split.
  - exact (proj1 H).
  - apply (proj1 (proj2 (proj2 (proj2 H)))).
    + reflexivity.
    + right. reflexivity.
Defined.

(** ** Group sizes of the label construction *)

Lemma string_leb_trans (s1 s2 s3 : string) :
  String.leb s1 s2 = true -> String.leb s2 s3 = true -> String.leb s1 s3 = true.
Proof.
  unfold String.leb. revert s2 s3.
  induction s1 as [|c1 s1 IH]; intros [|c2 s2] [|c3 s3]; simpl;
    try reflexivity; try discriminate.
  unfold Ascii.compare.
  destruct (N.compare_spec (N_of_ascii c1) (N_of_ascii c2)) as [E12|L12|G12];
    destruct (N.compare_spec (N_of_ascii c2) (N_of_ascii c3)) as [E23|L23|G23];
    try discriminate; intros H1 H2.
  - rewrite E12, E23, N.compare_refl. now apply (IH s2 s3).
  - rewrite E12. apply N.compare_lt_iff in L23. now rewrite L23.
  - rewrite <- E23. apply N.compare_lt_iff in L12. now rewrite L12.
  - assert (L : (N_of_ascii c1 < N_of_ascii c3)%N) by lia.
    apply N.compare_lt_iff in L. now rewrite L.
Qed.

Lemma sort_by_sub_category_sorted (df : list Row) :
  StronglySorted
    (fun a b => String.leb (Sub_category a) (Sub_category b) = true)
    (sort_by_sub_category df).
Proof.
  unfold sort_by_sub_category.
  apply (sort_by_sorted
           (fun a b => String.leb (Sub_category a) (Sub_category b))).
  - intros x y H. destruct (String.leb_total (Sub_category x) (Sub_category y));
      congruence.
  - intros x y z. apply string_leb_trans.
Qed.

Lemma same_group_eq (a b : Row) :
  same_group a b = true <-> Sub_category a = Sub_category b.
Proof. unfold same_group. apply String.eqb_eq. Qed.

Lemma same_group_neq (a b : Row) :
  same_group a b = false <-> Sub_category a <> Sub_category b.
Proof. unfold same_group. apply String.eqb_neq. Qed.

Lemma group_sizes_from_reps (all seen rest : list Row) :
  group_sizes_from all seen rest
  = map (fun r => count (fun x => same_group x r) all) (reps_from seen rest).
Proof.
  revert seen. induction rest as [|r rest IH]; simpl; intros seen;
    [reflexivity|].
  destruct (existsb (same_group r) seen); simpl; now rewrite IH.
Qed.

Lemma reps_from_In (seen rest : list Row) (g : Row) :
  In g (reps_from seen rest) ->
  In g rest /\ existsb (same_group g) seen = false.
Proof.
  revert seen. induction rest as [|r rest IH]; simpl; intros seen H;
    [contradiction|].
  destruct (existsb (same_group r) seen) eqn:E.
  - apply IH in H. tauto.
  - destruct H as [<-|H]; [auto|].
    apply IH in H. destruct H as [H1 H2]. split; [auto|].
    simpl in H2. now apply orb_false_iff in H2.
Qed.

Lemma reps_from_NoDup (seen rest : list Row) :
  NoDup (map Sub_category (reps_from seen rest)).
Proof.
  revert seen. induction rest as [|r rest IH]; simpl; intros seen;
    [constructor|].
  destruct (existsb (same_group r) seen); [apply IH|].
  simpl. constructor; [|apply IH].
  intros Hin. apply in_map_iff in Hin. destruct Hin as (g & Hg & Hin).
  apply reps_from_In in Hin. destruct Hin as [_ Hin]. simpl in Hin.
  apply orb_false_iff in Hin. destruct Hin as [Hin _].
  apply same_group_neq in Hin. congruence.
Qed.

(** Skipping the group of [r] while scanning is scanning the frame without
    that group. *)
Lemma reps_from_filter (r : Row) (rest : list Row) :
  forall seen1 seen2,
    (forall y, existsb (same_group y) seen1
               = same_group y r || existsb (same_group y) seen2) ->
    reps_from seen1 rest
    = reps_from seen2 (filter (fun x => negb (same_group x r)) rest).
Proof.
  induction rest as [|x rest IH]; simpl; intros seen1 seen2 H; [reflexivity|].
  rewrite H. destruct (same_group x r) eqn:Ex; simpl.
  - now apply IH.
  - destruct (existsb (same_group x) seen2) eqn:E2.
    + now apply IH.
    + f_equal. apply IH. intros y. simpl. rewrite H.
      destruct (same_group y x), (same_group y r); reflexivity.
Qed.

Lemma sorted_split (r : Row) (l : list Row) :
  StronglySorted
    (fun a b => String.leb (Sub_category a) (Sub_category b) = true) l ->
  (forall x, In x l -> String.leb (Sub_category r) (Sub_category x) = true) ->
  l = filter (fun x => same_group x r) l
      ++ filter (fun x => negb (same_group x r)) l.
Proof.
  induction 1 as [|x l Hs IH Hall]; intros Hge; [reflexivity|]. simpl.
  destruct (same_group x r) eqn:Ex; simpl.
  - f_equal. apply IH. intros y Hy. apply Hge. now right.
  - rewrite Forall_forall in Hall.
    assert (Hnone : forall y, In y l -> same_group y r = false).
    { intros y Hy. apply same_group_neq. intros Eq.
      apply same_group_neq in Ex. apply Ex.
      apply String.leb_antisym.
      - rewrite <- Eq. now apply Hall.
      - apply Hge. now left. }
    rewrite (filter_none _ l Hnone). simpl. f_equal.
    symmetry. apply filter_all. intros y Hy. now rewrite (Hnone y Hy).
Qed.

Lemma sorted_blocks (n : nat) :
  forall l,
    (List.length l <= n)%nat ->
    StronglySorted
      (fun a b => String.leb (Sub_category a) (Sub_category b) = true) l ->
    List.concat (map (fun g => filter (fun x => same_group x g) l) (reps_from [] l))
    = l.
Proof.
  induction n as [|n IH]; intros l Hlen Hs.
  - destruct l; [reflexivity | simpl in Hlen; lia].
  - destruct l as [|r l']; [reflexivity|].
    set (l2 := filter (fun x => negb (same_group x r)) l').
    assert (Hreps : reps_from [] (r :: l') = r :: reps_from [] l2).
    { simpl. f_equal. apply reps_from_filter. intros y. simpl.
      now rewrite orb_false_r. }
    rewrite Hreps. cbn [map List.concat].
    assert (Hs2 : StronglySorted
                    (fun a b => String.leb (Sub_category a) (Sub_category b) = true)
                    l2).
    { apply StronglySorted_filter. now inversion Hs. }
    assert (Hmap : map (fun g => filter (fun x => same_group x g) (r :: l'))
                       (reps_from [] l2)
                   = map (fun g => filter (fun x => same_group x g) l2)
                         (reps_from [] l2)).
    { apply map_ext_in. intros g Hg. apply reps_from_In in Hg.
      destruct Hg as [Hg _]. apply filter_In in Hg. destruct Hg as [_ Hg].
      apply negb_true_iff, same_group_neq in Hg.
      assert (Hrg : same_group r g = false)
        by (apply same_group_neq; congruence).
      simpl. rewrite Hrg. unfold l2. clear -Hg.
      induction l' as [|x l' IHl]; simpl; [reflexivity|].
      destruct (same_group x g) eqn:Exg.
      - assert (Hxr : same_group x r = false).
        { apply same_group_neq. apply same_group_eq in Exg. congruence. }
        rewrite Hxr. simpl. rewrite Exg. now f_equal.
      - destruct (negb (same_group x r)); simpl; [rewrite Exg|]; exact IHl. }
    rewrite Hmap, (IH l2).
    + assert (Hge : forall x, In x (r :: l') ->
                      String.leb (Sub_category r) (Sub_category x) = true).
      { intros x [<-|Hx].
        - destruct (String.leb_total (Sub_category r) (Sub_category r));
            assumption.
        - inversion Hs as [|? ? _ Hall]; subst.
          rewrite Forall_forall in Hall. now apply Hall. }
      etransitivity; [|symmetry; apply (sorted_split r (r :: l') Hs Hge)].
      f_equal. simpl.
      assert (Hrr : same_group r r = true) by now apply same_group_eq.
      now rewrite Hrr.
    + unfold l2. pose proof (filter_length_le (fun x => negb (same_group x r)) l').
      simpl in Hlen. lia.
    + exact Hs2.
Qed.

Lemma labels_frame (df : list Row) (out : list (Row * Z)) (groups : list nat) :
  _build_groups_and_labels df = Ok (out, groups) ->
  map fst out = sort_by_sub_category df
  /\ groups = group_sizes (sort_by_sub_category df).
Proof.
  unfold _build_groups_and_labels, bind.
  destruct (mapM _ _) as [rel|] eqn:E; [|discriminate].
  intros H. injection H as <- <-. split; [|reflexivity].
  apply mapM_Forall2 in E.
  assert (Hfst : map fst rel
                 = map fst (rank_column (sort_by_sub_category df) []
                                        (sort_by_sub_category df))).
  { induction E as [|x y xs ys Hxy _ IH]; simpl; [reflexivity|].
    destruct (scale_group _ _ _); [|discriminate].
    injection Hxy as <-. simpl. now rewrite IH. }
  now rewrite Hfst, rank_column_fst.
Qed.

(** X20.  The group sizes returned with the labels describe the labelled
    frame block by block: the frame is the concatenation of consecutive
    blocks whose lengths are the group sizes in order, every block is
    non-empty and holds one sub-category, different blocks hold different
    sub-categories, and the sizes add up to the number of rows. *)
Theorem groups_are_contiguous_blocks
        (df : list Row) (out : list (Row * Z)) (groups : list nat) :
  _build_groups_and_labels df = Ok (out, groups) ->
  exists blocks : list (list Row),
    map fst out = List.concat blocks
    /\ groups = map (@List.length Row) blocks
    /\ (forall b, In b blocks ->
          b <> []
          /\ forall x y, In x b -> In y b -> Sub_category x = Sub_category y)
    /\ (forall i j b1 b2 x y,
          nth_error blocks i = Some b1 -> nth_error blocks j = Some b2 ->
          i <> j -> In x b1 -> In y b2 -> Sub_category x <> Sub_category y)
    /\ list_sum groups = List.length df.
Proof.
  intros H. apply labels_frame in H. destruct H as [Hrows ->].
  set (l := sort_by_sub_category df) in *.
  set (reps := reps_from [] l).
  exists (map (fun g => filter (fun x => same_group x g) l) reps).
  assert (Hconcat : List.concat (map (fun g => filter (fun x => same_group x g) l) reps)
                    = l).
  { apply (sorted_blocks (List.length l)); [lia|].
    apply sort_by_sub_category_sorted. }
  split; [now rewrite Hconcat|]. split.
  { unfold group_sizes. rewrite group_sizes_from_reps, map_map. reflexivity. }
  split.
  { intros b Hb. apply in_map_iff in Hb. destruct Hb as (g & <- & Hg).
    apply reps_from_In in Hg. destruct Hg as [Hg _]. split.
    - intros E. assert (Hin : In g (filter (fun x => same_group x g) l)).
      { apply filter_In. split; [exact Hg|]. now apply same_group_eq. }
      now rewrite E in Hin.
    - intros x y Hx Hy. apply filter_In in Hx, Hy.
      destruct Hx as [_ Hx]. destruct Hy as [_ Hy].
      apply same_group_eq in Hx, Hy. congruence. }
  split.
  { intros i j b1 b2 x y Hi Hj Hij Hx Hy Eq.
    rewrite nth_error_map in Hi, Hj.
    destruct (nth_error reps i) as [g1|] eqn:E1; [|discriminate].
    destruct (nth_error reps j) as [g2|] eqn:E2; [|discriminate].
    injection Hi as <-. injection Hj as <-.
    apply filter_In in Hx, Hy.
    destruct Hx as [_ Hx]. destruct Hy as [_ Hy].
    apply same_group_eq in Hx, Hy.
    pose proof (reps_from_NoDup [] l) as Hnd. fold reps in Hnd.
    apply Hij.
    apply (proj1 (NoDup_nth_error (map Sub_category reps)) Hnd i j).
    - rewrite length_map. apply nth_error_Some. congruence.
    - rewrite !nth_error_map, E1, E2. simpl. congruence. }
  unfold group_sizes. rewrite group_sizes_from_reps.
  change (map (fun r => count (fun x => same_group x r) l) (reps_from [] l))
    with (map (fun r => List.length (filter (fun x => same_group x r) l)) reps).
  rewrite <- (map_map (fun g => filter (fun x => same_group x g) l)
                      (@List.length Row)).
  rewrite <- length_concat, Hconcat.
  apply Permutation_length, sort_by_perm.
Qed.

Lemma groups_are_contiguous_blocks_witness :
  exists blocks : list (list Row),
    map fst sample_labels = List.concat blocks
    /\ [3; 1]%nat = map (@List.length Row) blocks
    /\ (forall b, In b blocks ->
          b <> []
          /\ forall x y, In x b -> In y b -> Sub_category x = Sub_category y)
    /\ (forall i j b1 b2 x y,
          nth_error blocks i = Some b1 -> nth_error blocks j = Some b2 ->
          i <> j -> In x b1 -> In y b2 -> Sub_category x <> Sub_category y)
    /\ list_sum [3; 1]%nat = List.length (rows sample_products).
Proof.
  apply (groups_are_contiguous_blocks (rows sample_products) sample_labels
           [3; 1]%nat).
  reflexivity.
Defined.

(** ** deduplicate *)

Lemma sort_values_desc_date_sorted (rs : list Row) :
  StronglySorted newer_or_equal (sort_values_desc date_key rs).
Proof.
  unfold sort_values_desc.
  set (dated := filter (fun r => negb (F.isna (date_key r))) rs).
  set (undated := filter (fun r => F.isna (date_key r)) rs).
  assert (Hd : forall r, In r dated -> F.isna (date_key r) = false).
  { intros r Hr. apply filter_In in Hr. now apply negb_true_iff. }
  pose proof (sort_values_desc_sorted date_key dated Hd) as Hs.
  unfold sort_values_desc in Hs.
  rewrite (filter_all _ dated), (filter_none (fun r => F.isna (date_key r)) dated Hd),
    app_nil_r in Hs
    by (intros r Hr; now rewrite (Hd r Hr)).
  set (front := rev (sort_by (key_leb (float_key date_key)) (rev dated))) in *.
  assert (Hfront : forall r, In r front -> F.isna (date_key r) = false).
  { intros r Hr. apply Hd. unfold front in Hr.
    rewrite <- in_rev, sort_by_In, <- in_rev in Hr. exact Hr. }
  assert (Hund : forall r, In r undated -> RunDate r = None).
  { intros r Hr. apply filter_In in Hr. destruct Hr as [_ Hr].
    unfold date_key in Hr. now destruct (RunDate r). }
  clearbody front. induction Hs as [|a l Hs IH Hall]; simpl.
  - clear -Hund. induction undated as [|u us IHu]; constructor.
    + apply IHu. intros r Hr. apply Hund. now right.
    + rewrite Forall_forall. intros y Hy. unfold newer_or_equal.
      rewrite (Hund y (or_intror Hy)). now destruct (RunDate u).
  - constructor.
    + apply IH. intros r Hr. apply Hfront. now right.
    + apply Forall_app. split.
      * rewrite Forall_forall in *. intros y Hy. specialize (Hall y Hy).
        pose proof (Hfront a (or_introl eq_refl)) as Ha.
        pose proof (Hfront y (or_intror Hy)) as Hy'.
        unfold float_key, date_key, newer_or_equal in *.
        destruct (RunDate a), (RunDate y); try discriminate.
        now rewrite <- Zle_Qle in Hall.
      * rewrite Forall_forall. intros y Hy. unfold newer_or_equal.
        rewrite (Hund y Hy). now destruct (RunDate a).
Qed.

Lemma drop_duplicates_In (rs : list Row) :
  forall seen k,
    In k (drop_duplicates_Sku seen rs) ->
    ~ In (Sku k) seen
    /\ exists pre post,
         rs = pre ++ k :: post
         /\ forall x, In x pre -> Sku x <> Sku k.
Proof.
  induction rs as [|r rs IH]; simpl; intros seen k H; [contradiction|].
  destruct (existsb (String.eqb (Sku r)) seen) eqn:E.
  - destruct (IH seen k H) as (Hns & pre & post & -> & Hpre).
    split; [exact Hns|]. exists (r :: pre), post. split; [reflexivity|].
    intros x [<-|Hx]; [|now apply Hpre].
    intros Eq. apply Hns. apply existsb_exists in E.
    destruct E as (s & Hs & Es). apply String.eqb_eq in Es. congruence.
  - destruct H as [<-|H].
    + split.
      * intros Hin.
        assert (Ht : existsb (String.eqb (Sku r)) seen = true).
        { apply existsb_exists. exists (Sku r). split; [exact Hin|].
          apply String.eqb_refl. }
        congruence.
      * exists [], rs. split; [reflexivity|]. intros x [].
    + destruct (IH (Sku r :: seen) k H) as (Hns & pre & post & -> & Hpre).
      split; [intros Hin; apply Hns; now right|].
      exists (r :: pre), post. split; [reflexivity|].
      intros x [<-|Hx]; [|now apply Hpre].
      intros Eq. apply Hns. left. exact Eq.
Qed.

Lemma drop_duplicates_complete (rs : list Row) :
  forall seen r,
    In r rs -> ~ In (Sku r) seen ->
    exists k, In k (drop_duplicates_Sku seen rs) /\ Sku k = Sku r.
Proof.
  induction rs as [|x rs IH]; simpl; intros seen r Hin Hns; [contradiction|].
  destruct (existsb (String.eqb (Sku x)) seen) eqn:E.
  - destruct Hin as [->|Hin]; [|now apply IH].
    exfalso. apply Hns. apply existsb_exists in E.
    destruct E as (s & Hs & Es). apply String.eqb_eq in Es. congruence.
  - destruct Hin as [->|Hin].
    + exists r. split; [now left | reflexivity].
    + destruct (string_dec (Sku x) (Sku r)) as [Eq|Ne].
      * exists x. split; [now left | exact Eq].
      * destruct (IH (Sku x :: seen) r Hin) as (k & Hk & Ek).
        { intros [H|H]; [congruence | contradiction]. }
        exists k. split; [now right | exact Ek].
Qed.

Lemma drop_duplicates_NoDup (rs : list Row) :
  forall seen, NoDup (map Sku (drop_duplicates_Sku seen rs)).
Proof.
  induction rs as [|r rs IH]; simpl; intros seen; [constructor|].
  destruct (existsb (String.eqb (Sku r)) seen); [apply IH|].
  simpl. constructor; [|apply IH].
  intros Hin. apply in_map_iff in Hin. destruct Hin as (k & Ek & Hk).
  apply drop_duplicates_In in Hk. destruct Hk as [Hns _].
  apply Hns. left. congruence.
Qed.

(** X21.  [deduplicate] keeps exactly one row per Sku: the kept rows are
    rows of the input with pairwise different Skus, every Sku of the input
    is kept, and the row kept for a Sku is at least as recent as every
    other row of that Sku (a dated row beats an undated one). *)
Theorem deduplicate_keeps_latest (df : list Row) :
  NoDup (map Sku (deduplicate df))
  /\ (forall k, In k (deduplicate df) -> In k df)
  /\ (forall r, In r df ->
        exists k, In k (deduplicate df) /\ Sku k = Sku r
                  /\ newer_or_equal k r).
Proof.
  unfold deduplicate. split; [apply drop_duplicates_NoDup|]. split.
  - intros k Hk. apply drop_duplicates_In in Hk.
    destruct Hk as (_ & pre & post & E & _).
    apply (sort_values_desc_In date_key df k). rewrite E.
    apply in_or_app. right. now left.
  - intros r Hr.
    apply (sort_values_desc_In date_key df r) in Hr.
    destruct (drop_duplicates_complete _ [] r Hr (fun H => H)) as (k & Hk & Ek).
    exists k. split; [exact Hk|]. split; [exact Ek|].
    apply drop_duplicates_In in Hk. destruct Hk as (_ & pre & post & E & Hpre).
    pose proof (sort_values_desc_date_sorted df) as Hs.
    rewrite E in Hr, Hs. apply in_app_or in Hr.
    destruct Hr as [Hr | [<- | Hr]].
    + exfalso. now apply (Hpre r Hr).
    + unfold newer_or_equal. destruct (RunDate k); [lia | exact I].
    + replace (pre ++ k :: post) with ((pre ++ [k]) ++ post) in Hs
        by now rewrite <- app_assoc.
      apply (StronglySorted_app_inv _ _ _ Hs k r); [|exact Hr].
      apply in_or_app. right. now left.
Qed.

(** The case of [tests/test_cleaner.py]: of two observations of A001 the
    one of the later date is kept. *)
Example test_deduplicate_keeps_latest :
  map (fun r => (Sku r, Package_price r)) (deduplicate sample_history)
  = [("A001"%string, Fin 7); ("A002"%string, Fin 3)].
Proof. reflexivity. Qed.

Lemma deduplicate_keeps_latest_witness :
  exists k, In k (deduplicate sample_history)
            /\ Sku k = "A001"%string
            /\ newer_or_equal k (observation "A001" 100 (65 # 10)).
Proof.
  apply (proj2 (proj2 (deduplicate_keeps_latest sample_history))
               (observation "A001" 100 (65 # 10))).
  now left.
Defined.

(** ** Feature engineering *)

Lemma round_half_even_comp (x y : Q) :
  x == y -> round_half_even x = round_half_even y.
Proof.
  intros H.
  assert (H1 : x <= y) by (rewrite H; apply Qle_refl).
  assert (H2 : y <= x) by (rewrite H; apply Qle_refl).
  apply round_half_even_mono in H1, H2. lia.
Qed.

Lemma round_dec_comp (n : nat) (x y : Q) :
  x == y -> round_dec n x == round_dec n y.
Proof.
  intros H. unfold round_dec.
  rewrite (round_half_even_comp (x * inject_Z (10 ^ Z.of_nat n))
                                (y * inject_Z (10 ^ Z.of_nat n))).
  - reflexivity.
  - now rewrite H.
Qed.

(** Case analysis on every rational comparison of the goal, then linear
    arithmetic. *)
Ltac qcases :=
  repeat match goal with
         | |- context [Qle_bool ?a ?b] =>
             let E := fresh "E" in destruct (Qle_bool a b) eqn:E
         end;
  repeat match goal with
         | H : Qle_bool _ _ = true |- _ => apply Qle_bool_iff in H
         | H : Qle_bool _ _ = false |- _ =>
             apply Bool.not_true_iff_false in H;
             rewrite Qle_bool_iff in H
         end;
  try lra.

Lemma Qclip_range (lo hi x : Q) :
  lo <= hi -> lo <= Qmin (Qmax x lo) hi /\ Qmin (Qmax x lo) hi <= hi.
Proof.
  intros H. unfold Qmax.
  destruct (Qle_bool x lo) eqn:Ex; unfold Qmin; split; qcases.
Qed.

Lemma Qclip_mono (lo hi x y : Q) :
  x <= y -> Qmin (Qmax x lo) hi <= Qmin (Qmax y lo) hi.
Proof.
  intros H. unfold Qmax.
  destruct (Qle_bool x lo) eqn:Ex; destruct (Qle_bool y lo) eqn:Ey;
    unfold Qmin; qcases.
Qed.

Lemma Qclip_id (lo hi x : Q) :
  lo <= x -> x <= hi -> Qmin (Qmax x lo) hi == x.
Proof.
  intros H1 H2. unfold Qmax.
  destruct (Qle_bool x lo) eqn:Ex; unfold Qmin; qcases.
Qed.

Lemma round_dec_range (n : nat) (lo hi : Z) (x : Q) :
  inject_Z lo <= x -> x <= inject_Z hi ->
  inject_Z lo <= round_dec n x /\ round_dec n x <= inject_Z hi.
Proof.
  assert (Hint : forall z : Z, round_dec n (inject_Z z) == inject_Z z).
  { intros z. unfold round_dec.
    assert (Hpos : 0 < inject_Z (10 ^ Z.of_nat n)).
    { rewrite <- (Zlt_Qlt 0). apply Z.pow_pos_nonneg; lia. }
    rewrite (round_half_even_Z _ (z * 10 ^ Z.of_nat n)).
    - rewrite inject_Z_mult. field; lra.
    - now rewrite inject_Z_mult. }
  intros H1 H2. split.
  - rewrite <- (Hint lo). now apply round_dec_mono.
  - rewrite <- (Hint hi). now apply round_dec_mono.
Qed.

(** X22.  On rows with a positive package price, [add_discount_pct] sets a
    discount that is never null and lies in [0, 1]; it is 0 whenever the
    retail price is missing or not above the package price; the price
    columns are left as they were. *)
Theorem add_discount_pct_range (df : list Raw.t) :
  (forall r, In r df -> exists p, Raw.Package_price r = Fin p /\ 0 < p) ->
  Forall2 (fun r r' =>
             Raw.Package_price r' = Raw.Package_price r
             /\ Raw.Retail_price r' = Raw.Retail_price r
             /\ exists d,
                  Raw.discount_pct r' = Fin d
                  /\ 0 <= d /\ d <= 1
                  /\ (F.gt (Raw.Retail_price r) (Raw.Package_price r) = false ->
                      d == 0))
          df (add_discount_pct df).
Proof.
  unfold add_discount_pct. induction df as [|r df IH]; intros Hpos;
    simpl; constructor.
  - split; [reflexivity|]. split; [reflexivity|].
    unfold add_discount_pct_row. cbn [Raw.discount_pct].
    destruct (F.gt (Raw.Retail_price r) (Raw.Package_price r)) eqn:Eg.
    + destruct (Raw.Retail_price r) as [|x], (Raw.Package_price r) as [|p];
        try discriminate.
      simpl. eexists. split; [reflexivity|].
      destruct (Qclip_range 0 1 ((x - p) / x)) as [H0 H1]; [discriminate|].
      destruct (round_dec_range 4 0 1 _ H0 H1) as [H2 H3].
      split; [exact H2|]. split; [exact H3|]. discriminate.
    + simpl. eexists. split; [reflexivity|].
      split; [discriminate|]. split; [discriminate|]. intros _. reflexivity.
  - apply IH. intros x Hx. apply Hpos. now right.
Qed.

Lemma add_discount_pct_range_witness :
  Forall2 (fun r r' =>
             Raw.Package_price r' = Raw.Package_price r
             /\ Raw.Retail_price r' = Raw.Retail_price r
             /\ exists d,
                  Raw.discount_pct r' = Fin d
                  /\ 0 <= d /\ d <= 1
                  /\ (F.gt (Raw.Retail_price r) (Raw.Package_price r) = false ->
                      d == 0))
          [raw_chicken 7 (Fin 8)] (add_discount_pct [raw_chicken 7 (Fin 8)]).
Proof.
  apply (add_discount_pct_range [raw_chicken 7 (Fin 8)]).
  intros r [<-|[]]. exists 7. split; reflexivity.
Defined.

(** X23.  A product with a positive package price and no usable retail
    price (missing or not positive) gets the retail price
    [1.1 * Package_price] and with it a discount of exactly 0.0909; a
    usable retail price is left alone by [fill_retail_price]. *)
Theorem fill_retail_price_discount (r : Raw.t) (p : Q) :
  Raw.Package_price r = Fin p -> 0 < p ->
  (F.isna (Raw.Retail_price r) || F.le (Raw.Retail_price r) (Fin 0) = true ->
   Raw.Retail_price (fill_retail_price_row r) = Fin (p * (11 # 10))
   /\ exists d,
        Raw.discount_pct (add_discount_pct_row (fill_retail_price_row r))
        = Fin d
        /\ d == 909 # 10000)
  /\ (F.isna (Raw.Retail_price r) || F.le (Raw.Retail_price r) (Fin 0) = false ->
      fill_retail_price_row r = r).
Proof.
  intros Hp Hpos. split.
  - intros Hmask. unfold add_discount_pct_row, fill_retail_price_row.
    cbn [Raw.discount_pct Raw.Retail_price Raw.Package_price].
    rewrite Hmask, Hp. cbn [F.mul F.gt].
    assert (Hgt : Qle_bool (p * (11 # 10)) p = false).
    { apply Bool.not_true_iff_false. rewrite Qle_bool_iff. lra. }
    rewrite Hgt. cbn [negb F.sub F.div fclip fround].
    split; [reflexivity|]. eexists. split; [reflexivity|].
    assert (Hq : (p * (11 # 10) - p) / (p * (11 # 10)) == 1 # 11)
      by (field; lra).
    rewrite (round_dec_comp 4 _ (1 # 11)); [reflexivity|].
    rewrite Qclip_id; [exact Hq | rewrite Hq; discriminate
                      | rewrite Hq; discriminate].
  - intros Hmask. unfold fill_retail_price_row. rewrite Hmask.
    now destruct r.
Qed.

Lemma fill_retail_price_discount_witness :
  Raw.Retail_price (fill_retail_price_row (raw_chicken (65 # 10) NaN))
  = Fin ((65 # 10) * (11 # 10))
  /\ exists d,
       Raw.discount_pct
         (add_discount_pct_row (fill_retail_price_row (raw_chicken (65 # 10) NaN)))
       = Fin d
       /\ d == 909 # 10000.
Proof.
  apply (proj1 (fill_retail_price_discount (raw_chicken (65 # 10) NaN) (65 # 10)
                  eq_refl eq_refl)).
  reflexivity.
Defined.

(** X24.  [add_value_score] gives a null whenever the price per 100g is
    null or not positive.  For a non-negative category median the score of
    a product with a positive price per 100g is a number in [0, 10]; of two
    such products with the same median the one with the lower price per
    100g never has the lower score; and a product priced at the median
    scores exactly 1. *)
Theorem add_value_score_monotone (r1 r2 : Raw.t) (m g1 g2 : Q) :
  Raw.category_median_price r1 = Fin m ->
  Raw.category_median_price r2 = Fin m ->
  0 <= m ->
  Raw.price_per_100g r1 = Fin g1 -> Raw.price_per_100g r2 = Fin g2 ->
  0 < g1 -> g1 <= g2 ->
  exists v1 v2,
    Raw.value_score (add_value_score_row r1) = Fin v1
    /\ Raw.value_score (add_value_score_row r2) = Fin v2
    /\ v2 <= v1
    /\ 0 <= v2 /\ v1 <= 10
    /\ (g1 == m -> v1 == 1)
    /\ (forall r, F.gt (Raw.price_per_100g r) (Fin 0) = false ->
                  Raw.value_score (add_value_score_row r) = NaN).
Proof.
  intros Hm1 Hm2 Hm Hg1 Hg2 Hpos Hle.
  unfold add_value_score_row. cbn [Raw.value_score].
  rewrite Hm1, Hm2, Hg1, Hg2. cbn [F.gt].
  assert (E1 : Qle_bool g1 0 = false)
    by (apply Bool.not_true_iff_false; rewrite Qle_bool_iff; lra).
  assert (E2 : Qle_bool g2 0 = false)
    by (apply Bool.not_true_iff_false; rewrite Qle_bool_iff; lra).
  rewrite E1, E2. cbn [negb F.div fclip fround].
  eexists. eexists. split; [reflexivity|]. split; [reflexivity|].
  assert (Hinv : / g2 <= / g1).
  { apply Qle_shift_inv_l; [lra|].
    setoid_replace (/ g2 * g1) with (g1 / g2) by (unfold Qdiv; ring).
    apply Qle_shift_div_r; lra. }
  split.
  { apply round_dec_mono, Qclip_mono. unfold Qdiv.
    setoid_replace (m * / g2) with (/ g2 * m) by ring.
    setoid_replace (m * / g1) with (/ g1 * m) by ring.
    now apply Qmult_le_compat_r. }
  destruct (Qclip_range 0 10 (m / g2)) as [A1 A2]; [discriminate|].
  destruct (Qclip_range 0 10 (m / g1)) as [B1 B2]; [discriminate|].
  split; [apply (round_dec_range 4 0 10 _ A1 A2)|].
  split; [apply (round_dec_range 4 0 10 _ B1 B2)|].
  split.
  - intros Eq.
    assert (Hq : m / g1 == 1) by (rewrite <- Eq; field; lra).
    rewrite (round_dec_comp 4 _ 1); [reflexivity|].
    rewrite Qclip_id; [exact Hq | rewrite Hq; discriminate
                      | rewrite Hq; discriminate].
  - intros r Hr. now rewrite Hr.
Qed.

Lemma add_value_score_monotone_witness :
  exists v1 v2,
    Raw.value_score
      (add_value_score_row (Raw.mk (Fin 5) NaN NaN "" "" (Fin (1 # 2)) (Fin 1) NaN NaN))
    = Fin v1
    /\ Raw.value_score
         (add_value_score_row (Raw.mk (Fin 20) NaN NaN "" "" (Fin 2) (Fin 1) NaN NaN))
       = Fin v2
    /\ v2 <= v1
    /\ 0 <= v2 /\ v1 <= 10
    /\ (1 # 2 == 1 -> v1 == 1)
    /\ (forall r, F.gt (Raw.price_per_100g r) (Fin 0) = false ->
                  Raw.value_score (add_value_score_row r) = NaN).
Proof.
  apply (add_value_score_monotone
           (Raw.mk (Fin 5) NaN NaN "" "" (Fin (1 # 2)) (Fin 1) NaN NaN)
           (Raw.mk (Fin 20) NaN NaN "" "" (Fin 2) (Fin 1) NaN NaN)
           1 (1 # 2) 2); try reflexivity; discriminate.
Defined.

(** X25.  The price per 100g computed by [normalize_unit_price] is null
    exactly when the unit price is null or not positive; and for a product
    with a positive package price a non-null value is positive. *)
Theorem calc_per_100g_positive
        (gram_amount : string -> option Q) (row : Raw.t) :
  (F.isna (calc_per_100g gram_amount row) = true
   <-> F.isna (Raw.unit_price row) || F.le (Raw.unit_price row) (Fin 0) = true)
  /\ (forall p v,
         Raw.Package_price row = Fin p -> 0 < p ->
         calc_per_100g gram_amount row = Fin v -> 0 < v).
Proof.
  unfold calc_per_100g.
  destruct (Raw.unit_price row) as [|u] eqn:Eu; simpl.
  - split; [tauto | discriminate].
  - destruct (Qle_bool u 0) eqn:E0.
    + split; [tauto | discriminate].
    + apply Bool.not_true_iff_false in E0. rewrite Qle_bool_iff in E0.
      assert (Hu : 0 < u) by lra.
      assert (Hu10 : 0 < u / 10).
      { apply Qlt_shift_div_l; lra. }
      destruct (_ || _).
      { split; [split; discriminate|]. intros p v _ _ H.
        injection H as <-. exact Hu. }
      destruct (_ || _).
      { split; [split; discriminate|]. intros p v _ _ H.
        injection H as <-. exact Hu10. }
      destruct (_ || _).
      { split; [split; discriminate|]. intros p v _ _ H.
        injection H as <-. exact Hu10. }
      destruct (gram_amount (Raw.package_size row)) as [grams|].
      * destruct (Qeq_bool grams 0) eqn:Eg0; simpl.
        { split; [split; discriminate|]. intros p v _ _ H.
          injection H as <-. exact Hu. }
        destruct (Qle_bool grams 0) eqn:Eg; simpl.
        { split; [split; discriminate|]. intros p v _ _ H.
          injection H as <-. exact Hu. }
        apply Bool.not_true_iff_false in Eg. rewrite Qle_bool_iff in Eg.
        destruct (Raw.Package_price row) as [|pp]; simpl.
        { split; [split; discriminate|]. intros p v H. discriminate H. }
        split; [split; discriminate|]. intros p v Hp Hpos H.
        injection Hp as ->. injection H as <-.
        assert (Hq : 0 < p / grams) by (apply Qlt_shift_div_l; lra).
        lra.
      * split; [split; discriminate|]. intros p v _ _ H.
        injection H as <-. exact Hu.
Qed.

Lemma calc_per_100g_positive_witness :
  match calc_per_100g (fun _ => None) (raw_chicken (65 # 10) NaN) with
  | Fin v => 0 < v
  | NaN => False
  end.
Proof.
  destruct (calc_per_100g (fun _ => None) (raw_chicken (65 # 10) NaN))
    as [|v] eqn:E.
  - vm_compute in E. discriminate E.
  - apply (proj2 (calc_per_100g_positive (fun _ => None)
                    (raw_chicken (65 # 10) NaN)) (65 # 10) v).
    + reflexivity.
    + reflexivity.
    + exact E.
Defined.

(** The case of [tests/test_cleaner.py]: 6.50 per kg is 0.65 per 100g. *)
Example test_normalize_unit_price :
  F.eq (calc_per_100g (fun _ => None) (raw_chicken (65 # 10) NaN))
       (Fin (65 # 100)).
Proof. reflexivity. Qed.

(** ** filter_in_stock *)

Lemma select_length {A : Type} (df : list A) :
  forall mask,
    List.length mask = List.length df ->
    List.length (select df mask)
    = List.length (filter (fun b : bool => b) mask).
Proof.
  unfold select. induction df as [|x df IH]; intros [|b mask] H;
    try discriminate; [reflexivity|].
  simpl in *. destruct b; simpl; rewrite IH by lia; reflexivity.
Qed.

Lemma select_In {A : Type} (df : list A) (mask : list bool) (x : A) :
  In x (select df mask) -> In x df.
Proof.
  unfold select. intros H. apply in_map_iff in H.
  destruct H as ([y b] & <- & H). apply filter_In in H.
  destruct H as [H _]. now apply in_combine_l in H.
Qed.

Lemma in_stock_mask_length (col : InStockColumn) :
  List.length (in_stock_mask col)
  = match col with
    | NumericColumn cells => List.length cells
    | ObjectColumn cells => List.length cells
    end.
Proof. destruct col; simpl; apply length_map. Qed.

(** X26.  [filter_in_stock] is a soft filter: when no row is in stock the
    frame comes back unchanged; otherwise exactly the in-stock rows are
    kept, as many as the column has in-stock cells.  In both cases only
    rows of the frame are returned, and a non-empty frame is never turned
    into an empty one. *)
Theorem filter_in_stock_soft {A : Type} (col : InStockColumn) (df : list A) :
  List.length (in_stock_mask col) = List.length df ->
  (forall x, In x (filter_in_stock col df) -> In x df)
  /\ (df <> [] -> filter_in_stock col df <> [])
  /\ (forallb negb (in_stock_mask col) = true -> filter_in_stock col df = df)
  /\ (forallb negb (in_stock_mask col) = false ->
      filter_in_stock col df = select df (in_stock_mask col)
      /\ List.length (filter_in_stock col df)
         = List.length (filter (fun b : bool => b) (in_stock_mask col))).
Proof.
  intros Hlen. unfold filter_in_stock.
  set (mask := in_stock_mask col) in *.
  assert (Hcount : (List.length (filter (fun b : bool => b) mask) =? 0)%nat
                   = forallb negb mask).
  { clear. induction mask as [|b mask IH]; [reflexivity|].
    destruct b; simpl; [reflexivity | exact IH]. }
  rewrite Hcount. destruct (forallb negb mask) eqn:E.
  - repeat split; auto; discriminate.
  - split; [intros x; apply select_In|]. split.
    + intros _ Hnil.
      pose proof (select_length df mask Hlen) as Hl. rewrite Hnil in Hl.
      simpl in Hl. symmetry in Hl. apply Nat.eqb_eq in Hl. congruence.
    + split; [discriminate|]. intros _. split; [reflexivity|].
      now apply select_length.
Qed.

Lemma filter_in_stock_soft_witness :
  filter_in_stock (ObjectColumn ["False"; "no"]%string) [1%nat; 2%nat]
  = [1%nat; 2%nat]
  /\ filter_in_stock (NumericColumn [Fin 1; NaN; Fin 1]) [1%nat; 2%nat; 3%nat]
     = select [1%nat; 2%nat; 3%nat]
              (in_stock_mask (NumericColumn [Fin 1; NaN; Fin 1])).
Proof.
  split.
  - apply (proj1 (proj2 (proj2 (filter_in_stock_soft
                                  (ObjectColumn ["False"; "no"]%string)
                                  [1%nat; 2%nat] eq_refl)))).
    reflexivity.
  - apply (proj2 (proj2 (proj2 (filter_in_stock_soft
                                  (NumericColumn [Fin 1; NaN; Fin 1])
                                  [1%nat; 2%nat; 3%nat] eq_refl)))).
    reflexivity.
Defined.

Example filter_in_stock_object_column :
  filter_in_stock (ObjectColumn [" true "; "0"; "1.0"]%string)
                  ["a"; "b"; "c"]%string
  = ["a"; "c"]%string.
Proof. reflexivity. Qed.

(** ** BudgetRanker.train *)

Lemma iloc_total {A : Type} (df : list A) (idx : list nat) :
  (forall i, In i idx -> (i < List.length df)%nat) ->
  exists rows, iloc df idx = Ok rows.
Proof.
  intros H. unfold iloc. apply mapM_total. intros i Hi.
  specialize (H i Hi). apply nth_error_Some in H.
  destruct (nth_error df i); [eauto | congruence].
Qed.

(** X27.  [train] leaves the ranker as it is when the frame is empty or
    fewer than 10 rows have both a price per 100g and a value score.
    Otherwise label construction cannot fail (the rows with null value
    scores were dropped), and with a splitter that returns positions of
    the frame and a learner that returns, [train] ends with a ranker that
    has a model. *)
Theorem train_guards
        (lgb_train : Learner) (splitter : Splitter)
        (self : BudgetRanker) (df : list Row) :
  ((List.length (dropna_training df) < 10)%nat ->
   train lgb_train splitter self df = Ok self)
  /\ ((10 <= List.length (dropna_training df))%nat ->
      splitter_contract splitter ->
      exists predict,
        train lgb_train splitter self df = Ok (mkRanker (Some predict))).
Proof.
  unfold train. split.
  - intros H. destruct df as [|r df]; [reflexivity|].
    apply Nat.ltb_lt in H. now rewrite H.
  - intros H Hc. destruct df as [|r df]; [simpl in H; lia|].
    set (usable_rows := dropna_training (r :: df)) in *.
    replace (List.length usable_rows <? 10)%nat with false
      by (symmetry; apply Nat.ltb_ge; exact H).
    destruct (_build_groups_and_labels_returns usable_rows)
      as (out & groups & Hout).
    { intros x Hx. apply filter_In in Hx. destruct Hx as [_ Hx].
      apply andb_true_iff in Hx. destruct Hx as [_ Hx].
      now apply negb_true_iff in Hx. }
    rewrite Hout. cbn [bind fst snd].
    destruct (nunique_Sub_category (map fst out) <? 2)%nat; [eauto|].
    destruct (iloc_total out (fst (splitter (map fst out)))) as [tr Htr].
    { intros i Hi. rewrite <- (length_map fst). apply Hc. now left. }
    destruct (iloc_total out (snd (splitter (map fst out)))) as [va Hva].
    { intros i Hi. rewrite <- (length_map fst). apply Hc. now right. }
    rewrite Htr, Hva. cbn [bind]. eauto.
Qed.

Lemma train_guards_witness :
  train (fun _ _ _ _ => Fin 0) (fun _ => ([], [])) BudgetRanker_init
        (rows sample_products)
  = Ok BudgetRanker_init.
Proof.
  apply (proj1 (train_guards (fun _ _ _ _ => Fin 0) (fun _ => ([], []))
                  BudgetRanker_init (rows sample_products))).
  simpl. lia.
Defined.

(** ** clean_prices, fill_retail_price and add_discount_pct in sequence *)


(* ================================================================== *)
(** * Properties on doubles *)

Module Binary64Facts.
Import PrimFloat.
Import Binary64.
#[local] Set Warnings "-inexact-float".

(** ** The order of doubles *)

Lemma Prim2SF_not_nan (x : float) :
  is_nan x = false -> FloatOps.Prim2SF x <> SpecFloat.S754_nan.
Proof.
  intros H. unfold FloatOps.Prim2SF. rewrite H.
  destruct (is_zero x); [discriminate|].
  destruct (is_infinity x); [discriminate|].
  destruct (FloatOps.Z.frexp x) as [r e].
  destruct (SpecFloat.shr_fexp _ _ _ _ _) as [shr e'].
  destruct (SpecFloat.shr_m shr); discriminate.
Qed.

Lemma SFcompare_not_nan (a b : SpecFloat.spec_float) :
  a <> SpecFloat.S754_nan -> b <> SpecFloat.S754_nan ->
  exists c, SpecFloat.SFcompare a b = Some c.
Proof.
  destruct a, b; simpl; intros Ha Hb; try contradiction; eauto.
Qed.


Lemma SFcompare_opp (a b : SpecFloat.spec_float) (c : comparison) :
  SpecFloat.SFcompare a b = Some c ->
  SpecFloat.SFcompare b a = Some (CompOpp c).
Proof.
  destruct a as [sa|sa| |sa ma ea], b as [sb|sb| |sb mb eb]; simpl;
    intros H; try discriminate; injection H as <-;
    try (destruct sa; reflexivity); try (destruct sb; reflexivity);
    try (destruct sa, sb; reflexivity).
  destruct sa, sb; try reflexivity.
  - rewrite (Z.compare_antisym ea eb).
    destruct (ea ?= eb)%Z; simpl; try reflexivity.
    change (PosDef.Pos.compare_cont Eq) with Pos.compare.
    rewrite (Pos.compare_antisym ma mb). now destruct (ma ?= mb)%positive.
  - rewrite (Z.compare_antisym ea eb).
    destruct (ea ?= eb)%Z; simpl; try reflexivity.
    change (PosDef.Pos.compare_cont Eq) with Pos.compare.
    rewrite (Pos.compare_antisym ma mb). now destruct (ma ?= mb)%positive.
Qed.

(** [SFcompare] orders by sign, then exponent, then mantissa. *)
Lemma SFcompare_trans (a b c : SpecFloat.spec_float) (c1 c2 : comparison) :
  SpecFloat.SFcompare a b = Some c1 -> SpecFloat.SFcompare b c = Some c2 ->
  c1 <> Gt -> c2 <> Gt ->
  exists c3, SpecFloat.SFcompare a c = Some c3 /\ c3 <> Gt.
Proof.
  destruct a as [sa|sa| |sa ma ea], b as [sb|sb| |sb mb eb],
    c as [sc|sc| |sc mc ec]; simpl; intros H1 H2 L1 L2;
    try discriminate; injection H1 as <-; injection H2 as <-;
    try (eexists; split; [reflexivity|]);
    try (destruct sa; try congruence);
    try (destruct sb; try congruence);
    try (destruct sc; try congruence);
    try discriminate.
  all: change (PosDef.Pos.compare_cont Eq) with Pos.compare in *.
  all: destruct (Z.compare_spec ea eb), (Z.compare_spec eb ec),
         (Z.compare_spec ea ec); simpl in *; try congruence;
         try discriminate; try lia.
  all: destruct (Pos.compare_spec ma mb), (Pos.compare_spec mb mc),
         (Pos.compare_spec ma mc); simpl in *; try congruence;
         try discriminate; try lia.
Qed.

Lemma leb_total (x y : float) :
  is_nan x = false -> is_nan y = false ->
  (x <=? y)%float = false -> (y <=? x)%float = true.
Proof.
  intros Hx Hy. rewrite !FloatAxioms.leb_spec. unfold SpecFloat.SFleb.
  destruct (SFcompare_not_nan _ _ (Prim2SF_not_nan _ Hx) (Prim2SF_not_nan _ Hy))
    as [c Hc].
  rewrite Hc, (SFcompare_opp _ _ _ Hc). now destruct c.
Qed.

Lemma leb_trans (x y z : float) :
  (x <=? y)%float = true -> (y <=? z)%float = true -> (x <=? z)%float = true.
Proof.
  rewrite !FloatAxioms.leb_spec. unfold SpecFloat.SFleb.
  destruct (SpecFloat.SFcompare (FloatOps.Prim2SF x) (FloatOps.Prim2SF y))
    as [c1|] eqn:E1; [|discriminate].
  destruct (SpecFloat.SFcompare (FloatOps.Prim2SF y) (FloatOps.Prim2SF z))
    as [c2|] eqn:E2; [|now destruct c1].
  intros L1 L2.
  destruct (SFcompare_trans _ _ _ _ _ E1 E2) as (c3 & -> & L3).
  - now destruct c1.
  - now destruct c2.
  - now destruct c3.
Qed.



(** ** Sorting a list whose keys are comparable *)

Section SortOn.
Context {A : Type}.
Variable leb : A -> A -> bool.
Variable P : A -> Prop.
Hypothesis leb_total_on :
  forall x y, P x -> P y -> leb x y = false -> leb y x = true.
Hypothesis leb_trans_all :
  forall x y z, leb x y = true -> leb y z = true -> leb x z = true.



End SortOn.


(** ** rank_products on doubles *)

Lemma sort_values_desc_In_f64 (key : Row -> f64) (rs : list Row) (r : Row) :
  In r (sort_values_desc key rs) <-> In r rs.
Proof.
  unfold sort_values_desc.
  rewrite in_app_iff, <- in_rev, sort_by_In, <- in_rev, !filter_In.
  split.
  - intros [[H _]|[H _]]; exact H.
  - intros H. destruct (is_nan (key r)); simpl; auto.
Qed.


Lemma rank_products_rows_f64 (self : BudgetRanker) (df : DataFrame)
      (budget : f64) (top_n : Z) :
  rows (rank_products self df budget top_n)
  = head top_n (sort_values_desc (total_score self (has_search_score df))
                                 (guarded df budget)).
Proof.
  unfold rank_products, guarded.
  destruct (filter _ (rows df)) as [|c cs] eqn:Ec.
  - simpl. unfold sort_values_desc. simpl. now rewrite head_nil.
  - destruct (has_search_score df).
    + destruct (filter _ (c :: cs)) as [|d ds] eqn:Ed.
      * simpl. unfold sort_values_desc. simpl. now rewrite head_nil.
      * reflexivity.
    + rewrite (filter_all (fun _ => true)) by reflexivity. reflexivity.
Qed.

Lemma rank_products_In_f64 (self : BudgetRanker) (df : DataFrame)
      (budget : f64) (top_n : Z) (r : Row) :
  In r (rows (rank_products self df budget top_n)) -> In r (rows df).
Proof.
  rewrite rank_products_rows_f64. intros H.
  apply slice_to_In, sort_values_desc_In_f64 in H.
  unfold guarded in H. apply filter_In in H. destruct H as [H _].
  apply filter_In in H. tauto.
Qed.





(** Without search scores the fused score is the sum of doubles
    [value_score + discount_pct]: at a value score of 2^53 a discount of 1
    is absorbed, the two candidates tie and keep their input order. *)
Example fallback_absorbed_discount :
  rule_score heavy = rule_score heavy_discount
  /\ map Product_Name
         (rows (rank_products BudgetRanker_init
                              (mkDF false [heavy; heavy_discount])
                              10%float 10%Z))
     = ["heavy"; "heavy discount"]%string.
Proof. split; reflexivity. Qed.

(** ** Rounding on doubles *)

Lemma round_half_even_near (q : Q) :
  Qabs (inject_Z (round_half_even q) - q) <= 1 # 2.
Proof.
  pose proof (Qfloor_le q) as H1. pose proof (Qlt_floor q) as H2.
  rewrite inject_Z_plus in H2. change (inject_Z 1) with 1 in H2.
  apply Qabs_Qle_condition. unfold round_half_even.
  destruct (Z.even (Qfloor q));
    destruct (Qle_bool (q - inject_Z (Qfloor q)) (1 # 2)) eqn:A;
    destruct (Qle_bool (1 # 2) (q - inject_Z (Qfloor q))) eqn:B;
    rewrite ?inject_Z_plus; change (inject_Z 1) with 1;
    repeat match goal with
           | H : Qle_bool _ _ = true |- _ => apply Qle_bool_iff in H
           | H : Qle_bool _ _ = false |- _ =>
               apply Bool.not_true_iff_false in H;
               rewrite Qle_bool_iff in H; apply Qnot_le_lt in H
           end;
    set (f := inject_Z (Qfloor q)) in *; clearbody f;
    split; lra.
Qed.

Lemma value_pos (m : positive) (e : Z) : 0 < value m e.
Proof.
  unfold value. destruct (0 <=? e)%Z eqn:E.
  - apply Z.leb_le in E. rewrite <- (Zlt_Qlt 0).
    apply Z.mul_pos_pos; [lia | now apply Z.pow_pos_nonneg].
  - reflexivity.
Qed.

Lemma round_half_even_nonneg (q : Q) : 0 <= q -> (0 <= round_half_even q)%Z.
Proof.
  intros H. change 0%Z with (round_half_even 0).
  now apply round_half_even_mono.
Qed.

(** [Series.round] rounds in the sense of [rounded_to]. *)
Lemma np_round_rounded_to (decimals : nat) (x : f64) :
  rounded_to decimals x (np_round decimals x).
Proof.
  unfold rounded_to, np_round, rint.
  destruct (FloatOps.Prim2SF (x * power_of_ten decimals)%float)
    as [s|s| |s m e]; try reflexivity.
  destruct (0 <=? e)%Z; [reflexivity|].
  exists (round_half_even (value m e)). split; [|split].
  - apply round_half_even_nonneg, Qlt_le_weak, value_pos.
  - apply round_half_even_near.
  - reflexivity.
Qed.

(** ** recommend on doubles *)

Lemma soft_filter_In_f64 (mask : Row -> bool) (rs : list Row) (r : Row) :
  In r (soft_filter mask rs) -> In r rs.
Proof.
  unfold soft_filter. destruct (0 <? _)%nat; [|auto].
  intros H. apply filter_In in H. tauto.
Qed.

Lemma location_filter_In_f64 (city' state' : option string) (rs : list Row) (r : Row) :
  In r (location_filter city' state' rs) -> In r rs.
Proof.
  unfold location_filter.
  destruct (truthy state'), (truthy city'); intros H;
    repeat (apply soft_filter_In_f64 in H); exact H.
Qed.

(** Every record is [to_record] of a row that retrieval returned. *)
Lemma recommend_records_f64 (self : InferencePipeline) (q : string) (budget : f64)
      (city' state' : option string) (top_n : Z) (out : list Out.t) (o : Out.t) :
  recommend self q budget city' state' top_n = Ok out -> In o out ->
  exists cands r,
    search_index self q 50 = Ok cands /\ In r (rows cands) /\ o = to_record r.
Proof.
  unfold recommend, bind.
  destruct (search_index self q 50) as [cands|e]; [|discriminate].
  destruct (empty cands).
  { intros H. injection H as <-. contradiction. }
  destruct (empty (rank_products _ _ _ _)).
  { intros H. injection H as <-. contradiction. }
  intros H Ho. injection H as <-.
  apply in_map_iff in Ho. destruct Ho as [r [<- Hr]].
  exists cands, r. split; [reflexivity|]. split; [|reflexivity].
  apply rank_products_In_f64 in Hr. simpl in Hr.
  now apply location_filter_In_f64 in Hr.
Qed.

(** C10.  Every record of a successful [recommend] comes from a row [r]
    that retrieval returned: its [Package_price], [price_per_100g] and
    [value_score] are those of [r] rounded to 2 decimals, and its
    [discount_pct] is the 0-to-1 fraction of [r] times 100, rounded to 1
    decimal: a percentage.  Rounding is [Series.round] on doubles. *)
Theorem recommend_output_rounded
        (self : InferencePipeline) (q : string) (budget : f64)
        (city' state' : option string) (top_n : Z)
        (out : list Out.t) (o : Out.t) :
  recommend self q budget city' state' top_n = Ok out -> In o out ->
  exists cands r,
    search_index self q 50 = Ok cands /\ In r (rows cands)
    /\ Out.Product_Name o = Product_Name r
    /\ rounded_to 2 (Package_price r) (Out.Package_price o)
    /\ rounded_to 2 (price_per_100g r) (Out.price_per_100g o)
    /\ rounded_to 2 (value_score r) (Out.value_score o)
    /\ rounded_to 1 (discount_pct r * 100)%float (Out.discount_pct o).
Proof.
  intros H Ho.
  destruct (recommend_records_f64 _ _ _ _ _ _ _ _ H Ho) as (cands & r & Hs & Hr & ->).
  exists cands, r. split; [exact Hs|]. split; [exact Hr|].
  split; [reflexivity|]. simpl.
  repeat split; apply np_round_rounded_to.
Qed.

(** The cells of [tie_product] lie next to rounding ties: 0.545, 1.015,
    2.675 and the fraction 0.0145 are reported as 0.55, 1.01, 2.68 and
    1.5 percent. *)
Lemma recommend_output_rounded_witness :
  exists cands r,
    sample_search [tie_product] "tie" 50 = Ok cands /\ In r (rows cands)
    /\ "tie"%string = Product_Name r
    /\ rounded_to 2 (Package_price r) 0.55%float
    /\ rounded_to 2 (price_per_100g r) 1.01%float
    /\ rounded_to 2 (value_score r) 2.68%float
    /\ rounded_to 1 (discount_pct r * 100)%float 1.5%float.
Proof.
  apply (recommend_output_rounded
           (mkPipeline BudgetRanker_init (sample_search [tie_product]))
           "tie" 10%float None None 10%Z
           [to_record tie_product] (to_record tie_product)).
  - reflexivity.
  - now left.
Defined.

Example recommend_near_ties :
  recommend (mkPipeline BudgetRanker_init (sample_search [tie_product]))
            "tie" 10%float None None 10%Z
  = Ok [Out.mk "tie" "" "Fruit" 0.55%float 1.01%float 1.5%float 2.68%float
               0 1 "Sydney" "NSW" ""].
Proof. reflexivity. Qed.

(** [Series.round] and Python's [round] differ: the double 0.005 times 100
    is the tie 0.5, which [rint] sends to 0, while the double itself lies
    above the decimal tie. *)
Example np_round_and_py_round :
  np_round 2 0.005%float = 0%float /\ py_round 2 0.005%float = 0.01%float
  /\ py_round 2 2.675%float = 2.67%float.
Proof. repeat split; reflexivity. Qed.

(** ** recommend_basket on doubles *)

Lemma basket_loop_totals (pipeline : Recommender) (request : Request.t)
      (per_item : f64) (items : list string) :
  forall basket total basket' total',
    basket_loop pipeline request per_item items basket total
    = Ok (basket', total') ->
    exists lines,
      basket' = basket ++ lines
      /\ total' = fold_left (fun acc line => (acc + estimated_cost line)%float)
                            lines total.
Proof.
  induction items as [|q items IH]; simpl; intros basket total basket' total' H.
  - injection H as <- <-. exists []. now rewrite app_nil_r.
  - unfold bind in H at 1.
    destruct (basket_line pipeline request per_item q) as [line|e];
      [|discriminate].
    apply IH in H. destruct H as (lines & -> & ->).
    exists (line :: lines). now rewrite <- app_assoc.
Qed.

(** What the planner reports: the flag compares the sum of the line costs
    as accumulated in double precision, the total is that sum rounded. *)
Lemma recommend_basket_totals (request : Request.t) (pipeline : Recommender)
      (resp : Response.t) :
  recommend_basket request pipeline = Ok resp ->
  let total :=
    fold_left (fun acc line => (acc + estimated_cost line)%float)
              (Response.basket resp) 0%float in
  Response.estimated_total resp = py_round 2 total
  /\ Response.within_budget resp
     = (total <=? Request.total_budget request)%float
  /\ Response.total_budget resp = Request.total_budget request.
Proof.
  unfold recommend_basket.
  destruct (List.length (Request.items request) =? 0)%nat; [discriminate|].
  unfold bind.
  destruct (basket_loop _ _ _ _ _ _) as [[basket total]|e] eqn:E; [|discriminate].
  intros H. injection H as <-. simpl.
  apply basket_loop_totals in E. destruct E as (lines & -> & ->).
  simpl. repeat split.
Qed.

(** C3 (failing input).  A basket of an apple at 1.10 and a pear at 2.20
    with a total budget of 3.30.  The sum [0.0 + 1.1 + 2.2] is the double
    3.3000000000000003, which is above the double 3.3: the response
    reports [estimated_total = 3.3], [total_budget = 3.3] and
    [within_budget = False], although the reported total is not above the
    budget. *)
Theorem recommend_basket_flag_divergence :
  exists resp,
    recommend_basket sample_request (recommend sample_pipeline) = Ok resp
    /\ map estimated_cost (Response.basket resp) = [1.1%float; 2.2%float]
    /\ Response.total_budget resp = 3.3%float
    /\ Response.estimated_total resp = 3.3%float
    /\ Response.within_budget resp = false
    /\ (Response.estimated_total resp <=? Response.total_budget resp)%float
       = true.
Proof.
  eexists. split; [reflexivity|]. repeat split.
Qed.

End Binary64Facts.
